(** * Question editor: validation, coercion and GIFT import

    A shallow embedding of [coursebuilder/modules/dashboard/question_editor.py]
    and the properties of its REST handlers.

    Python objects that the handlers mutate (the dicts passed to
    [sanitize_input_dict], [_validate15], [convert_to_dtos], ...) live in a
    heap and are passed by location, so that aliasing and in-place updates
    are visible.  JSON data nested inside such a dict is owned by it and is
    embedded by value.  A string holds the characters of a Python string
    object, [str] or [unicode]; which of the two a handler is given matters
    to [.strip()] only.  Exceptions are explicit: a computation returns a
    [result] together with the state reached when it stopped, because an
    in-place update made before a [raise] stays made.

    What the module does not own is an interface: the interpreter's
    [.strip()] and its [float], [int] and [long] parsers ([Builtins]), the
    persistence layer ([Models]) and the request plumbing with the GIFT
    parser ([Platform]).
    The handlers come first, one module per class; then the vocabulary of
    the statements, an instance of the interfaces on which everything
    runs, and the properties. *)

From Stdlib Require Import ZArith Ascii String List Floats.SpecFloat Lia.
From stdpp Require Import base option gmap strings list fin_maps pretty
  sorting.

Set Warnings "-register-all".

Local Open Scope Z_scope.

(** ** Python values *)

Inductive value : Type :=
| VNone
| VBool (b : bool)
| VInt (z : Z)
| VFloat (f : spec_float)
| VStr (s : string)
| VList (l : list value)
| VDict (d : gmap string value).

Abbreviation pydict := (gmap string value).
Abbreviation loc := positive.

Inductive exn : Type :=
| KeyError
| IndexError
| TypeError
| AttributeError
| AssertionError
| OverflowError
| UnboundLocalError
| ValueError (msg : string)
| ParseError (msg : string)
| CollisionError (msg : string).

Inductive result (A : Type) : Type :=
| Ok (a : A)
| Raise (e : exn).
Arguments Ok {A} a.
Arguments Raise {A} e.

#[global] Instance result_ret : MRet result := fun _ a => Ok a.
#[global] Instance result_bind : MBind result := fun _ _ f r =>
  match r with
  | Ok a => f a
  | Raise e => Raise e
  end.

(** ** Builtins

    [float], [int] and [long] applied to a string are the interpreter's
    parsers; the handlers only depend on whether they succeed.  They are
    taken as an interface, together with the int-to-float conversion.

    So is [s.strip()]: the characters it removes are not the same for a
    [str] and for a [unicode] object (JSON-decoded form data is [unicode],
    for which a no-break space or a U+001C is whitespace too), and the
    handlers only depend on its result. *)

Class Builtins := {
  strip : string → string;
  float_of_string : string → option spec_float;
  float_of_int : Z → option spec_float;
  int_of_string : string → option Z;
  long_of_string : string → option Z
}.

Definition float_is_zero (f : spec_float) : bool :=
  match f with
  | S754_zero _ => true
  | _ => false
  end.

(** Truth value of an object, as tested by [not x] and [if x]. *)
Definition truthy (v : value) : bool :=
  match v with
  | VNone => false
  | VBool b => b
  | VInt z => negb (z =? 0)
  | VFloat f => negb (float_is_zero f)
  | VStr s => negb (String.eqb s "")
  | VList l => match l with [] => false | _ => true end
  | VDict d => negb (bool_decide (d = ∅))
  end.

(** Truncation towards zero of a float, as [int(x)] and [long(x)] do. *)
Definition trunc_float (f : spec_float) : result Z :=
  match f with
  | S754_zero _ => Ok 0
  | S754_infinity _ => Raise OverflowError
  | S754_nan => Raise (ValueError "cannot convert float NaN to integer")
  | S754_finite s m e =>
      let a := match e with
               | Z0 => Z.pos m
               | Zpos p => Z.pos m * 2 ^ Z.pos p
               | Zneg p => Z.pos m / 2 ^ Z.pos p
               end in
      Ok (if s then - a else a)
  end.

Definition float_one : spec_float := S754_finite false 4503599627370496 (-52).
Definition float_zero : spec_float := S754_zero false.

Section Builtin_calls.
Context `{Builtins}.

(** [x.strip()]: only strings have the method. *)
Definition str_strip (v : value) : result string :=
  match v with
  | VStr s => Ok (strip s)
  | _ => Raise AttributeError
  end.

(** [float(x)] *)
Definition py_float (v : value) : result spec_float :=
  match v with
  | VStr s =>
      match float_of_string s with
      | Some f => Ok f
      | None => Raise (ValueError ("could not convert string to float: " +:+ s))
      end
  | VFloat f => Ok f
  | VInt z =>
      match float_of_int z with
      | Some f => Ok f
      | None => Raise OverflowError
      end
  | VBool b => Ok (if b then float_one else float_zero)
  | VNone | VList _ | VDict _ => Raise TypeError
  end.

(** [int(x)] *)
Definition py_int (v : value) : result Z :=
  match v with
  | VStr s =>
      match int_of_string s with
      | Some z => Ok z
      | None =>
          Raise (ValueError ("invalid literal for int() with base 10: " +:+ s))
      end
  | VInt z => Ok z
  | VFloat f => trunc_float f
  | VBool b => Ok (if b then 1 else 0)
  | VNone | VList _ | VDict _ => Raise TypeError
  end.

(** [long(x)] *)
Definition py_long (v : value) : result Z :=
  match v with
  | VStr s =>
      match long_of_string s with
      | Some z => Ok z
      | None =>
          Raise (ValueError ("invalid literal for long() with base 10: " +:+ s))
      end
  | VInt z => Ok z
  | VFloat f => trunc_float f
  | VBool b => Ok (if b then 1 else 0)
  | VNone | VList _ | VDict _ => Raise TypeError
  end.
End Builtin_calls.

(** ** Operations on values *)

(** [len(x)] *)
Definition py_len (v : value) : result nat :=
  match v with
  | VStr s => Ok (String.length s)
  | VList l => Ok (length l)
  | VDict d => Ok (size d)
  | _ => Raise TypeError
  end.

(** [x[k]] with a string subscript [k]. *)
Definition subscript (v : value) (k : string) : result value :=
  match v with
  | VDict d =>
      match d !! k with
      | Some x => Ok x
      | None => Raise KeyError
      end
  | _ => Raise TypeError
  end.

(** [x.get(k)]: only dicts have the method. *)
Definition subscript_get (v : value) (k : string) : result value :=
  match v with
  | VDict d => Ok (default VNone (d !! k))
  | _ => Raise AttributeError
  end.

(** [x[i]] with an integer subscript [i] in [range(0, len(x))].  The keys
    of the dicts handled here are strings, so an integer is never a key. *)
Definition index (v : value) (i : nat) : result value :=
  match v with
  | VList l =>
      match l !! i with
      | Some x => Ok x
      | None => Raise IndexError
      end
  | VStr s =>
      match String.get i s with
      | Some a => Ok (VStr (String a EmptyString))
      | None => Raise IndexError
      end
  | VDict _ => Raise KeyError
  | _ => Raise TypeError
  end.

Definition is_digit (a : ascii) : bool :=
  match a with
  | "0"%char | "1"%char | "2"%char | "3"%char | "4"%char
  | "5"%char | "6"%char | "7"%char | "8"%char | "9"%char => true
  | _ => false
  end.

Fixpoint all_digits (s : string) : bool :=
  match s with
  | EmptyString => true
  | String a s' => is_digit a && all_digits s'
  end.

(** [str(n)] and ['%s' % n] for an integer. *)
Definition str_of_int (z : Z) : string := pretty z.
Definition str_of_nat (n : nat) : string := pretty n.

(** ** The datastore, as this module sees it

    Modelled from the spec: the Question and QuestionGroup records are owned
    by the persistence layer ([models.models]), which is not part of this
    module.  An entity carries the id and the description that [get_all]
    exposes, and the dict that was saved. *)

Record entity := Entity {
  ent_id : Z;
  ent_description : string;
  ent_dict : pydict
}.

Record datastore := Datastore {
  ds_questions : list entity;
  ds_groups : list entity
}.

(** What a handler has sent back. *)
Inductive response : Type :=
| JsonResponse (status : Z) (message : string)
| ValidationError (message : string)
| XsrfRejected.

(** Writes requested from the persistence layer. *)
Inductive dao_call : Type :=
| SaveAll (dtos : list (option Z * pydict))
| CreateQuestionGroup (group : pydict).

(** ** State and the handler monad *)

Record state := State {
  heap : gmap loc pydict;
  errors : list string;
  db : datastore;
  out : list response;
  calls : list dao_call
}.

Definition M (A : Type) : Type := state → result A * state.

#[global] Instance M_ret : MRet M := fun _ a st => (Ok a, st).
#[global] Instance M_bind : MBind M := fun _ _ f c st =>
  match c st with
  | (Ok a, st') => f a st'
  | (Raise e, st') => (Raise e, st')
  end.

Definition raise {A} (e : exn) : M A := fun st => (Raise e, st).

Definition lift {A} (r : result A) : M A := fun st => (r, st).

(** [try: c except ...: h]; [h e = None] when no clause matches [e]. *)
Definition try_except {A} (c : M A) (h : exn → option (M A)) : M A :=
  fun st =>
    match c st with
    | (Ok a, st') => (Ok a, st')
    | (Raise e, st') =>
        match h e with
        | Some k => k st'
        | None => (Raise e, st')
        end
    end.

Fixpoint foreach {A} (l : list A) (body : A → M unit) : M unit :=
  match l with
  | [] => mret tt
  | x :: l' => body x ≫= λ _, foreach l' body
  end.

Definition set_heap (h : gmap loc pydict) (st : state) : state :=
  State h (errors st) (db st) (out st) (calls st).
Definition set_errors (e : list string) (st : state) : state :=
  State (heap st) e (db st) (out st) (calls st).
Definition set_db (d : datastore) (st : state) : state :=
  State (heap st) (errors st) d (out st) (calls st).
Definition set_out (o : list response) (st : state) : state :=
  State (heap st) (errors st) (db st) o (calls st).
Definition set_calls (c : list dao_call) (st : state) : state :=
  State (heap st) (errors st) (db st) (out st) c.

Definition modify (f : state → state) : M unit := fun st => (Ok tt, f st).

(** The dict object at a location.  Every location a handler holds is
    allocated; reading any other one stops the computation. *)
Definition deref (l : loc) : M pydict := fun st =>
  match heap st !! l with
  | Some d => (Ok d, st)
  | None => (Raise TypeError, st)
  end.

(** [d[k]] *)
Definition dict_getitem (l : loc) (k : string) : M value :=
  d ← deref l; lift (subscript (VDict d) k).

(** [d.get(k)] *)
Definition dict_get (l : loc) (k : string) : M value :=
  d ← deref l; mret (default VNone (d !! k)).

(** [d[k] = v] *)
Definition dict_setitem (l : loc) (k : string) (v : value) : M unit :=
  d ← deref l; modify (λ st, set_heap (<[l := <[k := v]> d]> (heap st)) st).

(** A new dict object. *)
Definition alloc (d : pydict) : M loc := fun st =>
  let l := fresh (dom (heap st)) in
  (Ok l, set_heap (<[l := d]> (heap st)) st).

(** [errors.append(msg)] *)
Definition errors_append (msg : string) : M unit :=
  modify (λ st, set_errors (errors st ++ [msg]) st).

Definition when (b : bool) (c : M unit) : M unit :=
  if b then c else mret tt.


(** [x == s] for a string [s]: only a string equals a string. *)
Definition eq_str (v : value) (s : string) : bool :=
  match v with
  | VStr t => String.eqb t s
  | _ => false
  end.

(** [x in l] for a list [l] of strings. *)
Definition in_list (v : value) (l : list string) : bool :=
  existsb (eq_str v) l.

(** [x in s] for a set [s] of strings; the lookup hashes [x] first. *)
Definition in_set (v : value) (s : gset string) : result bool :=
  match v with
  | VStr t => Ok (bool_decide (t ∈ s))
  | VList _ | VDict _ => Raise TypeError
  | _ => Ok false
  end.

Definition get_errors : M (list string) := fun st => (Ok (errors st), st).

(** [QuestionDAO.get_all()] and [QuestionGroupDAO.get_all()] *)
Definition QuestionDAO_get_all : M (list entity) :=
  fun st => (Ok (ds_questions (db st)), st).
Definition QuestionGroupDAO_get_all : M (list entity) :=
  fun st => (Ok (ds_groups (db st)), st).

(** An element of a list held in a dict: [d[field][i]].  The handlers bind
    it to a local ([choice], [grader]) and read and assign its entries. *)
Definition item_getitem (l : loc) (field : string) (i : nat) (k : string)
  : M value :=
  items ← dict_getitem l field;
  item ← lift (index items i);
  lift (subscript item k).

Definition item_setitem (l : loc) (field : string) (i : nat) (k : string)
    (v : value) : M unit :=
  items ← dict_getitem l field;
  item ← lift (index items i);
  match items, item with
  | VList xs, VDict d =>
      dict_setitem l field (VList (<[i := VDict (<[k := v]> d)]> xs))
  | _, _ => raise TypeError
  end.

Definition collision_message : string :=
  "The description must be different from existing questions.".

Definition on_ValueError {A} (k : M A) (e : exn) : option (M A) :=
  match e with
  | ValueError _ => Some k
  | _ => None
  end.

(** * BaseQuestionRESTHandler *)

Module BaseQuestionRESTHandler.
Section Handler.
Context `{Builtins}.

Definition sanitize_input_dict (json_dict : loc) : M unit :=
  description ← dict_getitem json_dict "description";
  stripped ← lift (str_strip description);
  dict_setitem json_dict "description" (VStr stripped).

(** [{q.description for q in qs if not key or q.id != long(key)}] *)
Fixpoint other_descriptions (qs : list entity) (key : value)
  : result (gset string) :=
  match qs with
  | [] => Ok ∅
  | q :: qs' =>
      keep ← (if negb (truthy key) then Ok true
              else k ← py_long key; Ok (negb (ent_id q =? k)));
      rest ← other_descriptions qs' key;
      Ok (if keep : bool then {[ent_description q]} ∪ rest else rest)
  end.

Definition validate_no_description_collision (description key : value)
  : M unit :=
  qs ← QuestionDAO_get_all;
  descriptions ← lift (other_descriptions qs key);
  found ← lift (in_set description descriptions);
  when found (errors_append collision_message).

End Handler.
End BaseQuestionRESTHandler.

(** * McQuestionRESTHandler *)

Module McQuestionRESTHandler.
Section Handler.
Context `{Builtins}.

(** [copy.deepcopy] of a dict object: a new object with the same entries
    (nested data is held by value). *)
Definition deepcopy (l : loc) : M loc :=
  d ← deref l; alloc d.

Definition transform_for_editor_hook (q_dict : loc) : M loc :=
  p_dict ← deepcopy q_dict;
  selections ← dict_get q_dict "multiple_selections";
  _ ← dict_setitem p_dict "multiple_selections"
        (VStr (if truthy selections then "true" else "false"));
  mret p_dict.

Definition no_text_message (index : nat) : string :=
  "Choice " +:+ str_of_nat (index + 1) +:+ " has no response text.".
Definition no_score_message (index : nat) : string :=
  "Choice " +:+ str_of_nat (index + 1) +:+ " must have a numeric score.".

(** The body of the loop over the choices, at [index]. *)
Definition validate_choice (question_dict : loc) (index : nat) : M unit :=
  text ← item_getitem question_dict "choices" index "text";
  stripped ← lift (str_strip text);
  _ ← when (String.eqb stripped "") (errors_append (no_text_message index));
  try_except
    (score ← item_getitem question_dict "choices" index "score";
     f ← lift (py_float score);
     item_setitem question_dict "choices" index "score" (VFloat f))
    (on_ValueError (errors_append (no_score_message index))).

Definition _validate15 (question_dict : loc) (key : value) : M unit :=
  question ← dict_getitem question_dict "question";
  body ← lift (str_strip question);
  _ ← when (String.eqb body "")
        (errors_append "The question must have a non-empty body.");
  description ← dict_getitem question_dict "description";
  _ ← when (negb (truthy description))
        (errors_append "The description must be non-empty.");
  description ← dict_getitem question_dict "description";
  _ ← BaseQuestionRESTHandler.validate_no_description_collision
        description key;
  choices ← dict_getitem question_dict "choices";
  _ ← when (negb (truthy choices))
        (errors_append "The question must have at least one choice.");
  choices ← dict_getitem question_dict "choices";
  n ← lift (py_len choices);
  foreach (seq 0 n) (validate_choice question_dict).

Definition validate (question_dict : loc) (key version : value) : M unit :=
  _validate15 question_dict key.
End Handler.
End McQuestionRESTHandler.

(** * SaQuestionRESTHandler *)

Module SaQuestionRESTHandler.
Section Handler.
Context `{Builtins}.

Definition GRADER_TYPES : list (string * string) :=
  [("case_insensitive", "Case insensitive string match");
   ("regex", "Regular expression");
   ("numeric", "Numeric")].

(** [field] is ['rows'] or ['columns'], [label] its capitalised name. *)
Definition coerce_dimension (question_dict : loc) (field label : string)
  : M unit :=
  try_except
    (raw ← dict_getitem question_dict field;
     n ← lift (py_int raw);
     _ ← dict_setitem question_dict field (VInt n);
     when (n <=? 0)
       (errors_append (label +:+ " must be a positive whole number")))
    (on_ValueError (errors_append (label +:+ " must be a whole number"))).

Definition no_response_message (index : nat) : string :=
  "Answer " +:+ str_of_nat (index + 1) +:+ " has no response text.".
Definition no_score_message (index : nat) : string :=
  "Answer " +:+ str_of_nat (index + 1) +:+ " must have a numeric score.".

(** The body of the loop over the graders, at [index]. *)
Definition validate_grader (question_dict : loc) (index : nat) : M unit :=
  matcher ← item_getitem question_dict "graders" index "matcher";
  _ ← (if in_list matcher (map fst GRADER_TYPES) then mret tt
       else raise AssertionError);
  response ← item_getitem question_dict "graders" index "response";
  stripped ← lift (str_strip response);
  _ ← when (String.eqb stripped "")
        (errors_append (no_response_message index));
  try_except
    (score ← item_getitem question_dict "graders" index "score";
     _ ← lift (py_float score);
     mret tt)
    (on_ValueError (errors_append (no_score_message index))).

Definition _validate15 (question_dict : loc) (key : value) : M unit :=
  question ← dict_getitem question_dict "question";
  body ← lift (str_strip question);
  _ ← when (String.eqb body "")
        (errors_append "The question must have a non-empty body.");
  description ← dict_getitem question_dict "description";
  _ ← when (negb (truthy description))
        (errors_append "The description must be non-empty.");
  description ← dict_getitem question_dict "description";
  _ ← BaseQuestionRESTHandler.validate_no_description_collision
        description key;
  _ ← coerce_dimension question_dict "rows" "Rows";
  _ ← coerce_dimension question_dict "columns" "Columns";
  graders ← dict_getitem question_dict "graders";
  _ ← when (negb (truthy graders))
        (errors_append "The question must have at least one answer.");
  graders ← dict_getitem question_dict "graders";
  n ← lift (py_len graders);
  foreach (seq 0 n) (validate_grader question_dict).

Definition validate (question_dict : loc) (key version : value) : M unit :=
  _validate15 question_dict key.
End Handler.
End SaQuestionRESTHandler.

(** * GiftQuestionRESTHandler *)

(** The persistence layer's constants and writes.  A write returns the new
    ids, or raises, and leaves the datastore in the state it reached. *)
Class Models := {
  VERSION : value;
  MULTIPLE_CHOICE : value;
  SHORT_ANSWER : value;
  dao_save_all :
    list (option Z * pydict) → datastore → result (list Z) * datastore;
  dao_create_question_group : pydict → datastore → result Z * datastore
}.

(** The request plumbing around the handler: JSON decoding, the XSRF and
    role checks, schema conversion and the GIFT parser. *)
Class Platform := {
  loads : value → result value;
  xsrf_token_ok : value → bool;
  is_course_admin : bool;
  json_to_dict : value → result pydict;
  parse_questions : value → result (list pydict);
  str_of_value : value → string
}.

(** Modelled from the spec: [QuestionDTO] is declared in [models.models],
    which is not part of this module; the spec's Question record has an id
    and a type.  A DTO is built from an id and a dict and keeps that very
    dict; its [type] attribute, through which [convert_to_dtos] reads the
    parsed type, is the dict's ['type'] entry. *)
Record QuestionDTO := DTO {
  dto_id : option Z;
  dto_dict : loc
}.

Definition dto_get_type (dto : QuestionDTO) : M value :=
  dict_get (dto_dict dto) "type".
Definition dto_set_type (dto : QuestionDTO) (v : value) : M unit :=
  dict_setitem (dto_dict dto) "type" v.

Definition send_json_response (status : Z) (message : string) : M unit :=
  modify (λ st, set_out (out st ++ [JsonResponse status message]) st).

Definition validation_error (message : string) : M unit :=
  modify (λ st, set_out (out st ++ [ValidationError message]) st).

(** ['\n'.join(l)] *)
Fixpoint join_lines (l : list string) : string :=
  match l with
  | [] => ""
  | [x] => x
  | x :: l' => x +:+ String "010"%char (join_lines l')
  end.

Fixpoint alloc_all (ds : list pydict) : M (list loc) :=
  match ds with
  | [] => mret []
  | d :: ds' => l ← alloc d; ls ← alloc_all ds'; mret (l :: ls)
  end.

Fixpoint deref_all (dtos : list QuestionDTO) : M (list (option Z * pydict)) :=
  match dtos with
  | [] => mret []
  | dto :: dtos' =>
      d ← deref (dto_dict dto);
      rest ← deref_all dtos';
      mret ((dto_id dto, d) :: rest)
  end.

(** A write: it is recorded, and the datastore becomes what the write left. *)
Definition dao_write {A} (c : dao_call)
    (write : datastore → result A * datastore) : M A :=
  fun st =>
    let '(r, db') := write (db st) in
    (r, set_db db' (set_calls (calls st ++ [c]) st)).

Definition on_put_errors {A} (k : string → M A) (e : exn) : option (M A) :=
  match e with
  | ValueError msg | ParseError msg | CollisionError msg => Some (k msg)
  | _ => None
  end.

Module GiftQuestionRESTHandler.
Section Handler.
Context `{Builtins} `{Models} `{Platform}.

(** [QuestionDAO.save_all(dtos)] *)
Definition QuestionDAO_save_all (dtos : list QuestionDTO) : M (list Z) :=
  rows ← deref_all dtos;
  dao_write (SaveAll rows) (dao_save_all rows).

(** [QuestionGroupDAO.create_question_group(group)] *)
Definition QuestionGroupDAO_create_question_group (group : pydict) : M Z :=
  dao_write (CreateQuestionGroup group) (dao_create_question_group group).

Definition validate_question_descriptions (questions : list loc) : M unit :=
  qs ← QuestionDAO_get_all;
  let descriptions := map ent_description qs in
  foreach questions (λ question,
    description ← dict_getitem question "description";
    when (in_list description descriptions)
      (errors_append collision_message)).

Definition validate_group_description (group_description : value) : M unit :=
  grs ← QuestionGroupDAO_get_all;
  let descriptions := map ent_description grs in
  when (in_list group_description descriptions)
    (errors_append "Non-unique group description.").

Fixpoint convert_loop (questions : list loc) (dtos : list QuestionDTO)
  : M (list QuestionDTO) :=
  match questions with
  | [] => mret dtos
  | question :: rest =>
      _ ← dict_setitem question "version" VERSION;
      let dto := DTO None question in
      ty ← dto_get_type dto;
      _ ← (if eq_str ty "multi_choice"
           then dto_set_type dto MULTIPLE_CHOICE
           else dto_set_type dto SHORT_ANSWER);
      convert_loop rest (dtos ++ [dto])
  end.

Definition convert_to_dtos (questions : list loc) : M (list QuestionDTO) :=
  convert_loop questions [].

Definition group_item (x : Z) : value :=
  VDict (<["question" := VStr (str_of_int x)]>
           (<["weight" := VFloat float_one]> ∅)).

Definition group_record (description : value) (question_ids : list Z)
  : pydict :=
  <["version" := VERSION]>
    (<["description" := description]>
       (<["introduction" := VStr ""]>
          (<["items" := VList (map group_item question_ids)]> ∅))).

Definition create_group (description : value) (question_ids : list Z)
  : M Z :=
  QuestionGroupDAO_create_question_group
    (group_record description question_ids).

(** The [try] statement of [put], in its two stages.  The first parses
    and validates; it binds [python_dict] and [questions]. *)
Definition put_validate (json_dict : value) : M (loc * list loc) :=
  converted ← lift (json_to_dict json_dict);
  python_dict ← alloc converted;
  text ← dict_getitem python_dict "questions";
  parsed ← lift (parse_questions text);
  questions ← alloc_all parsed;
  _ ← validate_question_descriptions questions;
  group_description ← dict_getitem python_dict "description";
  _ ← validate_group_description group_description;
  mret (python_dict, questions).

(** The second is the body of [if not errors:]. *)
Definition put_persist (python_dict : loc) (questions : list loc) : M unit :=
  dtos ← convert_to_dtos questions;
  question_ids ← QuestionDAO_save_all dtos;
  group_description ← dict_getitem python_dict "description";
  _ ← create_group group_description question_ids;
  mret tt.

Definition put_try (json_dict : value) : M (option loc) :=
  bound ← put_validate json_dict;
  errs ← get_errors;
  _ ← match errs with
      | [] => put_persist bound.1 bound.2
      | _ :: _ => mret tt
      end;
  mret (Some bound.1).

Definition format_saved (v : value) : string :=
  "Saved: " +:+ (match v with VStr s => s | _ => str_of_value v end) +:+ ".".

(** What follows the [try] statement. *)
Definition put_respond (python_dict : option loc) : M unit :=
  errs ← get_errors;
  match errs with
  | _ :: _ => validation_error (join_lines errs)
  | [] =>
      match python_dict with
      | Some d =>
          description ← dict_getitem d "description";
          send_json_response 200 (format_saved description)
      | None => raise UnboundLocalError
      end
  end.

Definition put (request_param : value) : M unit :=
  request ← lift (loads request_param);
  if negb (xsrf_token_ok request) then
    modify (λ st, set_out (out st ++ [XsrfRejected]) st)
  else if negb is_course_admin then
    send_json_response 401 "Access denied."
  else
    payload ← lift (subscript_get request "payload");
    json_dict ← lift (loads payload);
    _ ← modify (set_errors []);
    python_dict ← try_except (put_try json_dict)
                    (on_put_errors (λ msg, _ ← errors_append msg; mret None));
    put_respond python_dict.

End Handler.
End GiftQuestionRESTHandler.

(** * The vocabulary of the statements

    The shape of the data on which a handler runs to its end, and closed
    forms of what it leaves and reports there. *)

(** A computation that neither responds nor touches the errors list. *)
Definition mute {A} (c : M A) : Prop :=
  ∀ st, out (c st).2 = out st ∧ errors (c st).2 = errors st.

(** A computation that neither writes to the datastore nor responds. *)
Definition quiet {A} (c : M A) : Prop :=
  ∀ st, db (c st).2 = db st ∧ calls (c st).2 = calls st
        ∧ out (c st).2 = out st.

(** The exceptions that [put] turns into a validation error. *)
Definition caught_by_put (e : exn) : option string :=
  match e with
  | ValueError msg | ParseError msg | CollisionError msg => Some msg
  | _ => None
  end.


Module BaseForm.
Section Forms.
Context `{Builtins}.
Import BaseQuestionRESTHandler.

(** The outcome of the collision test, when the key test does not raise. *)
Definition collidesb (qs : list entity) (description : string)
    (key : value) : bool :=
  match other_descriptions qs key with
  | Ok ds => bool_decide (description ∈ ds)
  | Raise _ => false
  end.

(** Some stored question has the description and passes the key test. *)
Definition collides (qs : list entity) (description : string) (key : value)
  : Prop :=
  ∃ q, q ∈ qs ∧ ent_description q = description
       ∧ (truthy key = false ∨ ∃ z, py_long key = Ok z ∧ ent_id q ≠ z).
End Forms.
End BaseForm.

Module McForm.
Section Forms.
Context `{Builtins}.
Import BaseForm McQuestionRESTHandler.

(** The string the editor is given for the selection mode. *)
Definition selection_string (d : pydict) : string :=
  if truthy (default VNone (d !! "multiple_selections"))
  then "true" else "false".

(** A choice as the editor form submits it: a dict whose ['text'] and
    ['score'] are strings. *)
Definition wf_choice (c : value) : Prop :=
  ∃ cd t s, c = VDict cd ∧ cd !! "text" = Some (VStr t)
            ∧ cd !! "score" = Some (VStr s).

(** What the loop leaves in place of a choice, and what it reports. *)
Definition coerce_choice (c : value) : value :=
  match c with
  | VDict cd =>
      match cd !! "score" with
      | Some (VStr s) =>
          match float_of_string s with
          | Some f => VDict (<["score" := VFloat f]> cd)
          | None => c
          end
      | _ => c
      end
  | _ => c
  end.

Definition choice_errors (index : nat) (c : value) : list string :=
  match c with
  | VDict cd =>
      (match cd !! "text" with
       | Some (VStr t) =>
           if String.eqb (strip t) "" then [no_text_message index] else []
       | _ => []
       end)
      ++ (match cd !! "score" with
          | Some (VStr s) =>
              match float_of_string s with
              | Some _ => []
              | None => [no_score_message index]
              end
          | _ => []
          end)
  | _ => []
  end.

Fixpoint choices_errors (index : nat) (cs : list value) : list string :=
  match cs with
  | [] => []
  | c :: cs' => choice_errors index c ++ choices_errors (S index) cs'
  end.

(** The form data on which [_validate15] runs to its end: the fields the
    editor schema declares are present with the types it gives them. *)
Definition wf_question (d : pydict) (question description : string)
    (choices : list value) : Prop :=
  d !! "question" = Some (VStr question)
  ∧ d !! "description" = Some (VStr description)
  ∧ d !! "choices" = Some (VList choices)
  ∧ Forall wf_choice choices.

Definition validate15_errors (st : state) (question description : string)
    (key : value) (choices : list value) : list string :=
  (if String.eqb (strip question) ""
   then ["The question must have a non-empty body."] else [])
  ++ (if String.eqb description ""
      then ["The description must be non-empty."] else [])
  ++ (if collidesb (ds_questions (db st)) description key
      then [collision_message] else [])
  ++ (match choices with
      | [] => ["The question must have at least one choice."]
      | _ => []
      end)
  ++ choices_errors 0 choices.
End Forms.
End McForm.

Module SaForm.
Section Forms.
Context `{Builtins}.
Import BaseForm SaQuestionRESTHandler.

(** A short-answer form as the editor submits it. *)
Definition wf_grader (g : value) : Prop :=
  ∃ gd m r s, g = VDict gd ∧ gd !! "matcher" = Some (VStr m)
              ∧ m ∈ map fst GRADER_TYPES
              ∧ gd !! "response" = Some (VStr r)
              ∧ gd !! "score" = Some (VStr s).

Definition wf_question (d : pydict) (question description rows columns : string)
    (graders : list value) : Prop :=
  d !! "question" = Some (VStr question)
  ∧ d !! "description" = Some (VStr description)
  ∧ d !! "rows" = Some (VStr rows)
  ∧ d !! "columns" = Some (VStr columns)
  ∧ d !! "graders" = Some (VList graders)
  ∧ Forall wf_grader graders.

(** What [coerce_dimension] leaves in the dict, and what it reports. *)
Definition coerce_field (field raw : string) (d : pydict) : pydict :=
  match int_of_string raw with
  | Some n => <[field := VInt n]> d
  | None => d
  end.

Definition dimension_errors (label raw : string) : list string :=
  match int_of_string raw with
  | Some n =>
      if n <=? 0 then [label +:+ " must be a positive whole number"] else []
  | None => [label +:+ " must be a whole number"]
  end.

Definition grader_errors (index : nat) (g : value) : list string :=
  match g with
  | VDict gd =>
      (match gd !! "response" with
       | Some (VStr r) =>
           if String.eqb (strip r) "" then [no_response_message index]
           else []
       | _ => []
       end)
      ++ (match gd !! "score" with
          | Some (VStr s) =>
              match float_of_string s with
              | Some _ => []
              | None => [no_score_message index]
              end
          | _ => []
          end)
  | _ => []
  end.

Fixpoint graders_errors (index : nat) (gs : list value) : list string :=
  match gs with
  | [] => []
  | g :: gs' => grader_errors index g ++ graders_errors (S index) gs'
  end.

Definition validate15_errors (st : state)
    (question description rows columns : string) (key : value)
    (graders : list value) : list string :=
  (if String.eqb (strip question) ""
   then ["The question must have a non-empty body."] else [])
  ++ (if String.eqb description ""
      then ["The description must be non-empty."] else [])
  ++ (if collidesb (ds_questions (db st))
           description key
      then [collision_message] else [])
  ++ dimension_errors "Rows" rows
  ++ dimension_errors "Columns" columns
  ++ (match graders with
      | [] => ["The question must have at least one answer."]
      | _ => []
      end)
  ++ graders_errors 0 graders.
End Forms.
End SaForm.

Module GiftForm.
Section Forms.
Context `{Builtins} `{Models} `{Platform}.
Import GiftQuestionRESTHandler.

(** What [validate_question_descriptions] reports for one question. *)
Definition description_errors (h : gmap loc pydict) (stored : list string)
    (question : loc) : list string :=
  match h !! question with
  | Some d =>
      match d !! "description" with
      | Some v => if in_list v stored then [collision_message] else []
      | None => []
      end
  | None => []
  end.

(** What the loop of [convert_to_dtos] makes of a question dict, and of
    the heap. *)
Definition converted (d : pydict) : pydict :=
  <["type" := if eq_str (default VNone (d !! "type")) "multi_choice"
              then MULTIPLE_CHOICE else SHORT_ANSWER]>
    (<["version" := VERSION]> d).

Fixpoint convert_heap (questions : list loc) (h : gmap loc pydict)
  : gmap loc pydict :=
  match questions with
  | [] => h
  | q :: rest =>
      convert_heap rest
        (match h !! q with
         | Some d => <[q := converted d]> h
         | None => h
         end)
  end.

(** The request reaches the [try] statement with [json_dict]. *)
Definition reaches_try (request_param json_dict : value) : Prop :=
  ∃ request payload,
    loads request_param = Ok request
    ∧ xsrf_token_ok request = true
    ∧ is_course_admin = true
    ∧ subscript_get request "payload" = Ok payload
    ∧ loads payload = Ok json_dict.
End Forms.
End GiftForm.

(** * An instance, to run the handlers

    Text is [unicode] with characters below U+0100, each held as its code
    point.  Integer literals are decimal, with an optional sign and
    surrounding whitespace; a float literal is an integer literal.
    Requests are given decoded.  The GIFT parser is replaced by one
    question per non-empty line.  The persistence layer stores what it is
    handed and returns the new ids. *)

Module Sample.

(** The whitespace of [unicode.strip()] below U+0100: U+0009 to U+000D,
    U+001C to U+001F, the space, U+0085 and the no-break space. *)
Definition is_whitespace (a : ascii) : bool :=
  match a with
  | "009"%char | "010"%char | "011"%char | "012"%char | "013"%char
  | "028"%char | "029"%char | "030"%char | "031"%char | " "%char
  | "133"%char | "160"%char => true
  | _ => false
  end.

Fixpoint lstrip (s : string) : string :=
  match s with
  | EmptyString => EmptyString
  | String a s' => if is_whitespace a then lstrip s' else s
  end.

Fixpoint rstrip (s : string) : string :=
  match s with
  | EmptyString => EmptyString
  | String a s' =>
      match rstrip s' with
      | EmptyString =>
          if is_whitespace a then EmptyString else String a EmptyString
      | r => String a r
      end
  end.

Definition unicode_strip (s : string) : string := rstrip (lstrip s).

Fixpoint digits_value (s : string) (acc : Z) : option Z :=
  match s with
  | EmptyString => Some acc
  | String a s' =>
      if is_digit a
      then digits_value s' (10 * acc + (Z.of_nat (nat_of_ascii a) - 48))
      else None
  end.

Definition decimal (s : string) : option Z :=
  match unicode_strip s with
  | EmptyString => None
  | String "-"%char (String a s') =>
      Z.opp <$> digits_value (String a s') 0
  | String "+"%char (String a s') => digits_value (String a s') 0
  | s' => digits_value s' 0
  end.

Definition float_of_Z (z : Z) : option spec_float :=
  match binary_normalize 53 1024 z 0 false with
  | S754_infinity _ => None
  | f => Some f
  end.

#[global] Instance builtins : Builtins := {|
  strip := unicode_strip;
  float_of_string := λ s, decimal s ≫= float_of_Z;
  float_of_int := float_of_Z;
  int_of_string := decimal;
  long_of_string := decimal
|}.

Fixpoint lines_from (s : string) (line : string) : list string :=
  match s with
  | EmptyString => [String.rev line]
  | String a s' =>
      if Ascii.eqb a "010"%char
      then String.rev line :: lines_from s' EmptyString
      else lines_from s' (String a line)
  end.

Definition question_of_line (line : string) : pydict :=
  <["description" := VStr line]>
    (<["question" := VStr line]>
       (<["type" := VStr "short_answer"]> ∅)).

Definition parse (text : value) : result (list pydict) :=
  match text with
  | VStr s =>
      match filter (λ l, unicode_strip l ≠ "") (lines_from s EmptyString) with
      | [] => Raise (ParseError "No questions found.")
      | ls => Ok (question_of_line <$> ls)
      end
  | _ => Raise TypeError
  end.

Definition description_of (d : pydict) : string :=
  match d !! "description" with
  | Some (VStr s) => s
  | _ => ""
  end.

Definition next_id (es : list entity) : Z :=
  1 + foldr Z.max 0 (ent_id <$> es).

(** Modelled from the spec: [QuestionDAO.save_all] and
    [QuestionGroupDAO.create_question_group] belong to the persistence
    layer, which the spec calls external and of which it says only that the
    module hands its records to it.  Here each record is stored under the
    next free id, and the ids are returned. *)
Fixpoint save_all (rows : list (option Z * pydict)) (ds : datastore)
  : result (list Z) * datastore :=
  match rows with
  | [] => (Ok [], ds)
  | (_, d) :: rows' =>
      let i := next_id (ds_questions ds) in
      let ds' :=
        Datastore (ds_questions ds ++ [Entity i (description_of d) d])
          (ds_groups ds) in
      match save_all rows' ds' with
      | (Ok ids, ds'') => (Ok (i :: ids), ds'')
      | (Raise e, ds'') => (Raise e, ds'')
      end
  end.

Definition create_question_group (group : pydict) (ds : datastore)
  : result Z * datastore :=
  let i := next_id (ds_groups ds) in
  (Ok i,
   Datastore (ds_questions ds)
     (ds_groups ds ++ [Entity i (description_of group) group])).

#[global] Instance models : Models := {|
  VERSION := VStr "1.5";
  MULTIPLE_CHOICE := VInt 0;
  SHORT_ANSWER := VInt 1;
  dao_save_all := save_all;
  dao_create_question_group := create_question_group
|}.

#[global] Instance platform : Platform := {|
  loads := λ v, match v with VNone => Raise TypeError | _ => Ok v end;
  xsrf_token_ok := λ _, true;
  is_course_admin := true;
  json_to_dict :=
    λ v, match v with
         | VDict d => Ok d
         | _ => Raise (ValueError "Not a JSON object.")
         end;
  parse_questions := parse;
  str_of_value := λ _, ""
|}.

Definition empty_state : state := State ∅ [] (Datastore [] []) [] [].

Definition import_payload (description text : string) : value :=
  VDict (<["description" := VStr description]>
           (<["questions" := VStr text]> ∅)).

Definition import_request (description text : string) : value :=
  VDict (<["payload" := import_payload description text]> ∅).

(** Two questions with one description, and nothing stored. *)
Definition twice : string :=
  "Capital of France?" +:+ String "010"%char "Capital of France?".

(** A datastore with two questions and one group. *)
Definition stored : datastore :=
  Datastore
    [Entity 7 "Primes" (<["description" := VStr "Primes"]> ∅);
     Entity 8 "Capitals" (<["description" := VStr "Capitals"]> ∅)]
    [Entity 1 "Week 1" (<["description" := VStr "Week 1"]> ∅)].

Definition choice_dict (text score : string) : pydict :=
  <["text" := VStr text]>
    (<["score" := VStr score]> (<["feedback" := VStr ""]> ∅)).

Definition choice (text score : string) : value :=
  VDict (choice_dict text score).

(** A multiple-choice form: the second choice has a blank text and a score
    that is not a number. *)
Definition mc_form : pydict :=
  <["version" := VStr "1.5"]>
    (<["question" := VStr "Which city is the capital of France?"]>
       (<["description" := VStr "  Capital of France "]>
          (<["multiple_selections" := VBool false]>
             (<["choices" := VList [choice "Paris" "1"; choice "  " "high"]]>
                ∅)))).

Definition grader (matcher response score : string) : value :=
  VDict (<["matcher" := VStr matcher]>
           (<["response" := VStr response]>
              (<["score" := VStr score]> (<["feedback" := VStr ""]> ∅)))).

(** A short-answer form: three rows, and a column count that is no
    number. *)
Definition sa_form : pydict :=
  <["version" := VStr "1.5"]>
    (<["question" := VStr "Name the capital of France."]>
       (<["description" := VStr "Capital, short"]>
          (<["rows" := VStr "3"]>
             (<["columns" := VStr "wide"]>
                (<["graders" :=
                     VList [grader "case_insensitive" "paris" "1"]]> ∅))))).

Definition with_form (d : pydict) : state :=
  State (<[1%positive := d]> ∅) [] stored [] [].

(** Two imported questions that share a description no stored question
    has. *)
Definition imported : state :=
  State
    (<[1%positive := question_of_line "Capital of France?"]>
       (<[2%positive := question_of_line "Capital of France?"]> ∅))
    [] stored [] [].

End Sample.


(** * More of the handlers *)

(** [get_default_content] of the two question editors. *)
Definition default_choice (score : string) : value :=
  VDict (<["score" := VStr score]>
           (<["text" := VStr ""]> (<["feedback" := VStr ""]> ∅))).

Definition mc_default_content : pydict :=
  <["version" := VStr "1.5"]>
    (<["question" := VStr ""]>
       (<["description" := VStr ""]>
          (<["multiple_selections" := VStr "false"]>
             (<["choices" :=
                  VList [default_choice "1"; default_choice "0";
                         default_choice "0"; default_choice "0"]]> ∅)))).

Definition sa_default_content : pydict :=
  <["version" := VStr "1.5"]>
    (<["question" := VStr ""]>
       (<["description" := VStr ""]>
          (<["graders" :=
               VList [VDict (<["score" := VStr "1.0"]>
                               (<["matcher" := VStr "case_insensitive"]>
                                  (<["response" := VStr ""]>
                                     (<["feedback" := VStr ""]> ∅))))]]> ∅))).

(** A computation that is read-only but for the errors list, to which it
    only appends: no object changes, nothing is written to the datastore,
    no response is sent. *)
Definition reporting {A} (c : M A) : Prop :=
  ∀ st, heap (c st).2 = heap st
        ∧ errors st `prefix_of` errors (c st).2
        ∧ db (c st).2 = db st ∧ out (c st).2 = out st
        ∧ calls (c st).2 = calls st.

(** A computation that, besides reporting, may assign the keys [ks] of the
    dict at [l], and nothing else. *)
Definition tame {A} (l : loc) (ks : list string) (c : M A) : Prop :=
  ∀ st d, heap st !! l = Some d →
    ∃ d', heap (c st).2 !! l = Some d'
      ∧ (∀ k, k ∉ ks → d' !! k = d !! k)
      ∧ (∀ l', l' ≠ l → heap (c st).2 !! l' = heap st !! l')
      ∧ errors st `prefix_of` errors (c st).2
      ∧ db (c st).2 = db st ∧ out (c st).2 = out st
      ∧ calls (c st).2 = calls st.

(** * Deleting a question: [BaseQuestionRESTHandler.is_deletion_allowed] *)

(** What [transforms.send_json_response] is given when a deletion is
    refused: the status, the message and the payload dict. *)
Record refusal := Refusal {
  ref_status : Z;
  ref_message : string;
  ref_payload : pydict
}.

(** ['"%s"' % s] *)
Definition quoted (s : string) : string :=
  String "034"%char (s +:+ String "034"%char EmptyString).

(** [sep.join(l)] *)
Fixpoint join (sep : string) (l : list string) : string :=
  match l with
  | [] => ""
  | [x] => x
  | x :: l' => x +:+ sep +:+ join sep l'
  end.

(** The order of [sorted] on strings: character by character, a proper
    prefix first. *)
Definition string_le (s1 s2 : string) : Prop := String.leb s1 s2 = true.

#[global] Instance string_le_dec (s1 s2 : string) :
  Decision (string_le s1 s2) := bool_eq_dec (String.leb s1 s2) true.

(** [sorted(l)] for a list of strings. *)
Definition sorted (l : list string) : list string := merge_sort string_le l.

Definition group_names (used_by : list entity) : list string :=
  sorted (map (λ x, quoted (ent_description x)) used_by).

Definition in_use_message (names : list string) : string :=
  "Question in use by question groups:" +:+ String "010"%char
    (join (String "," (String "010"%char EmptyString)) names
       +:+ "." +:+ String "010"%char
             "Please delete it from those groups and try again.").

(** [QuestionDAO_used_by] stands for [QuestionDAO.used_by]: the question
    groups that use the question with the given id.  The result is the
    returned value and what has been sent, if anything. *)
Definition is_deletion_allowed (QuestionDAO_used_by : Z → list entity)
    (question : entity) : bool * option refusal :=
  let used_by := QuestionDAO_used_by (ent_id question) in
  match used_by with
  | _ :: _ =>
      (false,
       Some (Refusal 403 (in_use_message (group_names used_by))
               (<["key" := VInt (ent_id question)]> ∅)))
  | [] => (true, None)
  end.

(** A platform that decodes nothing and on which nobody is a course
    admin. *)
Definition visitor_platform : Platform := {|
  loads := λ v, Ok v;
  xsrf_token_ok := λ _, true;
  is_course_admin := false;
  json_to_dict := λ _, Raise TypeError;
  parse_questions := λ _, Raise TypeError;
  str_of_value := λ _, EmptyString
|}.

(** * Properties *)

Local Close Scope Z_scope.

(** ** Running the primitives *)

Lemma run_bind {A B} (c : M A) (f : A → M B) (st : state) :
  (c ≫= f) st =
  match c st with
  | (Ok a, st') => f a st'
  | (Raise e, st') => (Raise e, st')
  end.
Proof. reflexivity. Qed.

Lemma run_bind_ok {A B} (c : M A) (f : A → M B) (st st' : state) (a : A) :
  c st = (Ok a, st') → (c ≫= f) st = f a st'.
Proof. intros E. rewrite run_bind, E. reflexivity. Qed.

Lemma run_bind_raise {A B} (c : M A) (f : A → M B) (st st' : state) e :
  c st = (Raise e, st') → (c ≫= f) st = (Raise e, st').
Proof. intros E. rewrite run_bind, E. reflexivity. Qed.

Lemma run_lift_bind {A B} (a : A) (f : A → M B) (st : state) :
  (lift (Ok a) ≫= f) st = f a st.
Proof. reflexivity. Qed.

Lemma run_lift_raise {A B} (e : exn) (f : A → M B) (st : state) :
  (lift (Raise e) ≫= f) st = (Raise e, st).
Proof. reflexivity. Qed.

Lemma run_deref (l : loc) (d : pydict) (st : state) :
  heap st !! l = Some d → deref l st = (Ok d, st).
Proof. intros E. unfold deref. rewrite E. reflexivity. Qed.

Lemma run_dict_getitem (l : loc) (k : string) (d : pydict) (v : value)
    (st : state) :
  heap st !! l = Some d → d !! k = Some v →
  dict_getitem l k st = (Ok v, st).
Proof.
  intros Hl Hk. unfold dict_getitem.
  rewrite (run_bind_ok _ _ _ _ _ (run_deref _ _ _ Hl)).
  unfold lift, subscript. rewrite Hk. reflexivity.
Qed.

Lemma run_dict_get (l : loc) (k : string) (d : pydict) (st : state) :
  heap st !! l = Some d →
  dict_get l k st = (Ok (default VNone (d !! k)), st).
Proof.
  intros Hl. unfold dict_get.
  rewrite (run_bind_ok _ _ _ _ _ (run_deref _ _ _ Hl)). reflexivity.
Qed.

Lemma run_dict_setitem (l : loc) (k : string) (v : value) (d : pydict)
    (st : state) :
  heap st !! l = Some d →
  dict_setitem l k v st =
    (Ok tt, set_heap (<[l := <[k := v]> d]> (heap st)) st).
Proof.
  intros Hl. unfold dict_setitem.
  rewrite (run_bind_ok _ _ _ _ _ (run_deref _ _ _ Hl)). reflexivity.
Qed.

Lemma run_errors_append (msg : string) (st : state) :
  errors_append msg st = (Ok tt, set_errors (errors st ++ [msg]) st).
Proof. reflexivity. Qed.

Lemma run_when_append (b : bool) (msg : string) (st : state) :
  when b (errors_append msg) st =
    (Ok tt, set_errors (errors st ++ (if b then [msg] else [])) st).
Proof.
  destruct b; cbn; [reflexivity|].
  unfold set_errors. rewrite app_nil_r. by destruct st.
Qed.

Section Base_properties.
Context `{Builtins}.
Import BaseQuestionRESTHandler BaseForm.

Lemma run_sanitize_input_dict (json_dict : loc) (d : pydict) (s : string)
    (st : state) :
  heap st !! json_dict = Some d →
  d !! "description" = Some (VStr s) →
  sanitize_input_dict json_dict st =
    (Ok tt,
     set_heap (<[json_dict := <["description" := VStr (strip s)]> d]> (heap st))
       st).
Proof.
  intros Hl Hk. unfold sanitize_input_dict.
  rewrite (run_bind_ok _ _ _ _ _ (run_dict_getitem _ _ _ _ _ Hl Hk)).
  cbn [str_strip]. unfold lift at 1. rewrite run_bind. 
  apply run_dict_setitem. exact Hl.
Qed.

(** C10: on a dict whose ['description'] is a string, [sanitize_input_dict]
    returns normally, the dict's ['description'] is then the stripped
    string, every other key of the dict still has its value, and nothing
    else in the state has changed. *)
Theorem sanitize_input_dict_frame (json_dict : loc) (d : pydict)
    (s : string) (st : state) :
  heap st !! json_dict = Some d →
  d !! "description" = Some (VStr s) →
  ∃ st' d',
    sanitize_input_dict json_dict st = (Ok tt, st')
    ∧ heap st' !! json_dict = Some d'
    ∧ d' !! "description" = Some (VStr (strip s))
    ∧ (∀ k, k ≠ "description" → d' !! k = d !! k)
    ∧ (∀ l, l ≠ json_dict → heap st' !! l = heap st !! l)
    ∧ errors st' = errors st ∧ db st' = db st
    ∧ out st' = out st ∧ calls st' = calls st.
Proof.
  intros Hl Hk.
  eexists _, _. split; [apply (run_sanitize_input_dict _ _ _ _ Hl Hk)|].
  cbn. split; [apply lookup_insert_eq|].
  split; [apply lookup_insert_eq|].
  split; [intros k Hne; by rewrite lookup_insert_ne|].
  split; [intros l Hne; by rewrite lookup_insert_ne|].
  done.
Qed.

(** A ['description'] that is not a string has no [strip]: the call raises
    and the dict is left as it was. *)
Lemma sanitize_input_dict_not_string (json_dict : loc) (d : pydict)
    (v : value) (st : state) :
  heap st !! json_dict = Some d →
  d !! "description" = Some v →
  (∀ s, v ≠ VStr s) →
  sanitize_input_dict json_dict st = (Raise AttributeError, st).
Proof.
  intros Hl Hk Hv. unfold sanitize_input_dict.
  rewrite (run_bind_ok _ _ _ _ _ (run_dict_getitem _ _ _ _ _ Hl Hk)).
  destruct v; try reflexivity. by destruct (Hv s).
Qed.

Lemma key_test_spec (key : value) (q : entity) :
  truthy key = false ∨ (∃ z, py_long key = Ok z) →
  ∃ keep : bool,
    (if negb (truthy key) then Ok true
     else k ← py_long key; Ok (negb (ent_id q =? k)%Z)) = Ok keep
    ∧ (keep = true ↔
       truthy key = false ∨ ∃ z, py_long key = Ok z ∧ ent_id q ≠ z).
Proof.
  intros Hkey. destruct (truthy key) eqn:Ht; cbn [negb].
  - destruct Hkey as [?|[z Hz]]; [done|]. rewrite Hz.
    exists (negb (ent_id q =? z)%Z). split; [reflexivity|].
    destruct (Z.eqb_spec (ent_id q) z) as [Heq|Hne]; cbn; split.
    + done.
    + intros [?|(z' & [= <-] & Hne)]; done.
    + intros _. right. by exists z.
    + done.
  - exists true. split; [reflexivity|]. split; [by left|done].
Qed.

Lemma other_descriptions_spec (qs : list entity) (key : value) :
  truthy key = false ∨ (∃ z, py_long key = Ok z) →
  ∃ ds, other_descriptions qs key = Ok ds
    ∧ ∀ x, x ∈ ds ↔ collides qs x key.
Proof.
  intros Hkey. unfold collides. induction qs as [|q qs IH].
  - exists ∅. split; [reflexivity|]. intros x. split.
    + intros Hx. by apply not_elem_of_empty in Hx.
    + intros (q & Hq & _). by apply elem_of_nil in Hq.
  - destruct IH as (ds & Hds & Hspec).
    destruct (key_test_spec key q Hkey) as (keep & Hkeep & Hiff).
    cbn [other_descriptions]. rewrite Hkeep, Hds. cbn.
    destruct keep.
    + exists ({[ent_description q]} ∪ ds). split; [done|]. intros x.
      rewrite elem_of_union, elem_of_singleton, Hspec. split.
      * intros [->|(q' & Hq' & Hd & Hk)].
        -- exists q. split; [apply elem_of_cons; by left|].
           split; [done|]. by apply Hiff.
        -- exists q'. split; [apply elem_of_cons; by right|done].
      * intros (q' & Hq' & Hd & Hk).
        apply elem_of_cons in Hq' as [->|Hq']; [by left|].
        right. by exists q'.
    + exists ds. split; [done|]. intros x. rewrite Hspec. split.
      * intros (q' & Hq' & Hd & Hk). exists q'.
        split; [apply elem_of_cons; by right|done].
      * intros (q' & Hq' & Hd & Hk).
        apply elem_of_cons in Hq' as [->|Hq'].
        -- apply Hiff in Hk. done.
        -- by exists q'.
Qed.

Lemma collidesb_spec (qs : list entity) (description : string)
    (key : value) :
  truthy key = false ∨ (∃ z, py_long key = Ok z) →
  collidesb qs description key = true ↔ collides qs description key.
Proof.
  intros Hkey. unfold collidesb.
  destruct (other_descriptions_spec qs key Hkey) as (ds & -> & Hspec).
  by rewrite bool_decide_eq_true, Hspec.
Qed.

Lemma run_validate_no_description_collision (description : string)
    (key : value) (st : state) :
  truthy key = false ∨ (∃ z, py_long key = Ok z) →
  validate_no_description_collision (VStr description) key st =
    (Ok tt,
     set_errors
       (errors st ++
          if collidesb (ds_questions (db st)) description key
          then [collision_message] else [])
       st).
Proof.
  intros Hkey. unfold collidesb.
  destruct (other_descriptions_spec (ds_questions (db st)) key Hkey)
    as (ds & Hds & Hspec).
  unfold validate_no_description_collision, QuestionDAO_get_all.
  rewrite run_bind, Hds, run_lift_bind. cbn [in_set].
  rewrite run_lift_bind. apply run_when_append.
Qed.


(** With a key that is truthy and that [long] rejects, the comprehension
    raises as soon as there is a stored question. *)
Lemma validate_no_description_collision_bad_key (description key : value)
    (q : entity) (qs : list entity) (msg : string) (st : state) :
  ds_questions (db st) = q :: qs →
  truthy key = true →
  py_long key = Raise (ValueError msg) →
  validate_no_description_collision description key st
    = (Raise (ValueError msg), st).
Proof.
  intros Hqs Ht Hlong.
  unfold validate_no_description_collision, QuestionDAO_get_all.
  rewrite run_bind, Hqs. unfold lift at 1. rewrite run_bind.
  cbn [other_descriptions]. rewrite Ht, Hlong. reflexivity.
Qed.
End Base_properties.

(** ** Decimal numerals in messages *)

Lemma pretty_N_char_digit (x : N) : is_digit (pretty_N_char x) = true.
Proof. unfold pretty_N_char. by repeat case_match. Qed.

Lemma pretty_N_go_digits (x : N) :
  ∀ s, all_digits s = true → all_digits (pretty_N_go x s) = true.
Proof.
  induction (N.lt_wf_0 x) as [x _ IH]. intros s Hs.
  destruct (decide (x = 0)%N) as [->|Hx].
  - by rewrite pretty_N_go_0.
  - rewrite pretty_N_go_step by lia. apply IH.
    + apply N.div_lt; lia.
    + cbn. by rewrite pretty_N_char_digit, Hs.
Qed.

Lemma str_of_nat_digits (n : nat) : all_digits (str_of_nat n) = true.
Proof.
  unfold str_of_nat, pretty, pretty_nat, pretty, pretty_N.
  case_decide; [done|]. by apply pretty_N_go_digits.
Qed.

(** A numeral followed by text that does not start with a digit can be
    read back in one way only. *)
Lemma numeral_split (d1 : string) :
  ∀ (d2 s1 s2 : string) (a1 a2 : ascii),
    all_digits d1 = true → all_digits d2 = true →
    is_digit a1 = false → is_digit a2 = false →
    (d1 +:+ String a1 s1)%string = (d2 +:+ String a2 s2)%string →
    d1 = d2 ∧ String a1 s1 = String a2 s2.
Proof.
  induction d1 as [|c d1 IH]; intros d2 s1 s2 a1 a2 H1 H2 Ha1 Ha2 E.
  - destruct d2 as [|c2 d2]; cbn in *; [done|].
    injection E as -> _. apply andb_prop in H2 as [? _]. congruence.
  - destruct d2 as [|c2 d2]; cbn in *.
    + injection E as -> _. apply andb_prop in H1 as [? _]. congruence.
    + injection E as -> E.
      apply andb_prop in H1 as [_ H1]. apply andb_prop in H2 as [_ H2].
      destruct (IH _ _ _ _ _ H1 H2 Ha1 Ha2 E) as [-> ?]. done.
Qed.

(** ** McQuestionRESTHandler *)

Lemma fresh_unallocated (h : gmap loc pydict) : h !! fresh (dom h) = None.
Proof. apply not_elem_of_dom, is_fresh. Qed.

Lemma run_alloc (d : pydict) (st : state) :
  alloc d st =
    (Ok (fresh (dom (heap st))),
     set_heap (<[fresh (dom (heap st)) := d]> (heap st)) st).
Proof. reflexivity. Qed.

Section Mc_editor_hook.
Import McQuestionRESTHandler McForm.

Lemma run_transform_for_editor_hook (q_dict : loc) (d : pydict)
    (st : state) :
  heap st !! q_dict = Some d →
  transform_for_editor_hook q_dict st =
    (Ok (fresh (dom (heap st))),
     set_heap
       (<[fresh (dom (heap st)) :=
            <["multiple_selections" := VStr (selection_string d)]> d]>
          (heap st)) st).
Proof.
  intros Hq. unfold transform_for_editor_hook, deepcopy.
  pose proof (fresh_unallocated (heap st)) as Hfresh.
  set (p := fresh (dom (heap st))) in *.
  assert (p ≠ q_dict) as Hne by (intros ->; congruence).
  rewrite run_bind.
  rewrite (run_bind_ok _ _ _ _ _ (run_deref _ _ _ Hq)), run_alloc.
  fold p.
  set (st1 := set_heap (<[p := d]> (heap st)) st).
  assert (heap st1 !! q_dict = Some d) as Hq1
    by (cbn; by rewrite lookup_insert_ne).
  assert (heap st1 !! p = Some d) as Hp1 by (cbn; apply lookup_insert_eq).
  rewrite (run_bind_ok _ _ _ _ _ (run_dict_get _ _ _ _ Hq1)).
  rewrite (run_bind_ok _ _ _ _ _ (run_dict_setitem _ _ _ _ _ Hp1)).
  cbn. unfold set_heap, selection_string. cbn.
  by rewrite insert_insert_eq.
Qed.

(** C9: the hook returns a dict object that did not exist before the
    call; its ['multiple_selections'] is the string ['true'] when the
    input's value is truthy and ['false'] otherwise (also when the key is
    absent); every other key has the input's value; the input dict and
    every other object are as they were. *)
Theorem transform_for_editor_hook_copy (q_dict : loc) (d : pydict)
    (st : state) :
  heap st !! q_dict = Some d →
  ∃ p_dict st' p,
    transform_for_editor_hook q_dict st = (Ok p_dict, st')
    ∧ heap st !! p_dict = None
    ∧ p_dict ≠ q_dict
    ∧ heap st' !! p_dict = Some p
    ∧ p !! "multiple_selections" =
        Some (VStr (if truthy (default VNone (d !! "multiple_selections"))
                    then "true" else "false"))
    ∧ (∀ k, k ≠ "multiple_selections" → p !! k = d !! k)
    ∧ heap st' !! q_dict = Some d
    ∧ (∀ l, l ≠ p_dict → heap st' !! l = heap st !! l)
    ∧ errors st' = errors st ∧ db st' = db st
    ∧ out st' = out st ∧ calls st' = calls st.
Proof.
  intros Hq.
  pose proof (fresh_unallocated (heap st)) as Hfresh.
  assert (fresh (dom (heap st)) ≠ q_dict) as Hne by (intros E; congruence).
  eexists _, _, _.
  split; [apply (run_transform_for_editor_hook _ _ _ Hq)|].
  split; [exact Hfresh|]. split; [exact Hne|].
  cbn. split; [apply lookup_insert_eq|].
  split; [apply lookup_insert_eq|].
  split; [intros k Hk; by rewrite lookup_insert_ne|].
  split; [by rewrite lookup_insert_ne|].
  split; [intros l Hl; by rewrite lookup_insert_ne|].
  done.
Qed.
End Mc_editor_hook.

Lemma run_item_getitem (l : loc) (field : string) (i : nat) (k : string)
    (d : pydict) (xs : list value) (cd : pydict) (v : value) (st : state) :
  heap st !! l = Some d →
  d !! field = Some (VList xs) →
  xs !! i = Some (VDict cd) →
  cd !! k = Some v →
  item_getitem l field i k st = (Ok v, st).
Proof.
  intros Hl Hf Hi Hk. unfold item_getitem.
  rewrite (run_bind_ok _ _ _ _ _ (run_dict_getitem _ _ _ _ _ Hl Hf)).
  unfold lift, index, subscript. rewrite run_bind, Hi, Hk. reflexivity.
Qed.

Lemma run_item_setitem (l : loc) (field : string) (i : nat) (k : string)
    (v : value) (d : pydict) (xs : list value) (cd : pydict) (st : state) :
  heap st !! l = Some d →
  d !! field = Some (VList xs) →
  xs !! i = Some (VDict cd) →
  item_setitem l field i k v st =
    (Ok tt,
     set_heap
       (<[l := <[field := VList (<[i := VDict (<[k := v]> cd)]> xs)]> d]>
          (heap st)) st).
Proof.
  intros Hl Hf Hi. unfold item_setitem.
  rewrite (run_bind_ok _ _ _ _ _ (run_dict_getitem _ _ _ _ _ Hl Hf)).
  unfold lift at 1, index. rewrite run_bind, Hi.
  by apply run_dict_setitem.
Qed.

Lemma run_try_ok {A} (c : M A) (h : exn → option (M A)) (a : A)
    (st st' : state) :
  c st = (Ok a, st') → try_except c h st = (Ok a, st').
Proof. intros E. unfold try_except. by rewrite E. Qed.

Lemma run_try_caught {A} (c : M A) (h : exn → option (M A)) (k : M A)
    (e : exn) (st st' : state) :
  c st = (Raise e, st') → h e = Some k → try_except c h st = k st'.
Proof. intros E Hh. unfold try_except. by rewrite E, Hh. Qed.

Lemma run_try_uncaught {A} (c : M A) (h : exn → option (M A)) (e : exn)
    (st st' : state) :
  c st = (Raise e, st') → h e = None → try_except c h st = (Raise e, st').
Proof. intros E Hh. unfold try_except. by rewrite E, Hh. Qed.

Lemma state_eta (st : state) :
  State (heap st) (errors st) (db st) (out st) (calls st) = st.
Proof. by destruct st. Qed.

Section Mc_validate.
Context `{Builtins}.
Import BaseQuestionRESTHandler BaseForm McQuestionRESTHandler McForm.

Lemma run_validate_choice (question_dict : loc) (d : pydict)
    (done rest : list value) (c : value) (st : state) :
  heap st !! question_dict = Some d →
  d !! "choices" = Some (VList (done ++ c :: rest)) →
  wf_choice c →
  validate_choice question_dict (length done) st =
    (Ok tt,
     State
       (<[question_dict :=
            <["choices" := VList (done ++ coerce_choice c :: rest)]> d]>
          (heap st))
       (errors st ++ choice_errors (length done) c)
       (db st) (out st) (calls st)).
Proof.
  intros Hl Hc (cd & t & s & -> & Ht & Hs).
  assert ((done ++ VDict cd :: rest) !! length done = Some (VDict cd))
    as Hi by (by rewrite list_lookup_middle).
  unfold validate_choice.
  rewrite (run_bind_ok _ _ _ _ _
             (run_item_getitem _ _ _ _ _ _ _ _ _ Hl Hc Hi Ht)).
  cbn [str_strip]. rewrite run_lift_bind.
  rewrite (run_bind_ok _ _ _ _ _ (run_when_append _ _ _)).
  set (st1 := set_errors _ st).
  assert (heap st1 !! question_dict = Some d) as Hl1 by exact Hl.
  cbn [coerce_choice choice_errors]. rewrite Ht, Hs.
  unfold try_except.
  rewrite (run_bind_ok _ _ _ _ _
             (run_item_getitem _ _ _ _ _ _ _ _ _ Hl1 Hc Hi Hs)).
  cbn [py_float].
  destruct (float_of_string s) as [f|] eqn:Hf.
  - rewrite run_lift_bind.
    rewrite (run_item_setitem _ _ _ _ _ _ _ _ _ Hl1 Hc Hi).
    subst st1. cbn. rewrite app_nil_r.
    replace (<[length done:=VDict (<["score":=VFloat f]> cd)]>
               (done ++ VDict cd :: rest))
      with (done ++ VDict (<["score":=VFloat f]> cd) :: rest); [done|].
    rewrite insert_app_r_alt by lia.
    by rewrite Nat.sub_diag.
  - rewrite run_lift_raise. cbn [on_ValueError].
    rewrite run_errors_append. subst st1. cbn.
    rewrite (insert_id d _ _ Hc), (insert_id (heap st) _ _ Hl).
    by rewrite <- app_assoc.
Qed.

Lemma run_choices_loop (question_dict : loc) (rest : list value) :
  ∀ (done : list value) (d : pydict) (st : state),
    heap st !! question_dict = Some d →
    d !! "choices" = Some (VList (done ++ rest)) →
    Forall wf_choice rest →
    foreach (seq (length done) (length rest)) (validate_choice question_dict)
      st =
      (Ok tt,
       State
         (<[question_dict :=
              <["choices" := VList (done ++ map coerce_choice rest)]> d]>
            (heap st))
         (errors st ++ choices_errors (length done) rest)
         (db st) (out st) (calls st)).
Proof.
  induction rest as [|c rest IH]; intros done d st Hl Hc Hwf.
  - cbn. rewrite !app_nil_r in *.
    rewrite (insert_id d _ _ Hc), (insert_id (heap st) _ _ Hl).
    by rewrite state_eta.
  - apply Forall_cons in Hwf as [Hwc Hwf].
    cbn [length seq foreach].
    rewrite (run_bind_ok _ _ _ _ _
               (run_validate_choice _ _ _ _ _ _ Hl Hc Hwc)).
    specialize (IH (done ++ [coerce_choice c])).
    rewrite length_app, Nat.add_1_r in IH.
    erewrite IH; [| apply lookup_insert_eq | | exact Hwf ]; cycle 1.
    { rewrite lookup_insert_eq, <- app_assoc. reflexivity. }
    cbn. rewrite !insert_insert_eq, <- !app_assoc. reflexivity.
Qed.

Lemma run_mc_validate15 (question_dict : loc) (d : pydict)
    (question description : string) (choices : list value) (key : value)
    (st : state) :
  heap st !! question_dict = Some d →
  wf_question d question description choices →
  truthy key = false ∨ (∃ z, py_long key = Ok z) →
  _validate15 question_dict key st =
    (Ok tt,
     State
       (<[question_dict :=
            <["choices" := VList (map coerce_choice choices)]> d]> (heap st))
       (errors st ++ validate15_errors st question description key choices)
       (db st) (out st) (calls st)).
Proof.
  intros Hl (Hq & Hd & Hc & Hwf) Hkey. unfold _validate15.
  rewrite (run_bind_ok _ _ _ _ _ (run_dict_getitem _ _ _ _ _ Hl Hq)).
  cbn [str_strip]. rewrite run_lift_bind.
  rewrite (run_bind_ok _ _ _ _ _ (run_when_append _ _ _)).
  set (st1 := set_errors _ st).
  assert (heap st1 !! question_dict = Some d) as Hl1 by exact Hl.
  rewrite (run_bind_ok _ _ _ _ _ (run_dict_getitem _ _ _ _ _ Hl1 Hd)).
  rewrite (run_bind_ok _ _ _ _ _ (run_when_append _ _ _)).
  set (st2 := set_errors _ st1).
  assert (heap st2 !! question_dict = Some d) as Hl2 by exact Hl.
  rewrite (run_bind_ok _ _ _ _ _ (run_dict_getitem _ _ _ _ _ Hl2 Hd)).
  rewrite (run_bind_ok _ _ _ _ _
             (run_validate_no_description_collision _ _ _ Hkey)).
  set (st3 := set_errors _ st2).
  assert (heap st3 !! question_dict = Some d) as Hl3 by exact Hl.
  rewrite (run_bind_ok _ _ _ _ _ (run_dict_getitem _ _ _ _ _ Hl3 Hc)).
  rewrite (run_bind_ok _ _ _ _ _ (run_when_append _ _ _)).
  set (st4 := set_errors _ st3).
  assert (heap st4 !! question_dict = Some d) as Hl4 by exact Hl.
  rewrite (run_bind_ok _ _ _ _ _ (run_dict_getitem _ _ _ _ _ Hl4 Hc)).
  cbn [py_len]. rewrite run_lift_bind.
  pose proof (run_choices_loop question_dict choices [] d st4 Hl4 Hc Hwf)
    as Hloop.
  cbn [length app] in Hloop. rewrite Hloop.
  subst st4 st3 st2 st1. unfold validate15_errors. cbn.
  rewrite <- !app_assoc.
  by destruct choices, (String.eqb description "").
Qed.


(** *** The messages are pairwise distinct *)

Lemma no_text_message_inj (i j : nat) :
  no_text_message i = no_text_message j → i = j.
Proof.
  unfold no_text_message. intros E. simplify_eq/=.
  apply numeral_split in E as [E _];
    [|apply str_of_nat_digits|apply str_of_nat_digits|done|done].
  apply (inj pretty) in E. lia.
Qed.

Lemma no_score_message_inj (i j : nat) :
  no_score_message i = no_score_message j → i = j.
Proof.
  unfold no_score_message. intros E. simplify_eq/=.
  apply numeral_split in E as [E _];
    [|apply str_of_nat_digits|apply str_of_nat_digits|done|done].
  apply (inj pretty) in E. lia.
Qed.

Lemma no_text_ne_no_score (i j : nat) :
  no_text_message i ≠ no_score_message j.
Proof.
  unfold no_text_message, no_score_message. intros E. simplify_eq/=.
  apply numeral_split in E as [_ E];
    [|apply str_of_nat_digits|apply str_of_nat_digits|done|done].
  discriminate E.
Qed.

Lemma elem_of_choices_errors (m : string) (cs : list value) :
  ∀ k, m ∈ choices_errors k cs ↔
       ∃ i c, cs !! i = Some c ∧ m ∈ choice_errors (k + i) c.
Proof.
  induction cs as [|c cs IH]; intros k; cbn [choices_errors].
  - split; [by intros ?%elem_of_nil|]. by intros (i & c & ? & _).
  - rewrite elem_of_app, IH. split.
    + intros [Hm|(i & c' & Hi & Hm)].
      * exists 0, c. by rewrite Nat.add_0_r.
      * exists (S i), c'. split; [done|]. by rewrite Nat.add_succ_r.
    + intros ([|i] & c' & Hi & Hm).
      * left. cbn in Hi. injection Hi as <-. by rewrite Nat.add_0_r in Hm.
      * right. exists i, c'. split; [done|]. by rewrite Nat.add_succ_r in Hm.
Qed.

Lemma elem_of_validate15_errors_choice (m : string) (st : state)
    (question description : string) (key : value) (choices : list value) :
  (∃ i, m = no_text_message i ∨ m = no_score_message i) →
  m ∈ validate15_errors st question description key choices ↔
  ∃ i c, choices !! i = Some c ∧ m ∈ choice_errors i c.
Proof.
  intros Hm. unfold validate15_errors.
  rewrite !elem_of_app, elem_of_choices_errors. cbn [Nat.add].
  assert (∀ (b : bool) (x : string),
            (∀ i, no_text_message i ≠ x) → (∀ i, no_score_message i ≠ x) →
            m ∉ (if b then [x] else [])) as Hconst.
  { intros b x Ht Hs Hin. destruct b; [|by apply elem_of_nil in Hin].
    apply list_elem_of_singleton in Hin as ->.
    destruct Hm as [i [E|E]]; [by apply (Ht i)|by apply (Hs i)]. }
  split; [|by auto 10].
  intros [Hin|[Hin|[Hin|[Hin|Hin]]]]; [exfalso..|done].
  - by apply Hconst in Hin.
  - by apply Hconst in Hin.
  - by apply Hconst in Hin.
  - destruct choices; [|by apply elem_of_nil in Hin].
    by apply (Hconst true) in Hin.
Qed.

Lemma elem_of_choice_errors_score (i j : nat) (cd : pydict) (s : string) :
  cd !! "score" = Some (VStr s) →
  no_score_message i ∈ choice_errors j (VDict cd) ↔
  i = j ∧ float_of_string s = None.
Proof.
  intros Hs. cbn [choice_errors]. rewrite Hs, elem_of_app. split.
  - intros [Hin|Hin].
    + destruct (cd !! "text") as [[]|]; try by apply elem_of_nil in Hin.
      destruct (String.eqb _ _); [|by apply elem_of_nil in Hin].
      apply list_elem_of_singleton in Hin.
      symmetry in Hin. by apply no_text_ne_no_score in Hin.
    + destruct (float_of_string s); [by apply elem_of_nil in Hin|].
      apply list_elem_of_singleton, no_score_message_inj in Hin. done.
  - intros [-> ->]. right. by apply list_elem_of_singleton.
Qed.

Lemma elem_of_choice_errors_text (i j : nat) (cd : pydict) (t : string) :
  cd !! "text" = Some (VStr t) →
  no_text_message i ∈ choice_errors j (VDict cd) ↔
  i = j ∧ strip t = "".
Proof.
  intros Ht. cbn [choice_errors]. rewrite Ht, elem_of_app. split.
  - intros [Hin|Hin].
    + destruct (String.eqb_spec (strip t) ""); [|by apply elem_of_nil in Hin].
      apply list_elem_of_singleton, no_text_message_inj in Hin. done.
    + destruct (cd !! "score") as [[]|]; try by apply elem_of_nil in Hin.
      destruct (float_of_string _); [by apply elem_of_nil in Hin|].
      apply list_elem_of_singleton in Hin.
      by apply no_text_ne_no_score in Hin.
  - intros [-> ->]. left. by apply list_elem_of_singleton.
Qed.

(** C5: on form data of the declared shape, [_validate15] returns
    normally and the dict's ['choices'] list keeps its length; for the
    choice at index [i] whose ['score'] is the string [s]: when [float]
    accepts [s] the choice's ['score'] is now that float and no
    numeric-score error is reported for it; when [float] rejects [s] the
    choice is as it was and the error ['Choice N must have a numeric
    score.'] with [N = i + 1] is among the appended errors. *)
Theorem mc_validate15_coerces_scores (question_dict : loc) (d : pydict)
    (question description : string) (choices : list value) (key : value)
    (st : state) :
  heap st !! question_dict = Some d →
  wf_question d question description choices →
  truthy key = false ∨ (∃ z, py_long key = Ok z) →
  ∃ st' d' choices' new,
    _validate15 question_dict key st = (Ok tt, st')
    ∧ heap st' !! question_dict = Some d'
    ∧ d' !! "choices" = Some (VList choices')
    ∧ length choices' = length choices
    ∧ errors st' = errors st ++ new
    ∧ ∀ i cd s,
        choices !! i = Some (VDict cd) →
        cd !! "score" = Some (VStr s) →
        match float_of_string s with
        | Some f =>
            choices' !! i = Some (VDict (<["score" := VFloat f]> cd))
            ∧ "Choice " +:+ str_of_nat (i + 1)
                +:+ " must have a numeric score." ∉ new
        | None =>
            choices' !! i = Some (VDict cd)
            ∧ "Choice " +:+ str_of_nat (i + 1)
                +:+ " must have a numeric score." ∈ new
        end.
Proof.
  intros Hl Hwf Hkey.
  eexists _, _, _, _.
  split; [exact (run_mc_validate15 _ _ _ _ _ _ _ Hl Hwf Hkey)|].
  cbn [heap errors].
  split; [apply lookup_insert_eq|].
  split; [apply lookup_insert_eq|].
  split; [apply length_map|].
  split; [reflexivity|].
  intros i cd s Hi Hs.
  fold (no_score_message i).
  rewrite list_lookup_fmap, Hi. cbn [fmap option_fmap option_map coerce_choice].
  rewrite Hs.
  destruct (float_of_string s) as [f|] eqn:Hf;
    rewrite elem_of_validate15_errors_choice by (exists i; by right).
  - split; [done|]. intros (j & c & Hj & Hin).
    destruct Hwf as (_ & _ & _ & Hwf).
    rewrite Forall_lookup in Hwf.
    destruct (Hwf _ _ Hj) as (cd' & t' & s' & -> & _ & Hs').
    apply (elem_of_choice_errors_score _ _ _ _ Hs') in Hin as [-> Hnone].
    congruence.
  - split; [done|]. exists i, (VDict cd). split; [done|].
    by apply (elem_of_choice_errors_score _ _ _ _ Hs).
Qed.

(** C7: on form data of the declared shape, [_validate15] returns
    normally, and among the errors it appends: the non-empty-body error
    is present exactly when the question is empty after stripping; the
    non-empty-description error exactly when the description is empty;
    the at-least-one-choice error exactly when the choices list is empty;
    ['Choice N has no response text.'] with [N = i + 1] exactly when the
    choice at index [i] has a text that is empty after stripping.  When
    none of these holds, every score is numeric and the description does
    not collide, nothing is appended. *)
Theorem mc_validate15_errors (question_dict : loc) (d : pydict)
    (question description : string) (choices : list value) (key : value)
    (st : state) :
  heap st !! question_dict = Some d →
  wf_question d question description choices →
  truthy key = false ∨ (∃ z, py_long key = Ok z) →
  ∃ st' new,
    _validate15 question_dict key st = (Ok tt, st')
    ∧ errors st' = errors st ++ new
    ∧ ("The question must have a non-empty body." ∈ new
       ↔ strip question = "")
    ∧ ("The description must be non-empty." ∈ new ↔ description = "")
    ∧ ("The question must have at least one choice." ∈ new
       ↔ choices = [])
    ∧ (∀ i, "Choice " +:+ str_of_nat (i + 1) +:+ " has no response text."
              ∈ new
            ↔ ∃ cd t, choices !! i = Some (VDict cd)
                      ∧ cd !! "text" = Some (VStr t) ∧ strip t = "")
    ∧ (strip question ≠ "" → description ≠ "" → choices ≠ [] →
       (∀ i cd t, choices !! i = Some (VDict cd) →
                  cd !! "text" = Some (VStr t) → strip t ≠ "") →
       (∀ i cd s, choices !! i = Some (VDict cd) →
                  cd !! "score" = Some (VStr s) →
                  is_Some (float_of_string s)) →
       ¬ collides (ds_questions (db st)) description key →
       new = []).
Proof.
  intros Hl Hwf Hkey.
  eexists _, _.
  split; [exact (run_mc_validate15 _ _ _ _ _ _ _ Hl Hwf Hkey)|].
  cbn [heap errors]. split; [reflexivity|].
  destruct Hwf as (_ & _ & _ & Hwf). rewrite Forall_lookup in Hwf.
  assert (∀ (m : string) (k : nat) (cs : list value),
            (∀ i, no_text_message i ≠ m) → (∀ i, no_score_message i ≠ m) →
            Forall wf_choice cs → m ∉ choices_errors k cs) as Hnc.
  { intros m k cs Ht Hs Hcs Hin.
    apply elem_of_choices_errors in Hin as (i & c & Hi & Hin).
    rewrite Forall_lookup in Hcs.
    destruct (Hcs _ _ Hi) as (cd & t & s & -> & Hct & Hcs').
    cbn [choice_errors] in Hin. rewrite Hct, Hcs' in Hin.
    apply elem_of_app in Hin as [Hin|Hin].
    - destruct (String.eqb _ _); [|by apply elem_of_nil in Hin].
      apply list_elem_of_singleton in Hin. by apply (Ht (k + i)).
    - destruct (float_of_string _); [by apply elem_of_nil in Hin|].
      apply list_elem_of_singleton in Hin. by apply (Hs (k + i)). }
  assert (Forall wf_choice choices) as Hwf' by (by apply Forall_lookup).
  repeat split.
  - unfold validate15_errors. rewrite !elem_of_app.
    intros [Hin|[Hin|[Hin|[Hin|Hin]]]].
    + destruct (String.eqb_spec (strip question) ""); [done|].
      by apply elem_of_nil in Hin.
    + destruct (String.eqb _ _); [|by apply elem_of_nil in Hin].
      by apply list_elem_of_singleton in Hin.
    + destruct (collidesb _ _ _); [|by apply elem_of_nil in Hin].
      by apply list_elem_of_singleton in Hin.
    + destruct choices; [|by apply elem_of_nil in Hin].
      by apply list_elem_of_singleton in Hin.
    + by apply Hnc in Hin.
  - intros E. unfold validate15_errors. rewrite E.
    apply elem_of_app. left. by apply list_elem_of_singleton.
  - unfold validate15_errors. rewrite !elem_of_app.
    intros [Hin|[Hin|[Hin|[Hin|Hin]]]].
    + destruct (String.eqb _ _); [|by apply elem_of_nil in Hin].
      by apply list_elem_of_singleton in Hin.
    + destruct (String.eqb_spec description ""); [done|].
      by apply elem_of_nil in Hin.
    + destruct (collidesb _ _ _); [|by apply elem_of_nil in Hin].
      by apply list_elem_of_singleton in Hin.
    + destruct choices; [|by apply elem_of_nil in Hin].
      by apply list_elem_of_singleton in Hin.
    + by apply Hnc in Hin.
  - intros ->. unfold validate15_errors. rewrite !elem_of_app.
    right. left. by apply list_elem_of_singleton.
  - unfold validate15_errors. rewrite !elem_of_app.
    intros [Hin|[Hin|[Hin|[Hin|Hin]]]].
    + destruct (String.eqb _ _); [|by apply elem_of_nil in Hin].
      by apply list_elem_of_singleton in Hin.
    + destruct (String.eqb _ _); [|by apply elem_of_nil in Hin].
      by apply list_elem_of_singleton in Hin.
    + destruct (collidesb _ _ _); [|by apply elem_of_nil in Hin].
      by apply list_elem_of_singleton in Hin.
    + by destruct choices; [|apply elem_of_nil in Hin].
    + by apply Hnc in Hin.
  - intros ->. unfold validate15_errors. rewrite !elem_of_app.
    do 3 right. left. by apply list_elem_of_singleton.
  - fold (no_text_message i).
    rewrite elem_of_validate15_errors_choice by (exists i; by left).
    intros (j & c & Hj & Hin).
    destruct (Hwf _ _ Hj) as (cd & t & s & -> & Ht & Hs).
    apply (elem_of_choice_errors_text _ _ _ _ Ht) in Hin as [-> Hblank].
    by exists cd, t.
  - fold (no_text_message i).
    rewrite elem_of_validate15_errors_choice by (exists i; by left).
    intros (cd & t & Hi & Ht & Hblank). exists i, (VDict cd).
    split; [done|]. by apply (elem_of_choice_errors_text _ _ _ _ Ht).
  - intros Hq Hd Hc Htexts Hscores Hcoll. unfold validate15_errors.
    destruct (String.eqb_spec (strip question) ""); [done|].
    destruct (String.eqb_spec description ""); [done|].
    rewrite <- (collidesb_spec _ _ _ Hkey) in Hcoll.
    destruct (collidesb _ _ _); [done|].
    destruct choices as [|c0 cs0] eqn:Hch; [done|]. rewrite <- Hch in *.
    cbn [app].
    apply elem_of_nil_inv. intros m Hin.
    apply elem_of_choices_errors in Hin as (i & c & Hi & Hin).
    destruct (Hwf _ _ Hi) as (cd & t & s & -> & Ht & Hs).
    cbn [choice_errors] in Hin. rewrite Ht, Hs in Hin.
    destruct (String.eqb_spec (strip t) "") as [Hb|_];
      [by destruct (Htexts _ _ _ Hi Ht)|].
    destruct (Hscores _ _ _ Hi Hs) as [f Hf]. rewrite Hf in Hin.
    by apply elem_of_nil in Hin.
Qed.
End Mc_validate.

(** ** SaQuestionRESTHandler *)

Lemma in_list_str (s : string) (l : list string) :
  in_list (VStr s) l = true ↔ s ∈ l.
Proof.
  unfold in_list. rewrite existsb_exists. split.
  - intros (x & Hx & E). cbn in E. apply String.eqb_eq in E as ->.
    by apply list_elem_of_In.
  - intros Hs. exists s. split; [by apply list_elem_of_In|].
    cbn. apply String.eqb_refl.
Qed.

Section Sa_validate.
Context `{Builtins}.
Import BaseQuestionRESTHandler BaseForm SaQuestionRESTHandler SaForm.

Lemma run_coerce_dimension (question_dict : loc) (field label raw : string)
    (d : pydict) (st : state) :
  heap st !! question_dict = Some d →
  d !! field = Some (VStr raw) →
  coerce_dimension question_dict field label st =
    (Ok tt,
     State (<[question_dict := coerce_field field raw d]> (heap st))
       (errors st ++ dimension_errors label raw)
       (db st) (out st) (calls st)).
Proof.
  intros Hl Hf. unfold coerce_dimension, try_except.
  rewrite (run_bind_ok _ _ _ _ _ (run_dict_getitem _ _ _ _ _ Hl Hf)).
  unfold coerce_field, dimension_errors. cbn [py_int].
  destruct (int_of_string raw) as [n|].
  - rewrite run_lift_bind.
    rewrite (run_bind_ok _ _ _ _ _ (run_dict_setitem _ _ _ _ _ Hl)).
    rewrite run_when_append. reflexivity.
  - rewrite run_lift_raise. cbn [on_ValueError].
    rewrite run_errors_append. cbn.
    by rewrite (insert_id (heap st) _ _ Hl).
Qed.

Lemma run_validate_grader (question_dict : loc) (d : pydict)
    (done rest : list value) (g : value) (st : state) :
  heap st !! question_dict = Some d →
  d !! "graders" = Some (VList (done ++ g :: rest)) →
  wf_grader g →
  validate_grader question_dict (length done) st =
    (Ok tt, set_errors (errors st ++ grader_errors (length done) g) st).
Proof.
  intros Hl Hg (gd & m & r & s & -> & Hm & Hin & Hr & Hs).
  assert ((done ++ VDict gd :: rest) !! length done = Some (VDict gd))
    as Hi by (by rewrite list_lookup_middle).
  unfold validate_grader.
  rewrite (run_bind_ok _ _ _ _ _
             (run_item_getitem _ _ _ _ _ _ _ _ _ Hl Hg Hi Hm)).
  apply in_list_str in Hin. rewrite Hin.
  rewrite run_bind. cbn [mret M_ret].
  rewrite (run_bind_ok _ _ _ _ _
             (run_item_getitem _ _ _ _ _ _ _ _ _ Hl Hg Hi Hr)).
  cbn [str_strip]. rewrite run_lift_bind.
  rewrite (run_bind_ok _ _ _ _ _ (run_when_append _ _ _)).
  set (st1 := set_errors _ st).
  assert (heap st1 !! question_dict = Some d) as Hl1 by exact Hl.
  unfold try_except.
  rewrite (run_bind_ok _ _ _ _ _
             (run_item_getitem _ _ _ _ _ _ _ _ _ Hl1 Hg Hi Hs)).
  cbn [py_float grader_errors]. rewrite Hr, Hs.
  destruct (float_of_string s) as [f|].
  - rewrite run_lift_bind. subst st1. cbn. by rewrite app_nil_r.
  - rewrite run_lift_raise. cbn [on_ValueError].
    rewrite run_errors_append. subst st1. cbn. by rewrite <- app_assoc.
Qed.

Lemma run_graders_loop (question_dict : loc) (d : pydict)
    (rest : list value) :
  ∀ (done : list value) (st : state),
    heap st !! question_dict = Some d →
    d !! "graders" = Some (VList (done ++ rest)) →
    Forall wf_grader rest →
    foreach (seq (length done) (length rest)) (validate_grader question_dict)
      st =
      (Ok tt, set_errors (errors st ++ graders_errors (length done) rest) st).
Proof.
  induction rest as [|g rest IH]; intros done st Hl Hg Hwf.
  - cbn. rewrite app_nil_r. unfold set_errors. by rewrite state_eta.
  - apply Forall_cons in Hwf as [Hwg Hwf].
    cbn [length seq foreach].
    rewrite (run_bind_ok _ _ _ _ _
               (run_validate_grader _ _ _ _ _ _ Hl Hg Hwg)).
    specialize (IH (done ++ [g])).
    rewrite length_app, Nat.add_1_r in IH.
    rewrite IH; [|exact Hl|by rewrite <- app_assoc|exact Hwf].
    cbn. by rewrite <- app_assoc.
Qed.

Lemma run_sa_validate15 (question_dict : loc) (d : pydict)
    (question description rows columns : string) (graders : list value)
    (key : value) (st : state) :
  heap st !! question_dict = Some d →
  wf_question d question description rows columns graders →
  truthy key = false ∨ (∃ z, py_long key = Ok z) →
  _validate15 question_dict key st =
    (Ok tt,
     State
       (<[question_dict :=
            coerce_field "columns" columns (coerce_field "rows" rows d)]>
          (heap st))
       (errors st
          ++ validate15_errors st question description rows columns key
               graders)
       (db st) (out st) (calls st)).
Proof.
  intros Hl (Hq & Hd & Hr & Hc & Hg & Hwf) Hkey. unfold _validate15.
  rewrite (run_bind_ok _ _ _ _ _ (run_dict_getitem _ _ _ _ _ Hl Hq)).
  cbn [str_strip]. rewrite run_lift_bind.
  rewrite (run_bind_ok _ _ _ _ _ (run_when_append _ _ _)).
  set (st1 := set_errors _ st).
  assert (heap st1 !! question_dict = Some d) as Hl1 by exact Hl.
  rewrite (run_bind_ok _ _ _ _ _ (run_dict_getitem _ _ _ _ _ Hl1 Hd)).
  rewrite (run_bind_ok _ _ _ _ _ (run_when_append _ _ _)).
  set (st2 := set_errors _ st1).
  assert (heap st2 !! question_dict = Some d) as Hl2 by exact Hl.
  rewrite (run_bind_ok _ _ _ _ _ (run_dict_getitem _ _ _ _ _ Hl2 Hd)).
  rewrite (run_bind_ok _ _ _ _ _
             (run_validate_no_description_collision _ _ _ Hkey)).
  set (st3 := set_errors _ st2).
  assert (heap st3 !! question_dict = Some d) as Hl3 by exact Hl.
  rewrite (run_bind_ok _ _ _ _ _
             (run_coerce_dimension _ _ _ _ _ _ Hl3 Hr)).
  set (d1 := coerce_field "rows" rows d).
  set (st4 := State _ _ _ _ _).
  assert (heap st4 !! question_dict = Some d1) as Hl4
    by apply lookup_insert_eq.
  assert (∀ k v, k ≠ "rows" → d !! k = Some v → d1 !! k = Some v) as Hd1.
  { intros k v Hk Hv. unfold d1, coerce_field.
    destruct (int_of_string rows); [by rewrite lookup_insert_ne|done]. }
  rewrite (run_bind_ok _ _ _ _ _
             (run_coerce_dimension _ _ _ _ _ _ Hl4 (Hd1 "columns" _ ltac:(done) Hc))).
  set (d2 := coerce_field "columns" columns d1).
  set (st5 := State _ _ _ _ _).
  assert (heap st5 !! question_dict = Some d2) as Hl5
    by apply lookup_insert_eq.
  assert (d2 !! "graders" = Some (VList graders)) as Hg2.
  { unfold d2, coerce_field.
    destruct (int_of_string columns);
      [rewrite lookup_insert_ne by done|]; by apply Hd1. }
  rewrite (run_bind_ok _ _ _ _ _ (run_dict_getitem _ _ _ _ _ Hl5 Hg2)).
  rewrite (run_bind_ok _ _ _ _ _ (run_when_append _ _ _)).
  set (st6 := set_errors _ st5).
  assert (heap st6 !! question_dict = Some d2) as Hl6 by exact Hl5.
  rewrite (run_bind_ok _ _ _ _ _ (run_dict_getitem _ _ _ _ _ Hl6 Hg2)).
  cbn [py_len]. rewrite run_lift_bind.
  pose proof (run_graders_loop question_dict d2 graders [] st6 Hl6 Hg2 Hwf)
    as Hloop.
  cbn [length app] in Hloop. rewrite Hloop.
  subst st6 st5 st4 st3 st2 st1. unfold validate15_errors. cbn.
  rewrite insert_insert_eq, <- !app_assoc.
  by destruct graders, (String.eqb description "").
Qed.

Lemma graders_errors_shape (m : string) (gs : list value) :
  ∀ k, m ∈ graders_errors k gs →
       ∃ i, m = no_response_message i ∨ m = no_score_message i.
Proof.
  induction gs as [|g gs IH]; intros k Hin; cbn [graders_errors] in Hin.
  - by apply elem_of_nil in Hin.
  - apply elem_of_app in Hin as [Hin|Hin]; [|by apply (IH (S k))].
    destruct g; cbn [grader_errors] in Hin;
      try by apply elem_of_nil in Hin.
    apply elem_of_app in Hin as [Hin|Hin].
    + destruct (d !! "response") as [[]|];
        try by apply elem_of_nil in Hin.
      destruct (String.eqb _ _); [|by apply elem_of_nil in Hin].
      apply list_elem_of_singleton in Hin. exists k. by left.
    + destruct (d !! "score") as [[]|]; try by apply elem_of_nil in Hin.
      destruct (float_of_string _); [by apply elem_of_nil in Hin|].
      apply list_elem_of_singleton in Hin. exists k. by right.
Qed.

(** Where a dimension message can come from. *)
Lemma elem_of_validate15_errors_dimension (m : string) (st : state)
    (question description rows columns : string) (key : value)
    (graders : list value) :
  m ∈ ["Rows must be a whole number";
       "Rows must be a positive whole number";
       "Columns must be a whole number";
       "Columns must be a positive whole number"] →
  m ∈ validate15_errors st question description rows columns key graders ↔
  m ∈ dimension_errors "Rows" rows ++ dimension_errors "Columns" columns.
Proof.
  intros Hm. unfold validate15_errors. rewrite !elem_of_app.
  split; [|tauto].
  intros [Hin|[Hin|[Hin|[Hin|[Hin|[Hin|Hin]]]]]]; [exfalso..|tauto|tauto|exfalso|exfalso].
  - destruct (String.eqb _ _); [|by apply elem_of_nil in Hin].
    apply list_elem_of_singleton in Hin as ->.
    by repeat (apply elem_of_cons in Hm as [Hm|Hm]; [done|]);
      apply elem_of_nil in Hm.
  - destruct (String.eqb _ _); [|by apply elem_of_nil in Hin].
    apply list_elem_of_singleton in Hin as ->.
    by repeat (apply elem_of_cons in Hm as [Hm|Hm]; [done|]);
      apply elem_of_nil in Hm.
  - destruct (collidesb _ _ _); [|by apply elem_of_nil in Hin].
    apply list_elem_of_singleton in Hin as ->.
    by repeat (apply elem_of_cons in Hm as [Hm|Hm]; [done|]);
      apply elem_of_nil in Hm.
  - destruct graders; [|by apply elem_of_nil in Hin].
    apply list_elem_of_singleton in Hin as ->.
    by repeat (apply elem_of_cons in Hm as [Hm|Hm]; [done|]);
      apply elem_of_nil in Hm.
  - apply graders_errors_shape in Hin as [i [-> | ->]];
      by repeat (apply elem_of_cons in Hm as [Hm|Hm]; [done|]);
        apply elem_of_nil in Hm.
Qed.

(** C6: on a short-answer form of the declared shape, [_validate15]
    returns normally and, for each of ['rows'] and ['columns']: when
    [int] accepts the string, the field now holds that int, no
    whole-number error is reported for the field, and the
    positive-whole-number error is reported exactly when the int is at
    most zero; when [int] rejects the string, the field keeps the string,
    the whole-number error is reported and the positive-whole-number
    error is not. *)
Theorem sa_validate15_dimensions (question_dict : loc) (d : pydict)
    (question description rows columns : string) (graders : list value)
    (key : value) (st : state) :
  heap st !! question_dict = Some d →
  wf_question d question description rows columns graders →
  truthy key = false ∨ (∃ z, py_long key = Ok z) →
  ∃ st' d' new,
    _validate15 question_dict key st = (Ok tt, st')
    ∧ heap st' !! question_dict = Some d'
    ∧ errors st' = errors st ++ new
    ∧ match int_of_string rows with
      | Some n =>
          d' !! "rows" = Some (VInt n)
          ∧ ("Rows must be a whole number" ∉ new)
          ∧ ("Rows must be a positive whole number" ∈ new ↔ (n ≤ 0)%Z)
      | None =>
          d' !! "rows" = Some (VStr rows)
          ∧ "Rows must be a whole number" ∈ new
          ∧ "Rows must be a positive whole number" ∉ new
      end
    ∧ match int_of_string columns with
      | Some n =>
          d' !! "columns" = Some (VInt n)
          ∧ ("Columns must be a whole number" ∉ new)
          ∧ ("Columns must be a positive whole number" ∈ new
             ↔ (n ≤ 0)%Z)
      | None =>
          d' !! "columns" = Some (VStr columns)
          ∧ "Columns must be a whole number" ∈ new
          ∧ "Columns must be a positive whole number" ∉ new
      end.
Proof.
  intros Hl Hwf Hkey.
  eexists _, _, _.
  split; [exact (run_sa_validate15 _ _ _ _ _ _ _ _ _ Hl Hwf Hkey)|].
  cbn [heap errors].
  split; [apply lookup_insert_eq|]. split; [reflexivity|].
  destruct Hwf as (_ & _ & Hr & Hc & _ & _).
  unfold coerce_field.
  split.
  - destruct (int_of_string rows) as [n|] eqn:En;
      rewrite !elem_of_validate15_errors_dimension
        by (rewrite !elem_of_cons; tauto);
      unfold dimension_errors; rewrite En.
    + split.
      { destruct (int_of_string columns);
          [rewrite lookup_insert_ne by done|]; apply lookup_insert_eq. }
      destruct (Z.leb_spec n 0), (int_of_string columns) as [m|];
        try destruct (Z.leb_spec m 0); cbn;
        rewrite ?elem_of_cons, ?elem_of_nil; split;
        try (intros ?; intuition (try discriminate; try lia));
        try (split; intros ?; intuition (try discriminate; try lia)).
    + split.
      { destruct (int_of_string columns);
          [rewrite lookup_insert_ne by done|]; exact Hr. }
      destruct (int_of_string columns) as [m|];
        try destruct (Z.leb_spec m 0); cbn;
        rewrite ?elem_of_cons, ?elem_of_nil; split;
        try (intros ?; intuition (try discriminate; try lia));
        intuition.
  - destruct (int_of_string columns) as [n|] eqn:En;
      rewrite !elem_of_validate15_errors_dimension
        by (rewrite !elem_of_cons; tauto);
      unfold dimension_errors; rewrite En.
    + split; [apply lookup_insert_eq|].
      destruct (Z.leb_spec n 0), (int_of_string rows) as [m|];
        try destruct (Z.leb_spec m 0); cbn;
        rewrite ?elem_of_cons, ?elem_of_nil; split;
        try (intros ?; intuition (try discriminate; try lia));
        try (split; intros ?; intuition (try discriminate; try lia)).
    + split.
      { destruct (int_of_string rows);
          [by rewrite lookup_insert_ne|done]. }
      destruct (int_of_string rows) as [m|];
        try destruct (Z.leb_spec m 0); cbn;
        rewrite ?elem_of_cons, ?elem_of_nil; split;
        try (intros ?; intuition (try discriminate; try lia));
        intuition.
Qed.
End Sa_validate.

(** ** GiftQuestionRESTHandler *)

Section Gift_validate.
Context `{Builtins} `{Models} `{Platform}.
Import GiftQuestionRESTHandler GiftForm.

Lemma run_description_loop (stored : list string) (questions : list loc) :
  ∀ st,
    (∀ q, q ∈ questions →
          ∃ d v, heap st !! q = Some d ∧ d !! "description" = Some v) →
    foreach questions (λ question,
      description ← dict_getitem question "description";
      when (in_list description stored) (errors_append collision_message))
      st =
      (Ok tt,
       set_errors
         (errors st
            ++ concat (map (description_errors (heap st) stored) questions))
         st).
Proof.
  induction questions as [|q qs IH]; intros st Hqs.
  - cbn. rewrite app_nil_r. unfold set_errors. by rewrite state_eta.
  - destruct (Hqs q) as (d & v & Hl & Hv); [apply elem_of_cons; by left|].
    cbn [foreach].
    rewrite run_bind.
    rewrite (run_bind_ok _ _ _ _ _ (run_dict_getitem _ _ _ _ _ Hl Hv)).
    rewrite run_when_append.
    rewrite IH by (intros q' Hq'; apply Hqs, elem_of_cons; by right).
    cbn. unfold description_errors at 2. rewrite Hl, Hv.
    by rewrite <- app_assoc.
Qed.

Lemma run_validate_question_descriptions (questions : list loc)
    (st : state) :
  (∀ q, q ∈ questions →
        ∃ d v, heap st !! q = Some d ∧ d !! "description" = Some v) →
  validate_question_descriptions questions st =
    (Ok tt,
     set_errors
       (errors st
          ++ concat
               (map (description_errors (heap st)
                       (map ent_description (ds_questions (db st))))
                  questions))
       st).
Proof.
  intros Hqs. unfold validate_question_descriptions, QuestionDAO_get_all.
  rewrite run_bind. by apply run_description_loop.
Qed.

(** C8: when no imported question has the description of a stored
    question, [validate_question_descriptions] returns normally and leaves
    the state, and so the errors list, as it was; whether imported
    questions share a description with one another plays no part. *)
Theorem validate_question_descriptions_ignores_batch
    (questions : list loc) (st : state) :
  (∀ q, q ∈ questions →
        ∃ d s, heap st !! q = Some d
               ∧ d !! "description" = Some (VStr s)
               ∧ ∀ e, e ∈ ds_questions (db st) → ent_description e ≠ s) →
  validate_question_descriptions questions st = (Ok tt, st).
Proof.
  intros Hqs.
  rewrite run_validate_question_descriptions.
  - replace (concat _) with (@nil string).
    { rewrite app_nil_r. unfold set_errors. by rewrite state_eta. }
    symmetry. apply elem_of_nil_inv. intros m Hm.
    apply list_elem_of_In, in_concat in Hm as (l & Hl & Hm).
    apply in_map_iff in Hl as (q & <- & Hq).
    apply list_elem_of_In in Hq.
    destruct (Hqs q Hq) as (d & s & Hd & Hs & Hne).
    unfold description_errors in Hm. rewrite Hd, Hs in Hm.
    destruct (in_list _ _) eqn:Hin; [|done].
    apply in_list_str, list_elem_of_fmap in Hin as (e & -> & He).
    by destruct (Hne e He).
  - intros q Hq. destruct (Hqs q Hq) as (d & s & Hd & Hs & _). eauto.
Qed.
End Gift_validate.

Section Gift_convert.
Context `{Builtins} `{Models} `{Platform}.
Import GiftQuestionRESTHandler GiftForm.

Lemma eq_str_multi_choice (d : pydict) :
  d !! "type" = Some (VStr "multi_choice")
  ↔ eq_str (default VNone (d !! "type")) "multi_choice" = true.
Proof.
  destruct (d !! "type") as [[]|]; cbn; try (split; intros; discriminate).
  rewrite String.eqb_eq. split; [by intros [= ->]|by intros ->].
Qed.

Lemma run_convert_loop (questions : list loc) :
  ∀ (dtos : list QuestionDTO) (st : state),
    (∀ q, q ∈ questions → is_Some (heap st !! q)) →
    convert_loop questions dtos st =
      (Ok (dtos ++ map (DTO None) questions),
       set_heap (convert_heap questions (heap st)) st).
Proof.
  induction questions as [|q qs IH]; intros dtos st Hqs.
  - cbn. rewrite app_nil_r. unfold set_heap. by rewrite state_eta.
  - destruct (Hqs q) as [d Hd]; [apply elem_of_cons; by left|].
    cbn [convert_loop convert_heap]. rewrite Hd.
    rewrite (run_bind_ok _ _ _ _ _ (run_dict_setitem _ _ _ _ _ Hd)).
    set (st1 := set_heap _ st).
    assert (heap st1 !! q = Some (<["version" := VERSION]> d)) as Hd1
      by apply lookup_insert_eq.
    unfold dto_get_type, dto_set_type. cbn [dto_dict].
    rewrite (run_bind_ok _ _ _ _ _ (run_dict_get _ _ _ _ Hd1)).
    rewrite lookup_insert_ne by done.
    assert (∀ v, dict_setitem q "type" v st1 =
                 (Ok tt,
                  set_heap
                    (<[q := <["type" := v]> (<["version" := VERSION]> d)]>
                       (heap st)) st)) as Hset.
    { intros v. rewrite (run_dict_setitem _ _ _ _ _ Hd1).
      subst st1. cbn. by rewrite insert_insert_eq. }
    rewrite run_bind.
    replace ((if eq_str (default VNone (d !! "type")) "multi_choice"
              then dict_setitem q "type" MULTIPLE_CHOICE
              else dict_setitem q "type" SHORT_ANSWER) st1)
      with (Ok tt, set_heap (<[q := converted d]> (heap st)) st)
      by (unfold converted; destruct (eq_str _ _); by rewrite Hset).
    rewrite IH.
    + cbn. by rewrite <- app_assoc.
    + intros q' Hq'. cbn.
      destruct (decide (q = q')) as [->|Hne].
      * rewrite lookup_insert_eq. eauto.
      * rewrite lookup_insert_ne by done.
        apply Hqs, elem_of_cons. by right.
Qed.

Lemma convert_heap_other (questions : list loc) :
  ∀ (h : gmap loc pydict) (l : loc),
    l ∉ questions → convert_heap questions h !! l = h !! l.
Proof.
  induction questions as [|q qs IH]; intros h l Hl; [done|].
  apply not_elem_of_cons in Hl as [Hne Hl]. cbn [convert_heap].
  rewrite IH by done.
  destruct (h !! q); [by rewrite lookup_insert_ne|done].
Qed.

Lemma convert_heap_question (questions : list loc) :
  ∀ (h : gmap loc pydict) (q : loc) (d : pydict),
    NoDup questions → q ∈ questions → h !! q = Some d →
    convert_heap questions h !! q = Some (converted d).
Proof.
  induction questions as [|q0 qs IH]; intros h q d Hnd Hq Hd.
  - by apply elem_of_nil in Hq.
  - apply NoDup_cons in Hnd as [Hnotin Hnd]. cbn [convert_heap].
    apply elem_of_cons in Hq as [->|Hq].
    + rewrite convert_heap_other by done. rewrite Hd.
      apply lookup_insert_eq.
    + assert (q0 ≠ q) as Hne by (intros ->; done).
      apply IH; [done|done|].
      destruct (h !! q0); [by rewrite lookup_insert_ne|done].
Qed.

(** C4: for a list of distinct, allocated question dicts,
    [convert_to_dtos] returns one DTO per question, in order, each with no
    id and wrapping that question's dict; each dict then has ['version']
    equal to [QuestionDAO.VERSION] and ['type'] equal to
    [MULTIPLE_CHOICE] when the parsed ['type'] was ['multi_choice'] and to
    [SHORT_ANSWER] in every other case (also when there was none), so
    that, the two constants being distinct, it is [MULTIPLE_CHOICE] exactly
    when the parsed type was ['multi_choice']; its other keys are
    untouched, and no other object changes. *)
Theorem convert_to_dtos_types (questions : list loc) (st : state) :
  NoDup questions →
  (∀ q, q ∈ questions → is_Some (heap st !! q)) →
  ∃ st',
    convert_to_dtos questions st = (Ok (map (DTO None) questions), st')
    ∧ (∀ q d, q ∈ questions → heap st !! q = Some d →
         ∃ d', heap st' !! q = Some d'
               ∧ d' !! "version" = Some VERSION
               ∧ d' !! "type" =
                   Some (if eq_str (default VNone (d !! "type"))
                              "multi_choice"
                         then MULTIPLE_CHOICE else SHORT_ANSWER)
               ∧ (MULTIPLE_CHOICE ≠ SHORT_ANSWER →
                  d' !! "type" = Some MULTIPLE_CHOICE
                  ↔ d !! "type" = Some (VStr "multi_choice"))
               ∧ ∀ k, k ≠ "version" → k ≠ "type" → d' !! k = d !! k)
    ∧ (∀ l, l ∉ questions → heap st' !! l = heap st !! l)
    ∧ errors st' = errors st ∧ db st' = db st
    ∧ out st' = out st ∧ calls st' = calls st.
Proof.
  intros Hnd Hqs. eexists. unfold convert_to_dtos.
  split; [exact (run_convert_loop questions [] st Hqs)|].
  cbn [heap errors db out calls set_heap].
  split; [|split; [intros l Hl; by apply convert_heap_other|done]].
  intros q d Hq Hd. exists (converted d).
  split; [by apply convert_heap_question|].
  unfold converted.
  split; [by rewrite lookup_insert_ne, lookup_insert_eq|].
  split; [apply lookup_insert_eq|].
  split; [|intros k Hk1 Hk2; by rewrite !lookup_insert_ne].
  intros Hne. rewrite lookup_insert_eq, eq_str_multi_choice.
  destruct (eq_str _ _); split; try done.
  intros [= E]. by destruct Hne.
Qed.

(** The type read back through the DTO is the one that was set. *)
Lemma convert_to_dtos_dto_type (questions : list loc) (st st' : state)
    (dtos : list QuestionDTO) (i : nat) (q : loc) (d : pydict) :
  NoDup questions →
  (∀ q, q ∈ questions → is_Some (heap st !! q)) →
  convert_to_dtos questions st = (Ok dtos, st') →
  questions !! i = Some q → heap st !! q = Some d →
  ∃ dto, dtos !! i = Some dto ∧ dto_id dto = None ∧ dto_dict dto = q
         ∧ dto_get_type dto st' =
             (Ok (if eq_str (default VNone (d !! "type")) "multi_choice"
                  then MULTIPLE_CHOICE else SHORT_ANSWER), st').
Proof.
  intros Hnd Hqs Hrun Hi Hd. unfold convert_to_dtos in Hrun.
  rewrite (run_convert_loop questions [] st Hqs) in Hrun.
  injection Hrun as <- <-.
  exists (DTO None q). split; [by rewrite list_lookup_fmap, Hi|].
  split; [done|]. split; [done|].
  assert (heap (set_heap (convert_heap questions (heap st)) st) !! q
          = Some (converted d)) as Hd'.
  { apply convert_heap_question; [done| |done].
    by eapply list_elem_of_lookup_2. }
  unfold dto_get_type. cbn [dto_dict].
  rewrite (run_dict_get _ _ _ _ Hd'). unfold converted.
  by rewrite lookup_insert_eq.
Qed.

(** With the same dict twice in the list, the second pass reads the type
    written by the first. *)
Lemma convert_loop_aliasing (q : loc) (d : pydict) (st : state) :
  heap st !! q = Some d →
  convert_to_dtos [q; q] st =
    (Ok [DTO None q; DTO None q],
     set_heap (<[q := converted (converted d)]> (heap st)) st).
Proof.
  intros Hd. unfold convert_to_dtos. rewrite run_convert_loop.
  - cbn. rewrite Hd, lookup_insert_eq. by rewrite insert_insert_eq.
  - intros q' Hq'. apply elem_of_cons in Hq' as [->|Hq']; [eauto|].
    apply list_elem_of_singleton in Hq' as ->. eauto.
Qed.

(** C3: [create_group] passes to [create_question_group] a record whose
    ['items'] has one entry per question id, in order, each being
    [{'question': str(id), 'weight': 1.0}], with the given description, an
    empty introduction and the DAO's version; the call is recorded and its
    outcome is the outcome of [create_group]. *)
Theorem create_group_record (description : value) (question_ids : list Z)
    (st : state) :
  ∃ group items,
    create_group description question_ids st =
      (let '(r, db') := dao_create_question_group group (db st) in
       (r, State (heap st) (errors st) db' (out st)
             (calls st ++ [CreateQuestionGroup group])))
    ∧ group !! "items" = Some (VList items)
    ∧ length items = length question_ids
    ∧ (∀ i x, question_ids !! i = Some x →
         items !! i =
           Some (VDict (<["question" := VStr (str_of_int x)]>
                          (<["weight" := VFloat float_one]> ∅))))
    ∧ group !! "description" = Some description
    ∧ group !! "introduction" = Some (VStr "")
    ∧ group !! "version" = Some VERSION
    ∧ dom group = {["version"; "description"; "introduction"; "items"]}.
Proof.
  exists (group_record description question_ids),
         (map group_item question_ids).
  split; [reflexivity|].
  split; [done|].
  split; [apply length_map|].
  split; [intros i x Hi; by rewrite list_lookup_fmap, Hi|].
  split; [done|]. split; [done|]. split; [done|].
  unfold group_record. rewrite !dom_insert_L, dom_empty_L. set_solver.
Qed.
End Gift_convert.

(** *** Computations that leave the datastore and the response alone *)

Lemma quiet_ret {A} (a : A) : quiet (mret a : M A).
Proof. by intros st. Qed.

Lemma quiet_lift {A} (r : result A) : quiet (lift r).
Proof. by intros st. Qed.

Lemma quiet_raise {A} (e : exn) : quiet (raise e : M A).
Proof. by intros st. Qed.

Lemma quiet_bind {A B} (c : M A) (f : A → M B) :
  quiet c → (∀ a, quiet (f a)) → quiet (c ≫= f).
Proof.
  intros Hc Hf st. rewrite run_bind. specialize (Hc st).
  destruct (c st) as [[a|e] st1]; cbn in *; [|done].
  destruct (Hf a st1) as (-> & -> & ->). done.
Qed.

Lemma quiet_deref (l : loc) : quiet (deref l).
Proof. intros st. unfold deref. by destruct (heap st !! l). Qed.

Lemma quiet_dict_getitem (l : loc) (k : string) : quiet (dict_getitem l k).
Proof.
  apply quiet_bind; [apply quiet_deref|]. intros d. apply quiet_lift.
Qed.

Lemma quiet_dict_get (l : loc) (k : string) : quiet (dict_get l k).
Proof.
  apply quiet_bind; [apply quiet_deref|]. intros d. apply quiet_ret.
Qed.

Lemma quiet_dict_setitem (l : loc) (k : string) (v : value) :
  quiet (dict_setitem l k v).
Proof. apply quiet_bind; [apply quiet_deref|]. by intros d st. Qed.

Lemma quiet_alloc (d : pydict) : quiet (alloc d).
Proof. by intros st. Qed.

Lemma quiet_errors_append (msg : string) : quiet (errors_append msg).
Proof. by intros st. Qed.

Lemma quiet_when (b : bool) (c : M unit) : quiet c → quiet (when b c).
Proof. destruct b; [done|]. intros _. apply quiet_ret. Qed.

Lemma quiet_foreach {A} (l : list A) (body : A → M unit) :
  (∀ x, quiet (body x)) → quiet (foreach l body).
Proof.
  intros Hb. induction l as [|x l IH]; [apply quiet_ret|].
  cbn [foreach]. apply quiet_bind; [apply Hb|]. by intros _.
Qed.

Lemma quiet_alloc_all (ds : list pydict) : quiet (alloc_all ds).
Proof.
  induction ds as [|d ds IH]; [apply quiet_ret|]. cbn [alloc_all].
  apply quiet_bind; [apply quiet_alloc|]. intros l.
  apply quiet_bind; [apply IH|]. intros ls. apply quiet_ret.
Qed.

Lemma quiet_get_errors : quiet get_errors.
Proof. by intros st. Qed.

Lemma mute_ret {A} (a : A) : mute (mret a : M A).
Proof. by intros st. Qed.

Lemma mute_bind {A B} (c : M A) (f : A → M B) :
  mute c → (∀ a, mute (f a)) → mute (c ≫= f).
Proof.
  intros Hc Hf st. rewrite run_bind. specialize (Hc st).
  destruct (c st) as [[a|e] st1]; cbn in *; [|done].
  destruct (Hf a st1) as (-> & ->). done.
Qed.

Lemma mute_deref (l : loc) : mute (deref l).
Proof. intros st. unfold deref. by destruct (heap st !! l). Qed.

Lemma mute_dict_getitem (l : loc) (k : string) : mute (dict_getitem l k).
Proof. apply mute_bind; [apply mute_deref|]. by intros d st. Qed.

Lemma mute_dict_get (l : loc) (k : string) : mute (dict_get l k).
Proof. apply mute_bind; [apply mute_deref|]. by intros d st. Qed.

Lemma mute_dict_setitem (l : loc) (k : string) (v : value) :
  mute (dict_setitem l k v).
Proof. apply mute_bind; [apply mute_deref|]. by intros d st. Qed.

Lemma mute_dao_write {A} (c : dao_call)
    (write : datastore → result A * datastore) :
  mute (dao_write c write).
Proof. intros st. unfold dao_write. by destruct (write (db st)). Qed.

Lemma mute_deref_all (dtos : list QuestionDTO) : mute (deref_all dtos).
Proof.
  induction dtos as [|dto dtos IH]; [apply mute_ret|]. cbn [deref_all].
  apply mute_bind; [apply mute_deref|]. intros d.
  apply mute_bind; [apply IH|]. intros rest. apply mute_ret.
Qed.

Section Gift_put.
Context `{Builtins} `{Models} `{Platform}.
Import GiftQuestionRESTHandler GiftForm.

Lemma mute_convert_loop (questions : list loc) :
  ∀ dtos, mute (convert_loop questions dtos).
Proof.
  induction questions as [|q qs IH]; intros dtos; [apply mute_ret|].
  cbn [convert_loop].
  apply mute_bind; [apply mute_dict_setitem|]. intros _.
  apply mute_bind; [apply mute_dict_get|]. intros ty.
  apply mute_bind; [|intros _; apply IH].
  destruct (eq_str ty "multi_choice"); apply mute_dict_setitem.
Qed.

Lemma mute_put_persist (python_dict : loc) (questions : list loc) :
  mute (put_persist python_dict questions).
Proof.
  unfold put_persist.
  apply mute_bind; [apply mute_convert_loop|]. intros dtos.
  apply mute_bind.
  { apply mute_bind; [apply mute_deref_all|]. intros rows.
    apply mute_dao_write. }
  intros ids.
  apply mute_bind; [apply mute_dict_getitem|]. intros gd.
  apply mute_bind; [apply mute_dao_write|]. intros _. apply mute_ret.
Qed.

Lemma quiet_validate_question_descriptions (questions : list loc) :
  quiet (validate_question_descriptions questions).
Proof.
  apply quiet_bind; [by intros st|]. intros qs.
  apply quiet_foreach. intros q.
  apply quiet_bind; [apply quiet_dict_getitem|]. intros d.
  apply quiet_when, quiet_errors_append.
Qed.

Lemma quiet_validate_group_description (group_description : value) :
  quiet (validate_group_description group_description).
Proof.
  apply quiet_bind; [by intros st|]. intros grs.
  apply quiet_when, quiet_errors_append.
Qed.

Lemma quiet_put_validate (json_dict : value) :
  quiet (put_validate json_dict).
Proof.
  unfold put_validate.
  apply quiet_bind; [apply quiet_lift|]. intros converted.
  apply quiet_bind; [apply quiet_alloc|]. intros python_dict.
  apply quiet_bind; [apply quiet_dict_getitem|]. intros text.
  apply quiet_bind; [apply quiet_lift|]. intros parsed.
  apply quiet_bind; [apply quiet_alloc_all|]. intros questions.
  apply quiet_bind; [apply quiet_validate_question_descriptions|].
  intros _.
  apply quiet_bind; [apply quiet_dict_getitem|]. intros gd.
  apply quiet_bind; [apply quiet_validate_group_description|].
  intros _. apply quiet_ret.
Qed.

Lemma run_put_reaching_try (request_param json_dict : value) (st : state) :
  reaches_try request_param json_dict →
  put request_param st =
    (try_except (put_try json_dict)
       (on_put_errors (λ msg, _ ← errors_append msg; mret None))
     ≫= put_respond) (set_errors [] st).
Proof.
  intros (request & payload & Hreq & Hx & Ha & Hp & Hj).
  unfold put. rewrite Hreq, run_lift_bind, Hx, Ha. cbn [negb].
  rewrite Hp, run_lift_bind, Hj, run_lift_bind. reflexivity.
Qed.


Lemma run_put_respond_errors (python_dict : option loc) (st : state) :
  errors st ≠ [] →
  put_respond python_dict st =
    (Ok tt, set_out (out st ++ [ValidationError (join_lines (errors st))]) st).
Proof.
  intros Hne. unfold put_respond, get_errors. rewrite run_bind.
  by destruct (errors st).
Qed.

(** How [put] ends, from how the [try] body ends. *)
Lemma run_put_try_raise (request_param json_dict : value) (st stt : state)
    (e : exn) (msg : string) :
  reaches_try request_param json_dict →
  put_try json_dict (set_errors [] st) = (Raise e, stt) →
  caught_by_put e = Some msg →
  put request_param st =
    (Ok tt,
     State (heap stt) (errors stt ++ [msg]) (db stt)
       (out stt ++ [ValidationError (join_lines (errors stt ++ [msg]))])
       (calls stt)).
Proof.
  intros Hr Htry Hc. rewrite (run_put_reaching_try _ _ _ Hr).
  rewrite run_bind. unfold try_except. rewrite Htry.
  assert (on_put_errors (λ msg, _ ← errors_append msg; mret None) e
          = Some (_ ← errors_append msg; mret (None : option loc))) as ->.
  { destruct e; try done; cbn in Hc; by injection Hc as ->. }
  rewrite (run_bind_ok _ _ _ _ _ (run_errors_append _ _)).
  cbn [mret M_ret]. rewrite run_put_respond_errors; [done|].
  cbn. by destruct (errors stt).
Qed.

Lemma run_put_try_uncaught (request_param json_dict : value)
    (st stt : state) (e : exn) :
  reaches_try request_param json_dict →
  put_try json_dict (set_errors [] st) = (Raise e, stt) →
  caught_by_put e = None →
  put request_param st = (Raise e, stt).
Proof.
  intros Hr Htry Hc. rewrite (run_put_reaching_try _ _ _ Hr).
  rewrite run_bind. unfold try_except. rewrite Htry.
  by destruct e.
Qed.

Lemma run_put_try_ok (request_param json_dict : value) (st stt : state)
    (python_dict : option loc) :
  reaches_try request_param json_dict →
  put_try json_dict (set_errors [] st) = (Ok python_dict, stt) →
  put request_param st = put_respond python_dict stt.
Proof.
  intros Hr Htry. rewrite (run_put_reaching_try _ _ _ Hr).
  rewrite run_bind. unfold try_except. by rewrite Htry.
Qed.

Lemma run_put_try_validate_raise (json_dict : value) (st stv : state)
    (e : exn) :
  put_validate json_dict st = (Raise e, stv) →
  put_try json_dict st = (Raise e, stv).
Proof. intros Hv. unfold put_try. by rewrite run_bind, Hv. Qed.

Lemma run_put_try_validate_errors (json_dict : value) (st stv : state)
    (bound : loc * list loc) :
  put_validate json_dict st = (Ok bound, stv) →
  errors stv ≠ [] →
  put_try json_dict st = (Ok (Some bound.1), stv).
Proof.
  intros Hv Hne. unfold put_try.
  rewrite (run_bind_ok _ _ _ _ _ Hv). unfold get_errors. rewrite run_bind.
  by destruct (errors stv).
Qed.

Lemma run_put_try_persist (json_dict : value) (st stv : state)
    (bound : loc * list loc) :
  put_validate json_dict st = (Ok bound, stv) →
  errors stv = [] →
  put_try json_dict st =
    match put_persist bound.1 bound.2 stv with
    | (Ok _, stp) => (Ok (Some bound.1), stp)
    | (Raise e, stp) => (Raise e, stp)
    end.
Proof.
  intros Hv He. unfold put_try.
  rewrite (run_bind_ok _ _ _ _ _ Hv). unfold get_errors.
  rewrite run_bind, He, run_bind.
  by destruct (put_persist bound.1 bound.2 stv) as [[[]|e] stp].
Qed.


(** When validation passes and the writes succeed, the questions and the
    group are written, in this order, and the response is the 200. *)
Lemma put_saved (request_param json_dict : value) (st stv stp : state)
    (bound : loc * list loc) (d : pydict) (description : value) :
  reaches_try request_param json_dict →
  put_validate json_dict (set_errors [] st) = (Ok bound, stv) →
  errors stv = [] →
  put_persist bound.1 bound.2 stv = (Ok tt, stp) →
  heap stp !! bound.1 = Some d →
  d !! "description" = Some description →
  put request_param st =
    (Ok tt,
     set_out (out st ++ [JsonResponse 200 (format_saved description)]) stp).
Proof.
  intros Hr Hv He Hp Hd Hdesc.
  pose proof (run_put_try_persist _ _ _ _ Hv He) as Htry.
  rewrite Hp in Htry.
  rewrite (run_put_try_ok _ _ _ _ _ Hr Htry).
  destruct (mute_put_persist bound.1 bound.2 stv) as (Ho & Her).
  rewrite Hp in Ho, Her. cbn in Ho, Her.
  destruct (quiet_put_validate json_dict (set_errors [] st))
    as (_ & _ & Hout).
  rewrite Hv in Hout. cbn in Hout.
  unfold put_respond, get_errors. rewrite run_bind, Her, He.
  rewrite (run_bind_ok _ _ _ _ _ (run_dict_getitem _ _ _ _ _ Hd Hdesc)).
  unfold send_json_response, modify. by rewrite Ho, Hout.
Qed.

(** *** When the persistence layer raises nothing that [put] catches *)













End Gift_put.

(** * The theorems at work on the sample instance *)

Import Sample.

Lemma sanitize_input_dict_frame_witness :
  ∃ st' d',
    BaseQuestionRESTHandler.sanitize_input_dict 1 (with_form mc_form)
      = (Ok tt, st')
    ∧ heap st' !! 1%positive = Some d'
    ∧ d' !! "description" = Some (VStr "Capital of France")
    ∧ d' !! "question" = mc_form !! "question".
Proof.
  destruct (sanitize_input_dict_frame 1 mc_form "  Capital of France "
              (with_form mc_form))
    as (st' & d' & Hrun & Hd' & Hdesc & Hframe & _);
    [reflexivity|reflexivity|].
  exists st', d'. repeat split; [exact Hrun|exact Hd'|exact Hdesc|].
  apply Hframe. discriminate.
Defined.


Lemma transform_for_editor_hook_copy_witness :
  ∃ p_dict st' p,
    McQuestionRESTHandler.transform_for_editor_hook 1 (with_form mc_form)
      = (Ok p_dict, st')
    ∧ p_dict ≠ 1%positive
    ∧ heap st' !! p_dict = Some p
    ∧ p !! "multiple_selections" = Some (VStr "false")
    ∧ heap st' !! 1%positive = Some mc_form.
Proof.
  destruct (transform_for_editor_hook_copy 1 mc_form (with_form mc_form))
    as (p_dict & st' & p & Hrun & _ & Hne & Hp & Hsel & _ & Hq & _);
    [reflexivity|].
  exists p_dict, st', p. repeat split; [exact Hrun|exact Hne|exact Hp|exact Hsel|exact Hq].
Defined.

Lemma wf_mc_form :
  McForm.wf_question mc_form
    "Which city is the capital of France?" "  Capital of France "
    [choice "Paris" "1"; choice "  " "high"].
Proof.
  repeat split; try reflexivity.
  repeat constructor; eexists _, _, _; repeat split; reflexivity.
Defined.

Lemma mc_validate15_coerces_scores_witness :
  ∃ st' d' choices',
    McQuestionRESTHandler._validate15 1 VNone (with_form mc_form)
      = (Ok tt, st')
    ∧ heap st' !! 1%positive = Some d'
    ∧ d' !! "choices" = Some (VList choices')
    ∧ choices' !! 0%nat =
        Some (VDict (<["score" := VFloat float_one]> (choice_dict "Paris" "1")))
    ∧ choices' !! 1%nat = Some (choice "  " "high")
    ∧ "Choice 2 must have a numeric score." ∈ errors st'.
Proof.
  destruct (mc_validate15_coerces_scores 1 mc_form _ _ _ VNone
              (with_form mc_form) eq_refl wf_mc_form (or_introl eq_refl))
    as (st' & d' & choices' & new & Hrun & Hd' & Hch & _ & Herr & Hscores).
  exists st', d', choices'.
  pose proof (Hscores 0%nat _ "1" eq_refl eq_refl) as [H0 _].
  pose proof (Hscores 1%nat _ "high" eq_refl eq_refl) as [H1 Hin].
  repeat split; [exact Hrun|exact Hd'|exact Hch|exact H0|exact H1|].
  rewrite Herr. exact Hin.
Defined.

Lemma mc_validate15_errors_witness :
  ∃ st',
    McQuestionRESTHandler._validate15 1 VNone (with_form mc_form)
      = (Ok tt, st')
    ∧ "Choice 2 has no response text." ∈ errors st'
    ∧ "The question must have a non-empty body." ∉ errors st'.
Proof.
  destruct (mc_validate15_errors 1 mc_form _ _ _ VNone
              (with_form mc_form) eq_refl wf_mc_form (or_introl eq_refl))
    as (st' & new & Hrun & Herr & Hbody & _ & _ & Htext & _).
  exists st'. rewrite Herr.
  repeat split; [exact Hrun| |].
  - apply (Htext 1%nat). eexists _, "  ".
    repeat split; reflexivity.
  - intros Hin. apply Hbody in Hin. discriminate Hin.
Defined.

Lemma wf_sa_form :
  SaForm.wf_question sa_form
    "Name the capital of France." "Capital, short" "3" "wide"
    [grader "case_insensitive" "paris" "1"].
Proof.
  repeat split; try reflexivity.
  repeat constructor. eexists _, _, _, _.
  repeat split; try reflexivity. apply elem_of_cons. by left.
Defined.

Lemma sa_validate15_dimensions_witness :
  ∃ st' d',
    SaQuestionRESTHandler._validate15 1 VNone (with_form sa_form)
      = (Ok tt, st')
    ∧ heap st' !! 1%positive = Some d'
    ∧ d' !! "rows" = Some (VInt 3)
    ∧ d' !! "columns" = Some (VStr "wide")
    ∧ "Columns must be a whole number" ∈ errors st'
    ∧ ("Rows must be a whole number" ∉ errors st')
    ∧ ("Rows must be a positive whole number" ∉ errors st').
Proof.
  destruct (sa_validate15_dimensions 1 sa_form _ _ _ _ _ VNone
              (with_form sa_form) eq_refl wf_sa_form (or_introl eq_refl))
    as (st' & d' & new & Hrun & Hd' & Herr & Hrows & Hcols).
  exists st', d'. rewrite Herr.
  destruct Hrows as (Hr & Hwhole & Hpos). destruct Hcols as (Hc & Hin & _).
  repeat split; [exact Hrun|exact Hd'|exact Hr|exact Hc|exact Hin|exact Hwhole|].
  intros Hp. apply Hpos in Hp. vm_compute in Hp. exact (Hp eq_refl).
Defined.

Lemma validate_question_descriptions_ignores_batch_witness :
  GiftQuestionRESTHandler.validate_question_descriptions [1; 2]%positive
    imported = (Ok tt, imported)
  ∧ (imported.(heap) !! 1%positive ≫= (.!! "description"))
    = (imported.(heap) !! 2%positive ≫= (.!! "description")).
Proof.
  split; [|reflexivity].
  apply validate_question_descriptions_ignores_batch.
  intros q Hq. exists (question_of_line "Capital of France?"), "Capital of France?".
  repeat split.
  - apply elem_of_cons in Hq as [->|Hq]; [reflexivity|].
    apply list_elem_of_singleton in Hq as ->. reflexivity.
  - intros e He.
    apply elem_of_cons in He as [->|He]; [discriminate|].
    apply list_elem_of_singleton in He as ->. discriminate.
Defined.

Lemma convert_to_dtos_types_witness :
  ∃ st' d1,
    GiftQuestionRESTHandler.convert_to_dtos [1; 2]%positive imported
      = (Ok [DTO None 1; DTO None 2], st')
    ∧ heap st' !! 1%positive = Some d1
    ∧ d1 !! "version" = Some (VStr "1.5")
    ∧ d1 !! "type" = Some (VInt 1).
Proof.
  destruct (convert_to_dtos_types [1; 2]%positive imported)
    as (st' & Hrun & Hdicts & _).
  { repeat constructor; [|by intros ?%elem_of_nil].
    intros Hin. apply list_elem_of_singleton in Hin. discriminate Hin. }
  { intros q Hq. apply elem_of_cons in Hq as [->|Hq]; [by eexists|].
    apply list_elem_of_singleton in Hq as ->. by eexists. }
  destruct (Hdicts 1%positive _ ltac:(apply elem_of_cons; by left) eq_refl)
    as (d1 & Hd1 & Hver & Hty & _ & _).
  exists st', d1. repeat split; [exact Hrun|exact Hd1|exact Hver|exact Hty].
Defined.



(** A batch with the same description twice passes validation, and both
    questions are handed to the persistence layer. *)
Example put_duplicate_batch_run :
  let r := GiftQuestionRESTHandler.put (import_request "Geography" twice)
             empty_state in
  r.1 = Ok tt
  ∧ out r.2 = [JsonResponse 200 "Saved: Geography."]
  ∧ (λ e, (ent_id e, ent_description e)) <$> ds_questions (db r.2)
      = [(1%Z, "Capital of France?"); (2%Z, "Capital of France?")]
  ∧ length (calls r.2) = 2%nat.
Proof. vm_compute. repeat split. Qed.

(** Two distinct questions are saved, grouped, and the 200 is sent. *)
Example put_distinct_batch_run :
  let r := GiftQuestionRESTHandler.put
             (import_request "Geography"
                ("Capital of France?" +:+ String "010"%char "Capital of Peru?"))
             empty_state in
  r.1 = Ok tt
  ∧ out r.2 = [JsonResponse 200 "Saved: Geography."]
  ∧ (λ e, (ent_id e, ent_description e)) <$> ds_questions (db r.2)
      = [(1%Z, "Capital of France?"); (2%Z, "Capital of Peru?")]
  ∧ (λ e, ent_dict e !! "items") <$> ds_groups (db r.2)
      = [Some (VList [GiftQuestionRESTHandler.group_item 1;
                      GiftQuestionRESTHandler.group_item 2])].
Proof. vm_compute. repeat split. Qed.

(** ** Runs *)

Example strip_run :
  strip (String "009"%char "  Capital of France " +:+ String "010"%char "")
    = "Capital of France"
  ∧ strip "   " = ""
  ∧ strip (String "160"%char (String "028"%char "")) = ""
  ∧ strip (String "031"%char ("abc" +:+ String "028"%char "")) = "abc".
Proof. repeat split; reflexivity. Qed.

Example mc_validate15_run :
  let r := McQuestionRESTHandler._validate15 1 VNone (with_form mc_form) in
  r.1 = Ok tt
  ∧ errors r.2 =
      ["Choice 2 has no response text.";
       "Choice 2 must have a numeric score."]
  ∧ (heap r.2 !! 1%positive ≫= (.!! "choices")) =
      Some (VList [VDict (<["score" := VFloat float_one]>
                            (choice_dict "Paris" "1"));
                   choice "  " "high"]).
Proof. vm_compute. repeat split. Qed.

Example sa_validate15_run :
  let r := SaQuestionRESTHandler._validate15 1 VNone (with_form sa_form) in
  r.1 = Ok tt
  ∧ errors r.2 = ["Columns must be a whole number"]
  ∧ (heap r.2 !! 1%positive ≫= (.!! "rows")) = Some (VInt 3)
  ∧ (heap r.2 !! 1%positive ≫= (.!! "columns")) = Some (VStr "wide").
Proof. vm_compute. repeat split. Qed.

(** A question being edited does not collide with itself, and does with
    another one. *)
Example collision_run :
  let run description key :=
    errors (BaseQuestionRESTHandler.validate_no_description_collision
              (VStr description) key (with_form mc_form)).2 in
  run "Primes" (VStr "7") = []
  ∧ run "Primes" (VStr "8") = [collision_message]
  ∧ run "Primes" VNone = [collision_message]
  ∧ run "Rivers" VNone = [].
Proof. vm_compute. repeat split. Qed.

(** A key that is no number makes the test raise. *)
Example collision_bad_key_run :
  (BaseQuestionRESTHandler.validate_no_description_collision
     (VStr "Primes") (VStr "seven") (with_form mc_form)).1
  = Raise (ValueError "invalid literal for long() with base 10: seven").
Proof. reflexivity. Qed.

(** The same dict twice: both DTOs end up short-answer whatever the parsed
    type was, since the second pass reads the type the first one wrote. *)
Example convert_aliased_run :
  let multi := <["type" := VStr "multi_choice"]> (question_of_line "Q") in
  let r := GiftQuestionRESTHandler.convert_to_dtos [1; 1]%positive
             (with_form multi) in
  r.1 = Ok [DTO None 1; DTO None 1]
  ∧ (heap r.2 !! 1%positive ≫= (.!! "type")) = Some (VInt 1).
Proof. vm_compute. repeat split. Qed.

Example convert_run :
  let multi := <["type" := VStr "multi_choice"]> (question_of_line "Q") in
  let r := GiftQuestionRESTHandler.convert_to_dtos [1]%positive
             (with_form multi) in
  r.1 = Ok [DTO None 1]
  ∧ (heap r.2 !! 1%positive ≫= (.!! "type")) = Some (VInt 0)
  ∧ (heap r.2 !! 1%positive ≫= (.!! "version")) = Some (VStr "1.5").
Proof. vm_compute. repeat split. Qed.

(** * Further properties *)

(** ** [sanitize_input_dict] *)

Section Sanitize_more.
Context `{Builtins}.
Import BaseQuestionRESTHandler BaseForm McQuestionRESTHandler McForm.

(** X1: on a dict without ['description'], [sanitize_input_dict] raises
    [KeyError]; on one whose ['description'] is not a string it raises
    [AttributeError]; either way the state is left as it was. *)
Theorem sanitize_input_dict_raises (json_dict : loc) (d : pydict)
    (st : state) :
  heap st !! json_dict = Some d →
  (d !! "description" = None →
   sanitize_input_dict json_dict st = (Raise KeyError, st))
  ∧ (∀ v, d !! "description" = Some v → (∀ s, v ≠ VStr s) →
     sanitize_input_dict json_dict st = (Raise AttributeError, st)).
Proof.
  intros Hl. split.
  - intros Hnone. unfold sanitize_input_dict, dict_getitem.
    rewrite run_bind, run_bind, (run_deref _ _ _ Hl).
    unfold lift, subscript. by rewrite Hnone.
  - intros v Hv Hns. by apply (sanitize_input_dict_not_string _ d v).
Qed.


Lemma choices_errors_shape (m : string) (cs : list value) :
  ∀ k, m ∈ choices_errors k cs →
       ∃ i, m = no_text_message i ∨ m = no_score_message i.
Proof.
  induction cs as [|c cs IH]; intros k Hin; cbn [choices_errors] in Hin.
  - by apply elem_of_nil in Hin.
  - apply elem_of_app in Hin as [Hin|Hin]; [|by apply (IH (S k))].
    destruct c; cbn [choice_errors] in Hin; try by apply elem_of_nil in Hin.
    apply elem_of_app in Hin as [Hin|Hin].
    + destruct (d !! "text") as [[]|]; try by apply elem_of_nil in Hin.
      destruct (String.eqb _ _); [|by apply elem_of_nil in Hin].
      apply list_elem_of_singleton in Hin. exists k. by left.
    + destruct (d !! "score") as [[]|]; try by apply elem_of_nil in Hin.
      destruct (float_of_string _); [by apply elem_of_nil in Hin|].
      apply list_elem_of_singleton in Hin. exists k. by right.
Qed.

Lemma elem_of_mc_errors_description (st : state)
    (question description : string) (key : value) (choices : list value) :
  "The description must be non-empty."
    ∈ validate15_errors st question description key choices
  ↔ description = "".
Proof.
  unfold validate15_errors. rewrite !elem_of_app. split.
  - intros [Hin|[Hin|[Hin|[Hin|Hin]]]].
    + destruct (String.eqb _ _); [|by apply elem_of_nil in Hin].
      by apply list_elem_of_singleton in Hin.
    + destruct (String.eqb_spec description ""); [done|].
      by apply elem_of_nil in Hin.
    + destruct (collidesb _ _ _); [|by apply elem_of_nil in Hin].
      by apply list_elem_of_singleton in Hin.
    + destruct choices; [|by apply elem_of_nil in Hin].
      by apply list_elem_of_singleton in Hin.
    + by apply choices_errors_shape in Hin as [i [Hin|Hin]].
  - intros ->. right. left. by apply list_elem_of_singleton.
Qed.

Lemma elem_of_mc_errors_collision (st : state)
    (question description : string) (key : value) (choices : list value) :
  collision_message ∈ validate15_errors st question description key choices
  ↔ collidesb (ds_questions (db st)) description key = true.
Proof.
  unfold validate15_errors. rewrite !elem_of_app. split.
  - intros [Hin|[Hin|[Hin|[Hin|Hin]]]].
    + destruct (String.eqb _ _); [|by apply elem_of_nil in Hin].
      by apply list_elem_of_singleton in Hin.
    + destruct (String.eqb _ _); [|by apply elem_of_nil in Hin].
      by apply list_elem_of_singleton in Hin.
    + by destruct (collidesb _ _ _); [|apply elem_of_nil in Hin].
    + destruct choices; [|by apply elem_of_nil in Hin].
      by apply list_elem_of_singleton in Hin.
    + by apply choices_errors_shape in Hin as [i [Hin|Hin]].
  - intros ->. do 2 right. left. by apply list_elem_of_singleton.
Qed.

(** X3: [sanitize_input_dict] followed by [_validate15] on a
    multiple-choice form of the declared shape: both tests on the
    description see the stripped one.  The empty-description error is
    reported exactly when the submitted description is empty after
    stripping (and so also when it is not empty as submitted), and the
    collision error exactly when the stripped description collides with a
    stored question. *)
Theorem sanitize_then_validate_description (question_dict : loc)
    (d : pydict) (question description : string) (choices : list value)
    (key : value) (st : state) :
  heap st !! question_dict = Some d →
  wf_question d question description choices →
  truthy key = false ∨ (∃ z, py_long key = Ok z) →
  ∃ st' new,
    (sanitize_input_dict question_dict
       ≫= λ _, _validate15 question_dict key) st = (Ok tt, st')
    ∧ errors st' = errors st ++ new
    ∧ ("The description must be non-empty." ∈ new
       ↔ strip description = "")
    ∧ (collision_message ∈ new
       ↔ collides (ds_questions (db st)) (strip description) key).
Proof.
  intros Hl (Hq & Hd & Hc & Hwf) Hkey.
  rewrite (run_bind_ok _ _ _ _ _ (run_sanitize_input_dict _ _ _ _ Hl Hd)).
  set (d1 := <["description" := VStr (strip description)]> d).
  assert (wf_question d1 question (strip description) choices) as Hwf1.
  { unfold d1. repeat split; [by rewrite lookup_insert_ne|
      apply lookup_insert_eq|by rewrite lookup_insert_ne|done]. }
  set (st1 := set_heap _ st).
  assert (heap st1 !! question_dict = Some d1) as Hl1
    by apply lookup_insert_eq.
  eexists _, _.
  split; [exact (run_mc_validate15 _ _ _ _ _ _ _ Hl1 Hwf1 Hkey)|].
  cbn [errors set_heap db st1]. split; [reflexivity|].
  rewrite elem_of_mc_errors_description, elem_of_mc_errors_collision.
  rewrite (collidesb_spec _ _ _ Hkey). done.
Qed.
End Sanitize_more.

(** ** What the validators leave alone, on every input *)

Lemma reporting_ret {A} (a : A) : reporting (mret a : M A).
Proof. by intros st. Qed.

Lemma reporting_lift {A} (r : result A) : reporting (lift r).
Proof. by intros st. Qed.

Lemma reporting_raise {A} (e : exn) : reporting (raise e : M A).
Proof. by intros st. Qed.

Lemma reporting_bind {A B} (c : M A) (f : A → M B) :
  reporting c → (∀ a, reporting (f a)) → reporting (c ≫= f).
Proof.
  intros Hc Hf st. rewrite run_bind. specialize (Hc st).
  destruct (c st) as [[a|e] st1]; cbn in *; [|done].
  destruct Hc as (Hh & He & Hd & Ho & Hcl).
  destruct (Hf a st1) as (-> & He' & -> & -> & ->).
  repeat split; try done. by etrans.
Qed.

Lemma reporting_deref (l : loc) : reporting (deref l).
Proof. intros st. unfold deref. by destruct (heap st !! l). Qed.

Lemma reporting_dict_getitem (l : loc) (k : string) :
  reporting (dict_getitem l k).
Proof.
  apply reporting_bind; [apply reporting_deref|]. intros d.
  apply reporting_lift.
Qed.

Lemma reporting_errors_append (msg : string) : reporting (errors_append msg).
Proof. intros st. cbn. repeat split. by apply prefix_app_r. Qed.

Lemma reporting_when (b : bool) (c : M unit) :
  reporting c → reporting (when b c).
Proof. destruct b; [done|]. intros _. apply reporting_ret. Qed.

Lemma reporting_try {A} (c : M A) (h : exn → option (M A)) :
  reporting c → (∀ e k, h e = Some k → reporting k) →
  reporting (try_except c h).
Proof.
  intros Hc Hh st. unfold try_except. specialize (Hc st).
  destruct (c st) as [[a|e] st1]; cbn in *; [done|].
  destruct (h e) as [k|] eqn:Hk; [|done].
  destruct Hc as (Hhp & He & Hd & Ho & Hcl).
  destruct (Hh e k Hk st1) as (-> & He' & -> & -> & ->).
  repeat split; try done. by etrans.
Qed.

Lemma reporting_foreach {A} (l : list A) (body : A → M unit) :
  (∀ x, reporting (body x)) → reporting (foreach l body).
Proof.
  intros Hb. induction l as [|x l IH]; [apply reporting_ret|].
  cbn [foreach]. apply reporting_bind; [apply Hb|]. by intros _.
Qed.

Lemma reporting_item_getitem (l : loc) (field : string) (i : nat)
    (k : string) :
  reporting (item_getitem l field i k).
Proof.
  apply reporting_bind; [apply reporting_dict_getitem|]. intros items.
  apply reporting_bind; [apply reporting_lift|]. intros item.
  apply reporting_lift.
Qed.

Lemma reporting_on_ValueError (k : M unit) (e : exn) (k' : M unit) :
  reporting k → on_ValueError k e = Some k' → reporting k'.
Proof. intros Hk. destruct e; try done. by intros [= <-]. Qed.

Section Reporting_validators.
Context `{Builtins}.
Import BaseQuestionRESTHandler GiftQuestionRESTHandler.

Lemma reporting_validate_no_description_collision (description key : value) :
  reporting (validate_no_description_collision description key).
Proof.
  apply reporting_bind; [by intros st|]. intros qs.
  apply reporting_bind; [apply reporting_lift|]. intros ds.
  apply reporting_bind; [apply reporting_lift|]. intros found.
  apply reporting_when, reporting_errors_append.
Qed.

(** X4: on every input, also when they raise,
    [validate_question_descriptions] and [validate_group_description]
    change no object, write nothing to the datastore and send no response;
    the errors list they leave extends the one they found. *)
Theorem gift_validators_only_report (questions : list loc)
    (group_description : value) (st : state) :
  let after_q := (validate_question_descriptions questions st).2 in
  let after_g := (validate_group_description group_description st).2 in
  (heap after_q = heap st ∧ errors st `prefix_of` errors after_q
   ∧ db after_q = db st ∧ out after_q = out st ∧ calls after_q = calls st)
  ∧ (heap after_g = heap st ∧ errors st `prefix_of` errors after_g
     ∧ db after_g = db st ∧ out after_g = out st
     ∧ calls after_g = calls st).
Proof.
  split.
  - apply (reporting_bind _ _); [by intros st'|]. intros qs.
    apply reporting_foreach. intros q.
    apply reporting_bind; [apply reporting_dict_getitem|]. intros d.
    apply reporting_when, reporting_errors_append.
  - apply (reporting_bind _ _); [by intros st'|]. intros grs.
    apply reporting_when, reporting_errors_append.
Qed.
End Reporting_validators.

Lemma tame_of_reporting {A} (l : loc) (c : M A) :
  reporting c → tame l [] c.
Proof.
  intros Hc st d Hd. destruct (Hc st) as (Hh & He & Hdb & Ho & Hcl).
  exists d. rewrite Hh. repeat split; done.
Qed.

Lemma tame_weaken {A} (l : loc) (ks ks' : list string) (c : M A) :
  ks ⊆ ks' → tame l ks c → tame l ks' c.
Proof.
  intros Hsub Hc st d Hd.
  destruct (Hc st d Hd) as (d' & Hd' & Hk & Hrest). exists d'.
  split; [done|]. split; [|done]. intros k Hnot. apply Hk.
  intros Hin. by apply Hnot, Hsub.
Qed.

Lemma tame_bind {A B} (l : loc) (ks : list string) (c : M A)
    (f : A → M B) :
  tame l ks c → (∀ a, tame l ks (f a)) → tame l ks (c ≫= f).
Proof.
  intros Hc Hf st d Hd. rewrite run_bind.
  destruct (Hc st d Hd) as (d1 & Hd1 & Hk1 & Hl1 & He1 & Hdb1 & Ho1 & Hc1).
  destruct (c st) as [[a|e] st1]; cbn in *.
  - destruct (Hf a st1 d1 Hd1)
      as (d2 & Hd2 & Hk2 & Hl2 & He2 & -> & -> & ->).
    exists d2. split; [done|].
    split; [intros k Hk; by rewrite Hk2, Hk1|].
    split; [intros l' Hl'; by rewrite Hl2, Hl1|].
    split; [by etrans|done].
  - exists d1. done.
Qed.

Lemma tame_try {A} (l : loc) (ks : list string) (c : M A)
    (h : exn → option (M A)) :
  tame l ks c → (∀ e k, h e = Some k → tame l ks k) →
  tame l ks (try_except c h).
Proof.
  intros Hc Hh st d Hd. unfold try_except.
  destruct (Hc st d Hd) as (d1 & Hd1 & Hk1 & Hl1 & He1 & Hdb1 & Ho1 & Hc1).
  destruct (c st) as [[a|e] st1]; cbn in *; [by exists d1|].
  destruct (h e) as [k|] eqn:Hk; [|by exists d1].
  destruct (Hh e k Hk st1 d1 Hd1)
    as (d2 & Hd2 & Hk2 & Hl2 & He2 & -> & -> & ->).
  exists d2. split; [done|].
  split; [intros k' Hk'; by rewrite Hk2, Hk1|].
  split; [intros l' Hl'; by rewrite Hl2, Hl1|].
  split; [by etrans|done].
Qed.

Lemma tame_foreach {A} (l : loc) (ks : list string) (xs : list A)
    (body : A → M unit) :
  (∀ x, tame l ks (body x)) → tame l ks (foreach xs body).
Proof.
  intros Hb. induction xs as [|x xs IH].
  - apply (tame_weaken l []); [by intros ? ?%elem_of_nil|].
    apply tame_of_reporting, reporting_ret.
  - cbn [foreach]. apply tame_bind; [apply Hb|]. by intros _.
Qed.

Lemma tame_dict_setitem (l : loc) (k : string) (v : value) :
  tame l [k] (dict_setitem l k v).
Proof.
  intros st d Hd. rewrite (run_dict_setitem _ _ _ _ _ Hd). cbn.
  exists (<[k := v]> d). split; [apply lookup_insert_eq|].
  split.
  { intros k' Hk'. rewrite lookup_insert_ne; [done|].
    intros ->. apply Hk', list_elem_of_singleton. done. }
  split; [intros l' Hl'; by rewrite lookup_insert_ne|done].
Qed.

Lemma tame_item_setitem (l : loc) (field : string) (i : nat) (k : string)
    (v : value) :
  tame l [field] (item_setitem l field i k v).
Proof.
  unfold item_setitem.
  apply tame_bind.
  { apply (tame_weaken l []); [by intros ? ?%elem_of_nil|].
    apply tame_of_reporting, reporting_dict_getitem. }
  intros items. apply tame_bind.
  { apply (tame_weaken l []); [by intros ? ?%elem_of_nil|].
    apply tame_of_reporting, reporting_lift. }
  intros item.
  destruct items, item;
    try (apply (tame_weaken l []); [by intros ? ?%elem_of_nil|];
         apply tame_of_reporting, reporting_raise).
  apply tame_dict_setitem.
Qed.

Lemma tame_reporting {A} (l : loc) (ks : list string) (c : M A) :
  reporting c → tame l ks c.
Proof.
  intros Hc. apply (tame_weaken l []); [by intros ? ?%elem_of_nil|].
  by apply tame_of_reporting.
Qed.

Section Tame_validators.
Context `{Builtins}.
Import BaseQuestionRESTHandler McQuestionRESTHandler.

Lemma tame_validate_choice (question_dict : loc) (index : nat) :
  tame question_dict ["choices"] (validate_choice question_dict index).
Proof.
  unfold validate_choice.
  apply tame_bind; [apply tame_reporting, reporting_item_getitem|].
  intros text.
  apply tame_bind; [apply tame_reporting, reporting_lift|]. intros stripped.
  apply tame_bind.
  { apply tame_reporting, reporting_when, reporting_errors_append. }
  intros _. apply tame_try.
  - apply tame_bind; [apply tame_reporting, reporting_item_getitem|].
    intros score.
    apply tame_bind; [apply tame_reporting, reporting_lift|]. intros f.
    apply tame_item_setitem.
  - intros e k Hk. apply tame_reporting.
    apply (reporting_on_ValueError _ _ _ (reporting_errors_append _) Hk).
Qed.

Lemma tame_mc_validate15 (question_dict : loc) (key : value) :
  tame question_dict ["choices"] (_validate15 question_dict key).
Proof.
  unfold _validate15.
  apply tame_bind; [apply tame_reporting, reporting_dict_getitem|].
  intros question.
  apply tame_bind; [apply tame_reporting, reporting_lift|]. intros body.
  apply tame_bind.
  { apply tame_reporting, reporting_when, reporting_errors_append. }
  intros _.
  apply tame_bind; [apply tame_reporting, reporting_dict_getitem|].
  intros description.
  apply tame_bind.
  { apply tame_reporting, reporting_when, reporting_errors_append. }
  intros _.
  apply tame_bind; [apply tame_reporting, reporting_dict_getitem|].
  intros description'.
  apply tame_bind.
  { apply tame_reporting, reporting_validate_no_description_collision. }
  intros _.
  apply tame_bind; [apply tame_reporting, reporting_dict_getitem|].
  intros choices.
  apply tame_bind.
  { apply tame_reporting, reporting_when, reporting_errors_append. }
  intros _.
  apply tame_bind; [apply tame_reporting, reporting_dict_getitem|].
  intros choices'.
  apply tame_bind; [apply tame_reporting, reporting_lift|]. intros n.
  apply tame_foreach. intros index. apply tame_validate_choice.
Qed.

(** X5: on every input, also when it raises, the multiple-choice
    [_validate15] assigns no key of the question dict other than
    ['choices'], changes no other object, writes nothing to the datastore
    and sends no response; the errors list it leaves extends the one it
    found. *)
Theorem mc_validate15_confined (question_dict : loc) (key : value)
    (d : pydict) (st : state) :
  heap st !! question_dict = Some d →
  let st' := (_validate15 question_dict key st).2 in
  ∃ d', heap st' !! question_dict = Some d'
    ∧ (∀ k, k ≠ "choices" → d' !! k = d !! k)
    ∧ (∀ l, l ≠ question_dict → heap st' !! l = heap st !! l)
    ∧ errors st `prefix_of` errors st'
    ∧ db st' = db st ∧ out st' = out st ∧ calls st' = calls st.
Proof.
  intros Hd.
  destruct (tame_mc_validate15 question_dict key st d Hd)
    as (d' & Hd' & Hk & Hrest).
  exists d'. split; [done|]. split; [|done].
  intros k Hne. apply Hk. by intros ->%list_elem_of_singleton.
Qed.
End Tame_validators.

Section Tame_sa.
Context `{Builtins}.
Import BaseQuestionRESTHandler SaQuestionRESTHandler.

Lemma tame_coerce_dimension (question_dict : loc) (field label : string) :
  tame question_dict [field] (coerce_dimension question_dict field label).
Proof.
  unfold coerce_dimension. apply tame_try.
  - apply tame_bind; [apply tame_reporting, reporting_dict_getitem|].
    intros raw.
    apply tame_bind; [apply tame_reporting, reporting_lift|]. intros n.
    apply tame_bind; [apply tame_dict_setitem|]. intros _.
    apply tame_reporting, reporting_when, reporting_errors_append.
  - intros e k Hk. apply tame_reporting.
    apply (reporting_on_ValueError _ _ _ (reporting_errors_append _) Hk).
Qed.

Lemma reporting_validate_grader (question_dict : loc) (index : nat) :
  reporting (validate_grader question_dict index).
Proof.
  unfold validate_grader.
  apply reporting_bind; [apply reporting_item_getitem|]. intros matcher.
  apply reporting_bind.
  { destruct (in_list _ _); [apply reporting_ret|apply reporting_raise]. }
  intros _.
  apply reporting_bind; [apply reporting_item_getitem|]. intros response.
  apply reporting_bind; [apply reporting_lift|]. intros stripped.
  apply reporting_bind; [apply reporting_when, reporting_errors_append|].
  intros _. apply reporting_try.
  - apply reporting_bind; [apply reporting_item_getitem|]. intros score.
    apply reporting_bind; [apply reporting_lift|]. intros _.
    apply reporting_ret.
  - intros e k Hk.
    apply (reporting_on_ValueError _ _ _ (reporting_errors_append _) Hk).
Qed.

Lemma tame_sa_validate15 (question_dict : loc) (key : value) :
  tame question_dict ["rows"; "columns"] (_validate15 question_dict key).
Proof.
  unfold _validate15.
  apply tame_bind; [apply tame_reporting, reporting_dict_getitem|].
  intros question.
  apply tame_bind; [apply tame_reporting, reporting_lift|]. intros body.
  apply tame_bind.
  { apply tame_reporting, reporting_when, reporting_errors_append. }
  intros _.
  apply tame_bind; [apply tame_reporting, reporting_dict_getitem|].
  intros description.
  apply tame_bind.
  { apply tame_reporting, reporting_when, reporting_errors_append. }
  intros _.
  apply tame_bind; [apply tame_reporting, reporting_dict_getitem|].
  intros description'.
  apply tame_bind.
  { apply tame_reporting, reporting_validate_no_description_collision. }
  intros _.
  apply tame_bind.
  { apply (tame_weaken _ ["rows"]).
    { intros k ->%list_elem_of_singleton. apply elem_of_cons. by left. }
    apply tame_coerce_dimension. }
  intros _.
  apply tame_bind.
  { apply (tame_weaken _ ["columns"]).
    { intros k ->%list_elem_of_singleton. apply elem_of_cons. right.
      apply elem_of_cons. by left. }
    apply tame_coerce_dimension. }
  intros _.
  apply tame_bind; [apply tame_reporting, reporting_dict_getitem|].
  intros graders.
  apply tame_bind.
  { apply tame_reporting, reporting_when, reporting_errors_append. }
  intros _.
  apply tame_bind; [apply tame_reporting, reporting_dict_getitem|].
  intros graders'.
  apply tame_bind; [apply tame_reporting, reporting_lift|]. intros n.
  apply tame_reporting, reporting_foreach. intros index.
  apply reporting_validate_grader.
Qed.

(** X6: on every input, also when it raises, the short-answer
    [_validate15] assigns no key of the question dict other than ['rows']
    and ['columns'] (the graders and their scores stay as submitted),
    changes no other object, writes nothing to the datastore and sends no
    response; the errors list it leaves extends the one it found. *)
Theorem sa_validate15_confined (question_dict : loc) (key : value)
    (d : pydict) (st : state) :
  heap st !! question_dict = Some d →
  let st' := (_validate15 question_dict key st).2 in
  ∃ d', heap st' !! question_dict = Some d'
    ∧ (∀ k, k ≠ "rows" → k ≠ "columns" → d' !! k = d !! k)
    ∧ (∀ l, l ≠ question_dict → heap st' !! l = heap st !! l)
    ∧ errors st `prefix_of` errors st'
    ∧ db st' = db st ∧ out st' = out st ∧ calls st' = calls st.
Proof.
  intros Hd.
  destruct (tame_sa_validate15 question_dict key st d Hd)
    as (d' & Hd' & Hk & Hrest).
  exists d'. split; [done|]. split; [|done].
  intros k Hr Hc. apply Hk. intros [->|Hin]%elem_of_cons; [done|].
  by apply list_elem_of_singleton in Hin.
Qed.
End Tame_sa.

(** ** The graders of a short-answer form *)

Section Sa_graders.
Context `{Builtins}.
Import BaseQuestionRESTHandler BaseForm SaQuestionRESTHandler SaForm.

Lemma no_response_message_inj (i j : nat) :
  no_response_message i = no_response_message j → i = j.
Proof.
  unfold no_response_message. intros E. simplify_eq/=.
  apply numeral_split in E as [E _];
    [|apply str_of_nat_digits|apply str_of_nat_digits|done|done].
  apply (inj pretty) in E. lia.
Qed.

Lemma sa_no_score_message_inj (i j : nat) :
  no_score_message i = no_score_message j → i = j.
Proof.
  unfold no_score_message. intros E. simplify_eq/=.
  apply numeral_split in E as [E _];
    [|apply str_of_nat_digits|apply str_of_nat_digits|done|done].
  apply (inj pretty) in E. lia.
Qed.

Lemma no_response_ne_no_score (i j : nat) :
  no_response_message i ≠ no_score_message j.
Proof.
  unfold no_response_message, no_score_message. intros E. simplify_eq/=.
  apply numeral_split in E as [_ E];
    [|apply str_of_nat_digits|apply str_of_nat_digits|done|done].
  discriminate E.
Qed.

Lemma elem_of_graders_errors (m : string) (gs : list value) :
  ∀ k, m ∈ graders_errors k gs ↔
       ∃ i g, gs !! i = Some g ∧ m ∈ grader_errors (k + i) g.
Proof.
  induction gs as [|g gs IH]; intros k; cbn [graders_errors].
  - split; [by intros ?%elem_of_nil|]. by intros (i & g & ? & _).
  - rewrite elem_of_app, IH. split.
    + intros [Hm|(i & g' & Hi & Hm)].
      * exists 0, g. by rewrite Nat.add_0_r.
      * exists (S i), g'. split; [done|]. by rewrite Nat.add_succ_r.
    + intros ([|i] & g' & Hi & Hm).
      * left. cbn in Hi. injection Hi as <-. by rewrite Nat.add_0_r in Hm.
      * right. exists i, g'. split; [done|]. by rewrite Nat.add_succ_r in Hm.
Qed.

Lemma elem_of_sa_errors_answer (m : string) (st : state)
    (question description rows columns : string) (key : value)
    (graders : list value) :
  (∃ i, m = no_response_message i ∨ m = no_score_message i) →
  m ∈ validate15_errors st question description rows columns key graders ↔
  ∃ i g, graders !! i = Some g ∧ m ∈ grader_errors i g.
Proof.
  intros Hm. unfold validate15_errors.
  rewrite !elem_of_app, elem_of_graders_errors. cbn [Nat.add].
  assert (∀ (b : bool) (x : string),
            (∀ i, no_response_message i ≠ x) →
            (∀ i, no_score_message i ≠ x) →
            m ∉ (if b then [x] else [])) as Hconst.
  { intros b x Ht Hs Hin. destruct b; [|by apply elem_of_nil in Hin].
    apply list_elem_of_singleton in Hin as ->.
    destruct Hm as [i [E|E]]; [by apply (Ht i)|by apply (Hs i)]. }
  assert (∀ label raw, label = "Rows" ∨ label = "Columns" →
            m ∉ dimension_errors label raw) as Hdim.
  { intros label raw Hlabel Hin. unfold dimension_errors in Hin.
    destruct (int_of_string raw) as [n|].
    - destruct (n <=? 0)%Z; [|by apply elem_of_nil in Hin].
      apply list_elem_of_singleton in Hin as ->.
      by destruct Hlabel as [-> | ->], Hm as [i [E|E]].
    - apply list_elem_of_singleton in Hin as ->.
      by destruct Hlabel as [-> | ->], Hm as [i [E|E]]. }
  split; [|by auto 10].
  intros [Hin|[Hin|[Hin|[Hin|[Hin|[Hin|Hin]]]]]]; [exfalso..|done].
  - by apply Hconst in Hin.
  - by apply Hconst in Hin.
  - by apply Hconst in Hin.
  - apply Hdim in Hin; [done|by left].
  - apply Hdim in Hin; [done|by right].
  - destruct graders; [|by apply elem_of_nil in Hin].
    by apply (Hconst true) in Hin.
Qed.

(** X7: on a short-answer form of the declared shape, [_validate15]
    returns normally and leaves the graders as submitted (their scores are
    checked, not coerced).  Among the errors it appends, the
    at-least-one-answer error is present exactly when there is no grader,
    ['Answer N has no response text.'] with [N = i + 1] exactly when the
    response of grader [i] is empty after stripping, and ['Answer N must
    have a numeric score.'] exactly when [float] rejects its score. *)
Theorem sa_validate15_graders (question_dict : loc) (d : pydict)
    (question description rows columns : string) (graders : list value)
    (key : value) (st : state) :
  heap st !! question_dict = Some d →
  wf_question d question description rows columns graders →
  truthy key = false ∨ (∃ z, py_long key = Ok z) →
  ∃ st' d' new,
    _validate15 question_dict key st = (Ok tt, st')
    ∧ heap st' !! question_dict = Some d'
    ∧ d' !! "graders" = Some (VList graders)
    ∧ errors st' = errors st ++ new
    ∧ ("The question must have at least one answer." ∈ new
       ↔ graders = [])
    ∧ (∀ i, "Answer " +:+ str_of_nat (i + 1) +:+ " has no response text."
              ∈ new
            ↔ ∃ gd r, graders !! i = Some (VDict gd)
                      ∧ gd !! "response" = Some (VStr r) ∧ strip r = "")
    ∧ (∀ i, "Answer " +:+ str_of_nat (i + 1)
              +:+ " must have a numeric score." ∈ new
            ↔ ∃ gd s, graders !! i = Some (VDict gd)
                      ∧ gd !! "score" = Some (VStr s)
                      ∧ float_of_string s = None).
Proof.
  intros Hl Hwf Hkey.
  eexists _, _, _.
  split; [exact (run_sa_validate15 _ _ _ _ _ _ _ _ _ Hl Hwf Hkey)|].
  cbn [heap errors].
  destruct Hwf as (_ & _ & _ & _ & Hg & Hwf). rewrite Forall_lookup in Hwf.
  split; [apply lookup_insert_eq|].
  split.
  { unfold coerce_field.
    destruct (int_of_string columns), (int_of_string rows);
      rewrite ?lookup_insert_ne by done; exact Hg. }
  split; [reflexivity|].
  split; [|split].
  - unfold validate15_errors. rewrite !elem_of_app. split.
    + intros [Hin|[Hin|[Hin|[Hin|[Hin|[Hin|Hin]]]]]].
      * destruct (String.eqb _ _); [|by apply elem_of_nil in Hin].
        by apply list_elem_of_singleton in Hin.
      * destruct (String.eqb _ _); [|by apply elem_of_nil in Hin].
        by apply list_elem_of_singleton in Hin.
      * destruct (collidesb _ _ _); [|by apply elem_of_nil in Hin].
        by apply list_elem_of_singleton in Hin.
      * unfold dimension_errors in Hin.
        destruct (int_of_string rows) as [n|];
          [destruct (n <=? 0)%Z; [|by apply elem_of_nil in Hin]|];
          by apply list_elem_of_singleton in Hin.
      * unfold dimension_errors in Hin.
        destruct (int_of_string columns) as [n|];
          [destruct (n <=? 0)%Z; [|by apply elem_of_nil in Hin]|];
          by apply list_elem_of_singleton in Hin.
      * by destruct graders; [|apply elem_of_nil in Hin].
      * by apply graders_errors_shape in Hin as [i [Hin|Hin]].
    + intros ->. do 5 right. left. by apply list_elem_of_singleton.
  - intros i. fold (no_response_message i).
    rewrite elem_of_sa_errors_answer by (exists i; by left). split.
    + intros (j & g & Hj & Hin).
      destruct (Hwf _ _ Hj) as (gd & m & r & s & -> & _ & _ & Hr & Hs).
      cbn [grader_errors] in Hin. rewrite Hr, Hs in Hin.
      apply elem_of_app in Hin as [Hin|Hin].
      * destruct (String.eqb_spec (strip r) "");
          [|by apply elem_of_nil in Hin].
        apply list_elem_of_singleton, no_response_message_inj in Hin as ->.
        by exists gd, r.
      * destruct (float_of_string s); [by apply elem_of_nil in Hin|].
        apply list_elem_of_singleton in Hin.
        by apply no_response_ne_no_score in Hin.
    + intros (gd & r & Hi & Hr & Hblank). exists i, (VDict gd).
      split; [done|]. cbn [grader_errors]. rewrite Hr, Hblank.
      apply elem_of_app. left. by apply list_elem_of_singleton.
  - intros i. fold (no_score_message i).
    rewrite elem_of_sa_errors_answer by (exists i; by right). split.
    + intros (j & g & Hj & Hin).
      destruct (Hwf _ _ Hj) as (gd & m & r & s & -> & _ & _ & Hr & Hs).
      cbn [grader_errors] in Hin. rewrite Hr, Hs in Hin.
      apply elem_of_app in Hin as [Hin|Hin].
      * destruct (String.eqb _ _); [|by apply elem_of_nil in Hin].
        apply list_elem_of_singleton in Hin. symmetry in Hin.
        by apply no_response_ne_no_score in Hin.
      * destruct (float_of_string s) eqn:Hf;
          [by apply elem_of_nil in Hin|].
        apply list_elem_of_singleton, sa_no_score_message_inj in Hin as ->.
        by exists gd, s.
    + intros (gd & s & Hi & Hs & Hnone). exists i, (VDict gd).
      split; [done|]. cbn [grader_errors]. rewrite Hs, Hnone.
      apply elem_of_app. right. by apply list_elem_of_singleton.
Qed.
End Sa_graders.

(** ** Exceptions that escape the validators *)

Section Sa_escapes.
Context `{Builtins}.
Import BaseQuestionRESTHandler BaseForm SaQuestionRESTHandler SaForm.

(** The short-answer [_validate15] up to its loop. *)
Lemma run_sa_validate15_to_loop (question_dict : loc) (d : pydict)
    (question description rows columns : string) (graders : list value)
    (key : value) (st : state) :
  heap st !! question_dict = Some d →
  d !! "question" = Some (VStr question) →
  d !! "description" = Some (VStr description) →
  d !! "rows" = Some (VStr rows) →
  d !! "columns" = Some (VStr columns) →
  d !! "graders" = Some (VList graders) →
  truthy key = false ∨ (∃ z, py_long key = Ok z) →
  ∃ before,
    _validate15 question_dict key st =
      foreach (seq 0 (length graders)) (validate_grader question_dict)
        (State
           (<[question_dict :=
                coerce_field "columns" columns (coerce_field "rows" rows d)]>
              (heap st))
           (errors st ++ before) (db st) (out st) (calls st)).
Proof.
  intros Hl Hq Hd Hr Hc Hg Hkey. eexists. unfold _validate15.
  rewrite (run_bind_ok _ _ _ _ _ (run_dict_getitem _ _ _ _ _ Hl Hq)).
  cbn [str_strip]. rewrite run_lift_bind.
  rewrite (run_bind_ok _ _ _ _ _ (run_when_append _ _ _)).
  set (st1 := set_errors _ st).
  assert (heap st1 !! question_dict = Some d) as Hl1 by exact Hl.
  rewrite (run_bind_ok _ _ _ _ _ (run_dict_getitem _ _ _ _ _ Hl1 Hd)).
  rewrite (run_bind_ok _ _ _ _ _ (run_when_append _ _ _)).
  set (st2 := set_errors _ st1).
  assert (heap st2 !! question_dict = Some d) as Hl2 by exact Hl.
  rewrite (run_bind_ok _ _ _ _ _ (run_dict_getitem _ _ _ _ _ Hl2 Hd)).
  rewrite (run_bind_ok _ _ _ _ _
             (run_validate_no_description_collision _ _ _ Hkey)).
  set (st3 := set_errors _ st2).
  assert (heap st3 !! question_dict = Some d) as Hl3 by exact Hl.
  rewrite (run_bind_ok _ _ _ _ _
             (run_coerce_dimension _ _ _ _ _ _ Hl3 Hr)).
  set (d1 := coerce_field "rows" rows d).
  set (st4 := State _ _ _ _ _).
  assert (heap st4 !! question_dict = Some d1) as Hl4
    by apply lookup_insert_eq.
  assert (∀ k v, k ≠ "rows" → d !! k = Some v → d1 !! k = Some v) as Hd1.
  { intros k v Hk Hv. unfold d1, coerce_field.
    destruct (int_of_string rows); [by rewrite lookup_insert_ne|done]. }
  rewrite (run_bind_ok _ _ _ _ _
             (run_coerce_dimension _ _ _ _ _ _ Hl4
                (Hd1 "columns" _ ltac:(done) Hc))).
  set (d2 := coerce_field "columns" columns d1).
  set (st5 := State _ _ _ _ _).
  assert (heap st5 !! question_dict = Some d2) as Hl5
    by apply lookup_insert_eq.
  assert (d2 !! "graders" = Some (VList graders)) as Hg2.
  { unfold d2, coerce_field.
    destruct (int_of_string columns);
      [rewrite lookup_insert_ne by done|]; by apply Hd1. }
  rewrite (run_bind_ok _ _ _ _ _ (run_dict_getitem _ _ _ _ _ Hl5 Hg2)).
  rewrite (run_bind_ok _ _ _ _ _ (run_when_append _ _ _)).
  set (st6 := set_errors _ st5).
  assert (heap st6 !! question_dict = Some d2) as Hl6 by exact Hl5.
  rewrite (run_bind_ok _ _ _ _ _ (run_dict_getitem _ _ _ _ _ Hl6 Hg2)).
  cbn [py_len]. rewrite run_lift_bind.
  subst st6 st5 st4 st3 st2 st1. cbn.
  rewrite insert_insert_eq, <- !app_assoc. reflexivity.
Qed.

Lemma run_graders_loop_assert (question_dict : loc) (d : pydict)
    (gd : pydict) (matcher : value) (post : list value)
    (pre : list value) :
  gd !! "matcher" = Some matcher →
  in_list matcher (map fst GRADER_TYPES) = false →
  ∀ (done : list value) (st : state),
    heap st !! question_dict = Some d →
    d !! "graders" = Some (VList (done ++ pre ++ VDict gd :: post)) →
    Forall wf_grader pre →
    foreach (seq (length done) (length (pre ++ VDict gd :: post)))
      (validate_grader question_dict) st =
      (Raise AssertionError,
       set_errors (errors st ++ graders_errors (length done) pre) st).
Proof.
  intros Hm Hnot. induction pre as [|g pre IH]; intros done st Hl Hg Hwf.
  - cbn [app length seq foreach graders_errors] in *.
    assert ((done ++ VDict gd :: post) !! length done = Some (VDict gd))
      as Hi by (by rewrite list_lookup_middle).
    rewrite run_bind. unfold validate_grader.
    rewrite (run_bind_ok _ _ _ _ _
               (run_item_getitem _ _ _ _ _ _ _ _ _ Hl Hg Hi Hm)).
    rewrite Hnot. cbn. rewrite app_nil_r. unfold set_errors.
    by rewrite state_eta.
  - apply Forall_cons in Hwf as [Hwg Hwf].
    cbn [app length seq foreach graders_errors].
    rewrite (run_bind_ok _ _ _ _ _
               (run_validate_grader _ _ _ _ _ _ Hl Hg Hwg)).
    specialize (IH (done ++ [g])).
    rewrite length_app, Nat.add_1_r in IH.
    rewrite IH; [|exact Hl|by rewrite <- app_assoc|exact Hwf].
    cbn. by rewrite <- app_assoc.
Qed.

(** X8: a grader whose ['matcher'] is none of the grader types stops the
    short-answer [_validate15] with an [AssertionError], the graders before
    it being well formed.  By then ['rows'] and ['columns'] have been
    coerced in place, and the errors list extends the one found. *)
Theorem sa_validate15_unknown_matcher (question_dict : loc) (d : pydict)
    (question description rows columns : string)
    (pre post : list value) (gd : pydict) (matcher : value) (key : value)
    (st : state) :
  heap st !! question_dict = Some d →
  d !! "question" = Some (VStr question) →
  d !! "description" = Some (VStr description) →
  d !! "rows" = Some (VStr rows) →
  d !! "columns" = Some (VStr columns) →
  d !! "graders" = Some (VList (pre ++ VDict gd :: post)) →
  Forall wf_grader pre →
  gd !! "matcher" = Some matcher →
  (∀ m, m ∈ map fst GRADER_TYPES → matcher ≠ VStr m) →
  truthy key = false ∨ (∃ z, py_long key = Ok z) →
  ∃ st' d',
    _validate15 question_dict key st = (Raise AssertionError, st')
    ∧ heap st' !! question_dict = Some d'
    ∧ d' !! "rows" =
        Some (match int_of_string rows with
              | Some n => VInt n
              | None => VStr rows
              end)
    ∧ d' !! "columns" =
        Some (match int_of_string columns with
              | Some n => VInt n
              | None => VStr columns
              end)
    ∧ errors st `prefix_of` errors st'.
Proof.
  intros Hl Hq Hd Hr Hc Hg Hwf Hm Hnot Hkey.
  destruct (run_sa_validate15_to_loop _ _ _ _ _ _ _ _ _ Hl Hq Hd Hr Hc Hg
              Hkey) as [before ->].
  assert (in_list matcher (map fst GRADER_TYPES) = false) as Hnotb.
  { destruct (in_list _ _) eqn:Hin; [|done]. exfalso.
    destruct matcher; try (cbn in Hin; discriminate Hin).
    apply in_list_str in Hin. by apply (Hnot s). }
  set (d2 := coerce_field "columns" columns (coerce_field "rows" rows d)).
  assert (d2 !! "graders" = Some (VList ([] ++ pre ++ VDict gd :: post)))
    as Hg2.
  { unfold d2, coerce_field.
    destruct (int_of_string columns), (int_of_string rows);
      rewrite ?lookup_insert_ne by done; exact Hg. }
  set (st6 := State _ _ _ _ _).
  assert (heap st6 !! question_dict = Some d2) as Hl6
    by apply lookup_insert_eq.
  pose proof (run_graders_loop_assert question_dict d2 gd matcher post pre
                Hm Hnotb [] st6 Hl6 Hg2 Hwf) as Hloop.
  cbn [length app] in Hloop. rewrite Hloop.
  eexists _, d2. split; [reflexivity|]. cbn.
  split; [apply lookup_insert_eq|].
  split; [|split].
  - unfold d2, coerce_field.
    destruct (int_of_string columns), (int_of_string rows);
      rewrite ?lookup_insert_ne by done; rewrite ?lookup_insert_eq; done.
  - unfold d2, coerce_field.
    destruct (int_of_string columns), (int_of_string rows);
      rewrite ?lookup_insert_eq; rewrite ?lookup_insert_ne by done; done.
  - rewrite <- app_assoc. by apply prefix_app_r.
Qed.
End Sa_escapes.

Section Mc_escapes.
Context `{Builtins}.
Import BaseQuestionRESTHandler BaseForm McQuestionRESTHandler McForm.

(** The multiple-choice [_validate15] up to its loop. *)
Lemma run_mc_validate15_to_loop (question_dict : loc) (d : pydict)
    (question description : string) (choices : list value) (key : value)
    (st : state) :
  heap st !! question_dict = Some d →
  d !! "question" = Some (VStr question) →
  d !! "description" = Some (VStr description) →
  d !! "choices" = Some (VList choices) →
  truthy key = false ∨ (∃ z, py_long key = Ok z) →
  _validate15 question_dict key st =
    foreach (seq 0 (length choices)) (validate_choice question_dict)
      (set_errors
         (errors st
            ++ (if String.eqb (strip question) ""
                then ["The question must have a non-empty body."] else [])
            ++ (if String.eqb description ""
                then ["The description must be non-empty."] else [])
            ++ (if collidesb (ds_questions (db st)) description key
                then [collision_message] else [])
            ++ (match choices with
                | [] => ["The question must have at least one choice."]
                | _ => []
                end)) st).
Proof.
  intros Hl Hq Hd Hc Hkey. unfold _validate15.
  rewrite (run_bind_ok _ _ _ _ _ (run_dict_getitem _ _ _ _ _ Hl Hq)).
  cbn [str_strip]. rewrite run_lift_bind.
  rewrite (run_bind_ok _ _ _ _ _ (run_when_append _ _ _)).
  set (st1 := set_errors _ st).
  assert (heap st1 !! question_dict = Some d) as Hl1 by exact Hl.
  rewrite (run_bind_ok _ _ _ _ _ (run_dict_getitem _ _ _ _ _ Hl1 Hd)).
  rewrite (run_bind_ok _ _ _ _ _ (run_when_append _ _ _)).
  set (st2 := set_errors _ st1).
  assert (heap st2 !! question_dict = Some d) as Hl2 by exact Hl.
  rewrite (run_bind_ok _ _ _ _ _ (run_dict_getitem _ _ _ _ _ Hl2 Hd)).
  rewrite (run_bind_ok _ _ _ _ _
             (run_validate_no_description_collision _ _ _ Hkey)).
  set (st3 := set_errors _ st2).
  assert (heap st3 !! question_dict = Some d) as Hl3 by exact Hl.
  rewrite (run_bind_ok _ _ _ _ _ (run_dict_getitem _ _ _ _ _ Hl3 Hc)).
  rewrite (run_bind_ok _ _ _ _ _ (run_when_append _ _ _)).
  set (st4 := set_errors _ st3).
  assert (heap st4 !! question_dict = Some d) as Hl4 by exact Hl.
  rewrite (run_bind_ok _ _ _ _ _ (run_dict_getitem _ _ _ _ _ Hl4 Hc)).
  cbn [py_len]. rewrite run_lift_bind.
  subst st4 st3 st2 st1. cbn. rewrite <- !app_assoc.
  by destruct description, choices.
Qed.

Lemma run_validate_choice_escape (question_dict : loc) (d : pydict)
    (done rest : list value) (cd : pydict) (t : string) (e : exn)
    (st : state) :
  heap st !! question_dict = Some d →
  d !! "choices" = Some (VList (done ++ VDict cd :: rest)) →
  cd !! "text" = Some (VStr t) →
  (cd !! "score" = None ∧ e = KeyError)
  ∨ (∃ v, cd !! "score" = Some v ∧ py_float v = Raise e
          ∧ ∀ msg, e ≠ ValueError msg) →
  validate_choice question_dict (length done) st =
    (Raise e,
     set_errors
       (errors st ++
          if String.eqb (strip t) "" then [no_text_message (length done)]
          else []) st).
Proof.
  intros Hl Hc Ht Hscore.
  assert ((done ++ VDict cd :: rest) !! length done = Some (VDict cd))
    as Hi by (by rewrite list_lookup_middle).
  unfold validate_choice.
  rewrite (run_bind_ok _ _ _ _ _
             (run_item_getitem _ _ _ _ _ _ _ _ _ Hl Hc Hi Ht)).
  cbn [str_strip]. rewrite run_lift_bind.
  rewrite (run_bind_ok _ _ _ _ _ (run_when_append _ _ _)).
  set (st1 := set_errors _ st).
  assert (heap st1 !! question_dict = Some d) as Hl1 by exact Hl.
  unfold try_except.
  destruct Hscore as [[Hnone ->]|(v & Hv & Hf & Hne)].
  - unfold item_getitem at 1.
    rewrite run_bind.
    rewrite (run_bind_ok _ _ _ _ _ (run_dict_getitem _ _ _ _ _ Hl1 Hc)).
    unfold lift at 1 2, index, subscript. rewrite run_bind, Hi, Hnone.
    reflexivity.
  - rewrite (run_bind_ok _ _ _ _ _
               (run_item_getitem _ _ _ _ _ _ _ _ _ Hl1 Hc Hi Hv)).
    rewrite Hf, run_lift_raise.
    destruct e; try reflexivity. by destruct (Hne msg).
Qed.

Lemma run_choices_loop_escape (question_dict : loc) (cd : pydict)
    (t : string) (e : exn) (post : list value) (pre : list value) :
  cd !! "text" = Some (VStr t) →
  (cd !! "score" = None ∧ e = KeyError)
  ∨ (∃ v, cd !! "score" = Some v ∧ py_float v = Raise e
          ∧ ∀ msg, e ≠ ValueError msg) →
  ∀ (done : list value) (d : pydict) (st : state),
    heap st !! question_dict = Some d →
    d !! "choices" = Some (VList (done ++ pre ++ VDict cd :: post)) →
    Forall wf_choice pre →
    foreach (seq (length done) (length (pre ++ VDict cd :: post)))
      (validate_choice question_dict) st =
      (Raise e,
       State
         (<[question_dict :=
              <["choices" :=
                  VList (done ++ map coerce_choice pre ++ VDict cd :: post)]>
                d]> (heap st))
         (errors st ++ choices_errors (length done) pre
            ++ if String.eqb (strip t) ""
               then [no_text_message (length done + length pre)] else [])
         (db st) (out st) (calls st)).
Proof.
  intros Ht Hscore. induction pre as [|c pre IH]; intros done d st Hl Hc Hwf.
  - cbn [app length seq foreach choices_errors map] in *.
    rewrite run_bind.
    rewrite (run_validate_choice_escape _ _ _ _ _ _ _ _ Hl Hc Ht Hscore).
    cbn. rewrite Nat.add_0_r.
    by rewrite (insert_id d _ _ Hc), (insert_id (heap st) _ _ Hl).
  - apply Forall_cons in Hwf as [Hwc Hwf].
    cbn [app length seq foreach choices_errors map].
    rewrite (run_bind_ok _ _ _ _ _
               (run_validate_choice _ _ _ _ _ _ Hl Hc Hwc)).
    specialize (IH (done ++ [coerce_choice c])).
    rewrite length_app, Nat.add_1_r in IH.
    erewrite IH; [| apply lookup_insert_eq | | exact Hwf ]; cycle 1.
    { rewrite lookup_insert_eq, <- app_assoc. reflexivity. }
    cbn. rewrite !insert_insert_eq, <- !app_assoc, Nat.add_succ_r.
    reflexivity.
Qed.

Lemma choice_errors_index (m : string) (j : nat) (c : value) :
  m ∈ choice_errors j c → m = no_text_message j ∨ m = no_score_message j.
Proof.
  intros Hin. destruct c; cbn [choice_errors] in Hin;
    try by apply elem_of_nil in Hin.
  apply elem_of_app in Hin as [Hin|Hin].
  - destruct (d !! "text") as [[]|]; try by apply elem_of_nil in Hin.
    destruct (String.eqb _ _); [|by apply elem_of_nil in Hin].
    apply list_elem_of_singleton in Hin. by left.
  - destruct (d !! "score") as [[]|]; try by apply elem_of_nil in Hin.
    destruct (float_of_string _); [by apply elem_of_nil in Hin|].
    apply list_elem_of_singleton in Hin. by right.
Qed.

Lemma choices_errors_app (cs1 cs2 : list value) :
  ∀ k, choices_errors k (cs1 ++ cs2) =
       choices_errors k cs1 ++ choices_errors (k + length cs1) cs2.
Proof.
  induction cs1 as [|c cs1 IH]; intros k; cbn [app choices_errors length].
  - by rewrite Nat.add_0_r.
  - by rewrite IH, <- app_assoc, Nat.add_succ_r.
Qed.

(** X9: a choice without ['score'], or whose score makes [float] raise
    something other than [ValueError] (a [TypeError] for [None]), stops the
    multiple-choice [_validate15] with that exception, [KeyError] in the
    first case.  The choices before it being well formed, they have by then
    been coerced in place, the offending choice and those after it are
    untouched; the errors of the earlier choices have been appended, the
    missing-text error of the offending choice is reported exactly when its
    text is blank, and no numeric-score error is reported for it. *)
Theorem mc_validate15_score_escapes (question_dict : loc) (d : pydict)
    (question description : string) (pre post : list value) (cd : pydict)
    (t : string) (e : exn) (key : value) (st : state) :
  heap st !! question_dict = Some d →
  d !! "question" = Some (VStr question) →
  d !! "description" = Some (VStr description) →
  d !! "choices" = Some (VList (pre ++ VDict cd :: post)) →
  Forall wf_choice pre →
  cd !! "text" = Some (VStr t) →
  (cd !! "score" = None ∧ e = KeyError)
  ∨ (∃ v, cd !! "score" = Some v ∧ py_float v = Raise e
          ∧ ∀ msg, e ≠ ValueError msg) →
  truthy key = false ∨ (∃ z, py_long key = Ok z) →
  ∃ st' d' new,
    _validate15 question_dict key st = (Raise e, st')
    ∧ heap st' !! question_dict = Some d'
    ∧ d' !! "choices" =
        Some (VList (map coerce_choice pre ++ VDict cd :: post))
    ∧ errors st' = errors st ++ new
    ∧ (∀ i c m, pre !! i = Some c → m ∈ choice_errors i c → m ∈ new)
    ∧ ("Choice " +:+ str_of_nat (length pre + 1)
         +:+ " has no response text." ∈ new ↔ strip t = "")
    ∧ "Choice " +:+ str_of_nat (length pre + 1)
        +:+ " must have a numeric score." ∉ new.
Proof.
  intros Hl Hq Hd Hc Hwf Ht Hscore Hkey.
  rewrite (run_mc_validate15_to_loop _ _ _ _ _ _ _ Hl Hq Hd Hc Hkey).
  set (st4 := set_errors _ st).
  assert (heap st4 !! question_dict = Some d) as Hl4 by exact Hl.
  pose proof (run_choices_loop_escape question_dict cd t e post pre Ht
                Hscore [] d st4 Hl4 Hc Hwf) as Hloop.
  cbn [length app] in Hloop. rewrite Hloop. clear Hloop.
  eexists _, _,
    (validate15_errors st question description key
       (pre ++ [VDict (<["text" := VStr t]> ∅)])).
  fold (no_text_message (length pre)) (no_score_message (length pre)).
  split; [reflexivity|]. cbn [heap errors].
  split; [apply lookup_insert_eq|]. split; [apply lookup_insert_eq|].
  split.
  { subst st4. cbn [errors set_errors]. unfold validate15_errors.
    rewrite choices_errors_app. cbn [choices_errors choice_errors Nat.add].
    rewrite lookup_insert_eq, lookup_insert_ne by done.
    rewrite lookup_empty, !app_nil_r, <- !app_assoc.
    by destruct pre. }
  split; [|split].
  - intros i c m Hi Hm.
    apply elem_of_validate15_errors_choice.
    { exists i. by apply choice_errors_index in Hm. }
    exists i, c. split; [|done]. by apply lookup_app_l_Some.
  - rewrite elem_of_validate15_errors_choice by (eexists; by left).
    split.
    + intros (i & c & Hi & Hm).
      apply lookup_app_Some in Hi as [Hi|[Hlen Hi]].
      * apply lookup_lt_Some in Hi.
        apply choice_errors_index in Hm as [Hm|Hm].
        -- apply no_text_message_inj in Hm. lia.
        -- by apply no_text_ne_no_score in Hm.
      * apply list_lookup_singleton_Some in Hi as [Hi <-].
        by destruct (proj1 (elem_of_choice_errors_text _ _ _ t
                              ltac:(apply lookup_insert_eq)) Hm).
    + intros Hs. exists (length pre), (VDict (<["text" := VStr t]> ∅)).
      split; [by rewrite list_lookup_middle|].
      by apply (elem_of_choice_errors_text _ _ _ t);
        [apply lookup_insert_eq|].
  - rewrite elem_of_validate15_errors_choice by (eexists; by right).
    intros (i & c & Hi & Hm).
    apply lookup_app_Some in Hi as [Hi|[Hlen Hi]].
    + apply lookup_lt_Some in Hi.
      apply choice_errors_index in Hm as [Hm|Hm].
      * symmetry in Hm. by apply no_text_ne_no_score in Hm.
      * apply no_score_message_inj in Hm. lia.
    + apply list_lookup_singleton_Some in Hi as [Hi <-].
      cbn [choice_errors] in Hm.
      rewrite lookup_insert_eq, lookup_insert_ne, lookup_empty, app_nil_r
        in Hm by done.
      destruct (String.eqb (strip t) ""); [|by apply elem_of_nil in Hm].
      apply list_elem_of_singleton in Hm. symmetry in Hm.
      by apply no_text_ne_no_score in Hm.
Qed.
End Mc_escapes.

(** ** More of GiftQuestionRESTHandler *)

Section Gift_more.
Context `{Builtins} `{Models} `{Platform}.
Import GiftQuestionRESTHandler GiftForm.

Lemma in_list_spec (v : value) (l : list string) :
  in_list v l = true ↔ ∃ s, v = VStr s ∧ s ∈ l.
Proof.
  split.
  - unfold in_list. rewrite existsb_exists. intros (x & Hx & E).
    destruct v; try discriminate E. cbn in E.
    apply String.eqb_eq in E as ->. eexists. split; [done|].
    by apply list_elem_of_In.
  - intros (s & -> & Hs). by apply in_list_str.
Qed.

(** X10: [validate_group_description] returns normally, changes nothing but
    the errors list, and appends ['Non-unique group description.'], once,
    exactly when the description is a string borne by a stored question
    group; stored questions play no part. *)
Theorem validate_group_description_iff (group_description : value)
    (st : state) :
  ∃ new,
    validate_group_description group_description st =
      (Ok tt, set_errors (errors st ++ new) st)
    ∧ (new = [] ∨ new = ["Non-unique group description."])
    ∧ (new ≠ [] ↔
       ∃ g, g ∈ ds_groups (db st)
            ∧ group_description = VStr (ent_description g)).
Proof.
  unfold validate_group_description, QuestionGroupDAO_get_all.
  rewrite run_bind, run_when_append.
  destruct (in_list _ _) eqn:Hin.
  - eexists. split; [reflexivity|]. split; [by right|].
    split; [intros _|done].
    apply in_list_spec in Hin as (s & -> & Hs).
    apply list_elem_of_fmap in Hs as (g & -> & Hg). by exists g.
  - exists []. split; [reflexivity|]. split; [by left|].
    split; [done|]. intros (g & Hg & ->).
    assert (in_list (VStr (ent_description g))
              (map ent_description (ds_groups (db st))) = true) as Hin'.
    { apply in_list_str, list_elem_of_fmap. by exists g. }
    congruence.
Qed.

Lemma description_errors_count (h : gmap loc pydict) (stored : list string)
    (questions : list loc) (descriptions : list string) :
  Forall2 (λ q s, ∃ d, h !! q = Some d ∧ d !! "description" = Some (VStr s))
    questions descriptions →
  concat (map (description_errors h stored) questions) =
    replicate (length (filter (.∈ stored) descriptions)) collision_message.
Proof.
  induction 1 as [|q s qs ss (d & Hd & Hs) _ IH]; [done|].
  cbn [map concat]. rewrite IH. unfold description_errors.
  rewrite Hd, Hs, filter_cons.
  destruct (decide (s ∈ stored)) as [Hin|Hin].
  - by apply in_list_str in Hin as ->.
  - destruct (in_list _ _) eqn:E; [|done]. by apply in_list_str in E.
Qed.

(** X11: on questions whose descriptions are strings,
    [validate_question_descriptions] returns normally, changes nothing but
    the errors list, and appends the collision error once for every
    imported question, in order, whose description is that of a stored
    question: as many errors as there are such questions, all the same. *)
Theorem validate_question_descriptions_count (questions : list loc)
    (descriptions : list string) (st : state) :
  Forall2 (λ q s, ∃ d, heap st !! q = Some d
                       ∧ d !! "description" = Some (VStr s))
    questions descriptions →
  validate_question_descriptions questions st =
    (Ok tt,
     set_errors
       (errors st
          ++ replicate
               (length
                  (filter (.∈ map ent_description (ds_questions (db st)))
                     descriptions))
               "The description must be different from existing questions.")
       st).
Proof.
  intros Hqs. rewrite run_validate_question_descriptions.
  - by rewrite (description_errors_count _ _ _ _ Hqs).
  - intros q Hq. apply list_elem_of_lookup in Hq as [i Hi].
    destruct (Forall2_lookup_l _ _ _ _ _ Hqs Hi) as (s & _ & d & Hd & Hs).
    eauto.
Qed.
End Gift_more.

Lemma quiet_deref_all (dtos : list QuestionDTO) : quiet (deref_all dtos).
Proof.
  induction dtos as [|dto dtos IH]; [apply quiet_ret|]. cbn [deref_all].
  apply quiet_bind; [apply quiet_deref|]. intros d.
  apply quiet_bind; [apply IH|]. intros rest. apply quiet_ret.
Qed.

Lemma app_singleton_ne {A} (l : list A) (x : A) : l ≠ l ++ [x].
Proof.
  intros E. apply (f_equal length) in E. rewrite length_app in E.
  cbn in E. lia.
Qed.

Section Put_more.
Context `{Builtins} `{Models} `{Platform}.
Import GiftQuestionRESTHandler GiftForm.

Lemma quiet_convert_loop (questions : list loc) :
  ∀ dtos, quiet (convert_loop questions dtos).
Proof.
  induction questions as [|q qs IH]; intros dtos; [apply quiet_ret|].
  cbn [convert_loop].
  apply quiet_bind; [apply quiet_dict_setitem|]. intros _.
  apply quiet_bind; [apply quiet_dict_get|]. intros ty.
  apply quiet_bind; [|intros _; apply IH].
  destruct (eq_str ty "multi_choice"); apply quiet_dict_setitem.
Qed.

(** The writes of a [put_persist] that returns. *)
Lemma put_persist_calls (python_dict : loc) (questions : list loc)
    (st stp : state) :
  put_persist python_dict questions st = (Ok tt, stp) →
  ∃ rows group,
    calls stp = calls st ++ [SaveAll rows; CreateQuestionGroup group].
Proof.
  unfold put_persist, convert_to_dtos. rewrite run_bind.
  destruct (quiet_convert_loop questions [] st) as (_ & Hc1 & _).
  destruct (convert_loop questions [] st) as [[dtos|e] st1]; [|done].
  cbn [snd] in Hc1.
  unfold QuestionDAO_save_all. rewrite !run_bind.
  destruct (quiet_deref_all dtos st1) as (_ & Hc2 & _).
  destruct (deref_all dtos st1) as [[rows|e] st2]; [|done].
  cbn [snd] in Hc2. unfold dao_write at 1.
  destruct (dao_save_all rows (db st2)) as [[ids|e] db3]; [|done].
  set (st3 := set_db _ _). rewrite run_bind.
  destruct (quiet_dict_getitem python_dict "description" st3)
    as (_ & Hc4 & _).
  destruct (dict_getitem python_dict "description" st3)
    as [[gd|e] st4]; [|done].
  cbn [snd] in Hc4. rewrite run_bind.
  unfold create_group, QuestionGroupDAO_create_question_group, dao_write.
  destruct (dao_create_question_group _ (db st4)) as [[gid|e] db5]; [|done].
  intros [= <-]. exists rows, (group_record gd ids). cbn.
  rewrite Hc4. subst st3. cbn. rewrite Hc2, Hc1, <- app_assoc. done.
Qed.

(** Every way in which [put] ends. *)
Lemma put_cases (request_param : value) (st : state) :
  ∃ r st',
    put request_param st = (r, st')
    ∧ ((∃ e, r = Raise e ∧ out st' = out st)
       ∨ (r = Ok tt
          ∧ ((out st' = out st ++ [XsrfRejected] ∧ calls st' = calls st)
             ∨ (out st' = out st ++ [JsonResponse 401 "Access denied."]
                ∧ calls st' = calls st)
             ∨ (∃ message, out st' = out st ++ [ValidationError message]
                           ∧ errors st' ≠ [])
             ∨ (∃ message rows group,
                  out st' = out st ++ [JsonResponse 200 message]
                  ∧ errors st' = []
                  ∧ calls st' =
                      calls st
                        ++ [SaveAll rows; CreateQuestionGroup group])))).
Proof.
  destruct (put request_param st) as [r st'] eqn:Hput.
  exists r, st'. split; [done|]. revert Hput.
  unfold put. rewrite run_bind. unfold lift at 1.
  destruct (loads request_param) as [request|e] eqn:Hreq;
    [|intros [= <- <-]; left; eauto].
  destruct (xsrf_token_ok request) eqn:Hx; cbn [negb];
    [|intros [= <- <-]; right; split; [done|]; by left].
  destruct is_course_admin eqn:Ha; cbn [negb];
    [|intros [= <- <-]; right; split; [done|]; right; by left].
  rewrite run_bind. unfold lift at 1.
  destruct (subscript_get request "payload") as [payload|e] eqn:Hp;
    [|intros [= <- <-]; left; eauto].
  rewrite run_bind. unfold lift at 1.
  destruct (loads payload) as [json_dict|e] eqn:Hj;
    [|intros [= <- <-]; left; eauto].
  assert (reaches_try request_param json_dict) as Hr
    by (by exists request, payload).
  intros Hput.
  assert (put request_param st = (r, st')) as Hput'.
  { rewrite <- Hput. unfold put.
    rewrite Hreq, run_lift_bind, Hx, Ha. cbn [negb].
    by rewrite Hp, run_lift_bind, Hj, run_lift_bind. }
  clear Hput.
  destruct (quiet_put_validate json_dict (set_errors [] st))
    as (_ & Hcalls & Hout).
  destruct (put_validate json_dict (set_errors [] st)) as [[bound|e] stv]
    eqn:Hv; cbn [snd set_errors calls out] in Hcalls, Hout.
  - destruct (errors stv) as [|m ms] eqn:He.
    + pose proof (run_put_try_persist _ _ _ _ Hv He) as Htry.
      destruct (mute_put_persist bound.1 bound.2 stv) as (Ho & Her).
      destruct (put_persist bound.1 bound.2 stv) as [[[]|e] stp] eqn:Hpe;
        cbn [snd] in Ho, Her.
      * rewrite (run_put_try_ok _ _ _ _ _ Hr Htry) in Hput'.
        destruct (put_persist_calls _ _ _ _ Hpe) as (rows & group & Hc).
        unfold put_respond, get_errors in Hput'.
        rewrite run_bind, Her, He in Hput'. rewrite run_bind in Hput'.
        destruct (quiet_dict_getitem bound.1 "description" stp)
          as (_ & Hc' & Ho').
        assert (errors (dict_getitem bound.1 "description" stp).2
                = errors stp) as He'
          by apply mute_dict_getitem.
        destruct (dict_getitem bound.1 "description" stp) as [[gd|e] st5];
          cbn [snd] in Hc', Ho', He'; injection Hput' as <- <-.
        -- right. split; [done|]. do 3 right.
           exists (format_saved gd), rows, group. cbn.
           by rewrite Ho', Ho, Hout, He', Her, He, Hc', Hc, Hcalls.
        -- left. exists e. split; [done|]. by rewrite Ho', Ho, Hout.
      * destruct (caught_by_put e) as [msg|] eqn:Hc.
        -- rewrite (run_put_try_raise _ _ _ _ _ _ Hr Htry Hc) in Hput'.
           injection Hput' as <- <-. right. split; [done|].
           do 2 right. left. eexists. cbn. rewrite Ho, Hout.
           split; [done|]. by destruct (errors stp).
        -- rewrite (run_put_try_uncaught _ _ _ _ _ Hr Htry Hc) in Hput'.
           injection Hput' as <- <-. left. exists e.
           split; [done|]. by rewrite Ho, Hout.
    + assert (errors stv ≠ []) as Hne by (by rewrite He).
      rewrite (run_put_try_ok _ _ _ _ _ Hr
                 (run_put_try_validate_errors _ _ _ _ Hv Hne)) in Hput'.
      rewrite (run_put_respond_errors _ _ Hne) in Hput'.
      injection Hput' as <- <-. right. split; [done|].
      do 2 right. left. eexists. cbn. by rewrite Hout.
  - pose proof (run_put_try_validate_raise _ _ _ _ Hv) as Htry.
    destruct (caught_by_put e) as [msg|] eqn:Hc.
    + rewrite (run_put_try_raise _ _ _ _ _ _ Hr Htry Hc) in Hput'.
      injection Hput' as <- <-. right. split; [done|].
      do 2 right. left. eexists. cbn. rewrite Hout.
      split; [done|]. by destruct (errors stv).
    + rewrite (run_put_try_uncaught _ _ _ _ _ Hr Htry Hc) in Hput'.
      injection Hput' as <- <-. left. exists e. by split.
Qed.

(** X12: [put] answers a request at most once.  When it returns, exactly
    one response has been sent; when it raises, none has. *)
Theorem put_sends_one_response (request_param : value) (st : state) :
  match put request_param st with
  | (Ok _, st') => ∃ resp, out st' = out st ++ [resp]
  | (Raise _, st') => out st' = out st
  end.
Proof.
  destruct (put_cases request_param st) as (r & st' & -> & Hcases).
  destruct Hcases as [(e & -> & Ho)|[-> Hcases]]; [done|].
  destruct Hcases
    as [[Ho _]|[[Ho _]|[(m & Ho & _)|(m & rows & group & Ho & _)]]]; eauto.
Qed.

(** X13: [put] confirms an import only after both writes.  If the response
    is the 200, then [save_all] and then [create_question_group] have been
    called, once each and in this order, and the errors list is empty. *)
Theorem put_confirms_after_writes (request_param : value) (st : state)
    (message : string) :
  let st' := (put request_param st).2 in
  out st' = out st ++ [JsonResponse 200 message] →
  errors st' = []
  ∧ ∃ rows group,
      calls st' = calls st ++ [SaveAll rows; CreateQuestionGroup group].
Proof.
  destruct (put_cases request_param st) as (r & st' & -> & Hcases).
  cbn [snd]. intros Hout.
  destruct Hcases as [(e & -> & Ho)|[-> Hcases]].
  { rewrite Ho in Hout. by apply app_singleton_ne in Hout. }
  destruct Hcases
    as [[Ho _]|[[Ho _]|[(m & Ho & _)|(m & rows & group & Ho & He & Hc)]]].
  - rewrite Ho in Hout. by apply app_inv_head in Hout.
  - rewrite Ho in Hout. by apply app_inv_head in Hout.
  - rewrite Ho in Hout. by apply app_inv_head in Hout.
  - split; [done|]. eauto.
Qed.
End Put_more.

(** The dicts that [alloc_all] creates are new, distinct, and hold the
    given contents; nothing else changes. *)
Lemma run_alloc_all (ds : list pydict) :
  ∀ st, ∃ ls st',
    alloc_all ds st = (Ok ls, st')
    ∧ NoDup ls
    ∧ (∀ l, l ∈ ls → heap st !! l = None)
    ∧ Forall2 (λ l d, heap st' !! l = Some d) ls ds
    ∧ (∀ l, l ∉ ls → heap st' !! l = heap st !! l)
    ∧ errors st' = errors st ∧ db st' = db st
    ∧ out st' = out st ∧ calls st' = calls st.
Proof.
  induction ds as [|d ds IH]; intros st.
  - exists [], st. split; [done|]. split; [constructor|].
    split; [by intros l ?%elem_of_nil|]. by split.
  - cbn [alloc_all]. rewrite (run_bind_ok _ _ _ _ _ (run_alloc d st)).
    set (l := fresh (dom (heap st))). set (st1 := set_heap _ st).
    destruct (IH st1)
      as (ls & st' & Hrun & Hnd & Hnew & Hall & Hother & He & Hdb & Ho & Hc).
    exists (l :: ls), st'. rewrite (run_bind_ok _ _ _ _ _ Hrun).
    split; [done|].
    assert (l ∉ ls) as Hl.
    { intros Hin. apply Hnew in Hin. subst st1. cbn in Hin.
      by rewrite lookup_insert_eq in Hin. }
    split; [by constructor|]. split.
    { intros l' [->|Hin]%elem_of_cons; [apply fresh_unallocated|].
      apply Hnew in Hin. subst st1. cbn in Hin.
      apply lookup_insert_None in Hin. tauto. }
    split.
    { constructor; [|done]. rewrite Hother by done. subst st1. cbn.
      apply lookup_insert_eq. }
    split; [|done].
    intros l' [Hne Hnotin]%not_elem_of_cons. rewrite Hother by done.
    subst st1. cbn. by rewrite lookup_insert_ne.
Qed.

Lemma run_deref_all (ls : list loc) (ds : list pydict) (st : state) :
  Forall2 (λ l d, heap st !! l = Some d) ls ds →
  deref_all (map (DTO None) ls) st = (Ok (map (pair None) ds), st).
Proof.
  induction 1 as [|l d ls ds Hl _ IH]; [done|].
  cbn [map deref_all dto_dict dto_id].
  rewrite (run_bind_ok _ _ _ _ _ (run_deref _ _ _ Hl)).
  by rewrite (run_bind_ok _ _ _ _ _ IH).
Qed.

Section Put_success.
Context `{Builtins} `{Models} `{Platform}.
Import GiftQuestionRESTHandler GiftForm.

(** X14: an import that passes validation.  The request reaching the [try]
    statement, the payload converting to a dict whose ['questions'] text
    parses, no parsed question bearing the description of a stored
    question, the group description being a string that no stored group
    bears, and both writes succeeding: [put] returns, [save_all] is called
    with one row per parsed question, in order, each without id and
    carrying the parsed dict with ['version'] and ['type'] set, then
    [create_question_group] with the record built from the description and
    the ids that [save_all] returned; the datastore is what the second
    write left, the errors list is empty and the response is the 200
    ['Saved: <description>.']. *)
Theorem put_imports (request_param json_dict text : value)
    (python_dict : pydict) (parsed : list pydict) (description : string)
    (ids : list Z) (gid : Z) (db1 db2 : datastore) (st : state) :
  reaches_try request_param json_dict →
  json_to_dict json_dict = Ok python_dict →
  python_dict !! "questions" = Some text →
  parse_questions text = Ok parsed →
  python_dict !! "description" = Some (VStr description) →
  (∀ d, d ∈ parsed →
        ∃ s, d !! "description" = Some (VStr s)
             ∧ s ∉ map ent_description (ds_questions (db st))) →
  description ∉ map ent_description (ds_groups (db st)) →
  dao_save_all (map (pair None) (map converted parsed)) (db st)
    = (Ok ids, db1) →
  dao_create_question_group (group_record (VStr description) ids) db1
    = (Ok gid, db2) →
  ∃ st',
    put request_param st = (Ok tt, st')
    ∧ calls st' =
        calls st
          ++ [SaveAll (map (pair None) (map converted parsed));
              CreateQuestionGroup (group_record (VStr description) ids)]
    ∧ db st' = db2
    ∧ errors st' = []
    ∧ out st' =
        out st ++ [JsonResponse 200 ("Saved: " +:+ description +:+ ".")].
Proof.
  intros Hr Hj Hq Hp Hd Hfresh Hgroup Hsave Hcreate.
  set (st0 := set_errors [] st).
  set (pd := fresh (dom (heap st0))).
  set (st1 := set_heap (<[pd := python_dict]> (heap st0)) st0).
  assert (heap st1 !! pd = Some python_dict) as Hpd1
    by apply lookup_insert_eq.
  destruct (run_alloc_all parsed st1)
    as (qs & st2 & Hrun & Hnd & Hnew & Hall & Hother & He & Hdb & Ho & Hc).
  assert (pd ∉ qs) as Hpd.
  { intros Hin. apply Hnew in Hin. congruence. }
  assert (heap st2 !! pd = Some python_dict) as Hpd2
    by (by rewrite Hother).
  (* validation reports nothing *)
  assert (validate_question_descriptions qs st2 = (Ok tt, st2)) as Hvq.
  { rewrite run_validate_question_descriptions.
    - replace (concat _) with (@nil string).
      { rewrite app_nil_r. unfold set_errors. by rewrite state_eta. }
      symmetry. apply elem_of_nil_inv. intros m Hm.
      apply list_elem_of_In, in_concat in Hm as (l & Hl & Hm).
      apply in_map_iff in Hl as (q & <- & Hqin).
      apply list_elem_of_In, list_elem_of_lookup in Hqin as [i Hi].
      destruct (Forall2_lookup_l _ _ _ _ _ Hall Hi) as (d & Hdi & Hqd).
      destruct (Hfresh d) as (s & Hs & Hns);
        [by eapply list_elem_of_lookup_2|].
      unfold description_errors in Hm. rewrite Hqd, Hs in Hm.
      destruct (in_list _ _) eqn:Hin; [|done].
      apply in_list_str in Hin. rewrite Hdb in Hin. done.
    - intros q Hqin. apply list_elem_of_lookup in Hqin as [i Hi].
      destruct (Forall2_lookup_l _ _ _ _ _ Hall Hi) as (d & Hdi & Hqd).
      destruct (Hfresh d) as (s & Hs & _);
        [by eapply list_elem_of_lookup_2|].
      eauto. }
  assert (validate_group_description (VStr description) st2 = (Ok tt, st2))
    as Hvg.
  { unfold validate_group_description, QuestionGroupDAO_get_all.
    rewrite run_bind, run_when_append.
    destruct (in_list _ _) eqn:Hin.
    - apply in_list_str in Hin. rewrite Hdb in Hin. done.
    - rewrite app_nil_r. unfold set_errors. by rewrite state_eta. }
  assert (put_validate json_dict st0 = (Ok (pd, qs), st2)) as Hv.
  { unfold put_validate. rewrite Hj, run_lift_bind.
    rewrite (run_bind_ok _ _ _ _ _ (run_alloc python_dict st0)).
    fold pd st1.
    rewrite (run_bind_ok _ _ _ _ _ (run_dict_getitem _ _ _ _ _ Hpd1 Hq)).
    rewrite Hp, run_lift_bind.
    rewrite (run_bind_ok _ _ _ _ _ Hrun).
    rewrite (run_bind_ok _ _ _ _ _ Hvq).
    rewrite (run_bind_ok _ _ _ _ _ (run_dict_getitem _ _ _ _ _ Hpd2 Hd)).
    by rewrite (run_bind_ok _ _ _ _ _ Hvg). }
  (* the writes *)
  set (st3 := set_heap (convert_heap qs (heap st2)) st2).
  assert (Forall2 (λ l d, heap st3 !! l = Some d) qs
            (map converted parsed)) as Hall3.
  { apply Forall2_fmap_r, Forall2_same_length_lookup.
    split; [by eapply Forall2_length|].
    intros i q d Hi Hdi.
    destruct (Forall2_lookup_l _ _ _ _ _ Hall Hi) as (d' & Hdi' & Hqd).
    assert (d' = d) as -> by congruence.
    apply convert_heap_question; [done| |done].
    by eapply list_elem_of_lookup_2. }
  assert (heap st3 !! pd = Some python_dict) as Hpd3.
  { subst st3. cbn. by rewrite convert_heap_other. }
  set (rows := map (pair None) (map converted parsed)) in *.
  set (group := group_record (VStr description) ids) in *.
  assert (put_persist pd qs st2 =
            (Ok tt,
             State (heap st3) (errors st3) db2 (out st3)
               ((calls st3 ++ [SaveAll rows])
                  ++ [CreateQuestionGroup group]))) as Hpersist.
  { unfold put_persist, convert_to_dtos.
    rewrite (run_bind_ok _ _ _ _ _ (run_convert_loop qs [] st2
                                      ltac:(intros q Hqin;
                                            apply list_elem_of_lookup in Hqin
                                              as [i Hi];
                                            destruct (Forall2_lookup_l
                                                        _ _ _ _ _ Hall Hi)
                                              as (d & _ & ->); eauto))).
    cbn [app]. fold st3.
    unfold QuestionDAO_save_all.
    rewrite run_bind, (run_bind_ok _ _ _ _ _ (run_deref_all _ _ _ Hall3)).
    fold rows. unfold dao_write at 1.
    assert (db st3 = db st) as -> by (subst st3; cbn; by rewrite Hdb).
    rewrite Hsave.
    set (st4 := set_db _ _).
    assert (heap st4 !! pd = Some python_dict) as Hpd4 by exact Hpd3.
    rewrite (run_bind_ok _ _ _ _ _ (run_dict_getitem _ _ _ _ _ Hpd4 Hd)).
    rewrite run_bind.
    unfold create_group, QuestionGroupDAO_create_question_group, dao_write.
    fold group. subst st4. cbn [db set_db set_calls]. rewrite Hcreate.
    reflexivity. }
  eexists.
  split.
  { eapply (put_saved _ _ _ _ _ (pd, qs)); [exact Hr|exact Hv| |
      exact Hpersist|exact Hpd3|exact Hd].
    by rewrite He. }
  cbn. rewrite Hc, He, <- app_assoc. done.
Qed.
End Put_success.

Section Put_rejects.
Context `{Builtins} `{Models} `{Platform}.
Import GiftQuestionRESTHandler GiftForm.

(** X15: a request whose XSRF token is refused, or that does not come from
    a course admin, is answered before its payload is looked at: [put]
    returns whatever the payload holds, even none; the one response is the
    XSRF rejection when the token is refused, whoever sends it, and
    otherwise the 401 ['Access denied.']; no object, error, datastore
    entry or write call is touched. *)
Theorem put_rejects (request_param request : value) (st : state) :
  loads request_param = Ok request →
  xsrf_token_ok request = false ∨ is_course_admin = false →
  put request_param st =
    (Ok tt,
     set_out
       (out st ++ [if xsrf_token_ok request
                   then JsonResponse 401 "Access denied."
                   else XsrfRejected]) st).
Proof.
  intros Hreq Hdenied. unfold put. rewrite Hreq, run_lift_bind.
  destruct (xsrf_token_ok request); cbn [negb]; [|done].
  destruct Hdenied as [?| ->]; done.
Qed.
End Put_rejects.

Section Hook_twice.
Import McQuestionRESTHandler McForm.

(** X16: the editor hook is not idempotent.  The strings it writes are
    both non-empty, so both are truthy: applied to a dict that is already
    in editor form, such as its own result, it sets
    ['multiple_selections'] to ['true'] whatever the stored value was;
    the other keys still have the values of the first dict. *)
Theorem transform_for_editor_hook_twice (q_dict : loc) (d : pydict)
    (st : state) :
  heap st !! q_dict = Some d →
  ∃ p_dict st1 r_dict st2 r,
    transform_for_editor_hook q_dict st = (Ok p_dict, st1)
    ∧ transform_for_editor_hook p_dict st1 = (Ok r_dict, st2)
    ∧ heap st2 !! r_dict = Some r
    ∧ r !! "multiple_selections" = Some (VStr "true")
    ∧ (∀ k, k ≠ "multiple_selections" → r !! k = d !! k).
Proof.
  intros Hq. eexists _, _, _, _, _.
  split; [apply (run_transform_for_editor_hook _ _ _ Hq)|].
  split.
  { apply run_transform_for_editor_hook. cbn. apply lookup_insert_eq. }
  cbn. split; [apply lookup_insert_eq|].
  split.
  - rewrite lookup_insert_eq. unfold selection_string.
    rewrite lookup_insert_eq. cbn.
    by destruct (truthy (default VNone (d !! "multiple_selections"))).
  - intros k Hk. by rewrite !lookup_insert_ne.
Qed.
End Hook_twice.

Section Sa_missing.
Context `{Builtins}.
Import BaseQuestionRESTHandler BaseForm SaQuestionRESTHandler SaForm.

(** X17: every field of the short-answer schema is optional, and
    [get_default_content] gives neither ['rows'] nor ['columns'].  On a
    form without ['rows'], [_validate15] raises [KeyError]; no object has
    changed by then, and what was reported about the question body and
    the description stays in the errors list. *)
Theorem sa_validate15_without_rows (question_dict : loc) (d : pydict)
    (question description : string) (key : value) (st : state) :
  heap st !! question_dict = Some d →
  d !! "question" = Some (VStr question) →
  d !! "description" = Some (VStr description) →
  d !! "rows" = None →
  truthy key = false ∨ (∃ z, py_long key = Ok z) →
  ∃ st',
    _validate15 question_dict key st = (Raise KeyError, st')
    ∧ heap st' = heap st
    ∧ errors st' =
        errors st
          ++ (if String.eqb (strip question) ""
              then ["The question must have a non-empty body."] else [])
          ++ (if String.eqb description ""
              then ["The description must be non-empty."] else [])
          ++ (if collidesb (ds_questions (db st)) description key
              then [collision_message] else [])
    ∧ db st' = db st ∧ out st' = out st ∧ calls st' = calls st.
Proof.
  intros Hl Hq Hd Hr Hkey. eexists. unfold _validate15.
  rewrite (run_bind_ok _ _ _ _ _ (run_dict_getitem _ _ _ _ _ Hl Hq)).
  cbn [str_strip]. rewrite run_lift_bind.
  rewrite (run_bind_ok _ _ _ _ _ (run_when_append _ _ _)).
  set (st1 := set_errors _ st).
  assert (heap st1 !! question_dict = Some d) as Hl1 by exact Hl.
  rewrite (run_bind_ok _ _ _ _ _ (run_dict_getitem _ _ _ _ _ Hl1 Hd)).
  rewrite (run_bind_ok _ _ _ _ _ (run_when_append _ _ _)).
  set (st2 := set_errors _ st1).
  assert (heap st2 !! question_dict = Some d) as Hl2 by exact Hl.
  rewrite (run_bind_ok _ _ _ _ _ (run_dict_getitem _ _ _ _ _ Hl2 Hd)).
  rewrite (run_bind_ok _ _ _ _ _
             (run_validate_no_description_collision _ _ _ Hkey)).
  set (st3 := set_errors _ st2).
  assert (heap st3 !! question_dict = Some d) as Hl3 by exact Hl.
  rewrite run_bind. unfold coerce_dimension at 1, try_except.
  rewrite run_bind. unfold dict_getitem at 1.
  rewrite (run_bind_ok _ _ _ _ _ (run_deref _ _ _ Hl3)).
  cbn [subscript]. rewrite Hr. cbn.
  split; [reflexivity|]. split; [reflexivity|].
  split; [|done]. cbn [errors set_errors db].
  rewrite <- !app_assoc. by destruct description.
Qed.
End Sa_missing.

(** ** Deleting a question *)

Lemma string_leb_trans (s1 s2 s3 : string) :
  String.leb s1 s2 = true → String.leb s2 s3 = true →
  String.leb s1 s3 = true.
Proof.
  revert s2 s3. induction s1 as [|a s1 IH]; intros [|b s2] [|c s3];
    unfold String.leb; cbn; try done.
  unfold Ascii.compare.
  destruct (N.compare_spec (N_of_ascii a) (N_of_ascii b)),
    (N.compare_spec (N_of_ascii b) (N_of_ascii c)),
    (N.compare_spec (N_of_ascii a) (N_of_ascii c));
    try done; try lia.
  apply IH.
Qed.

Lemma string_le_trans : Transitive string_le.
Proof. intros s1 s2 s3. apply string_leb_trans. Qed.

Lemma string_le_total : Total string_le.
Proof. intros s1 s2. apply String.leb_total. Qed.

Lemma string_le_antisymm : AntiSymm (=) string_le.
Proof. intros s1 s2. apply String.leb_antisym. Qed.

Lemma Sorted_sorted (l : list string) : Sorted string_le (sorted l).
Proof. apply (@Sorted_merge_sort _ string_le _ string_le_total). Qed.

Lemma sorted_Permutation (l1 l2 : list string) :
  l1 ≡ₚ l2 → sorted l1 = sorted l2.
Proof.
  intros Hp.
  apply (@Sorted_unique _ string_le string_le_trans string_le_antisymm).
  - apply Sorted_sorted.
  - apply Sorted_sorted.
  - unfold sorted. by rewrite !merge_sort_Permutation.
Qed.


(** X19: the outcome of [is_deletion_allowed] does not depend on the order
    in which [QuestionDAO.used_by] lists the groups, nor on anything of a
    group but its description. *)
Theorem is_deletion_allowed_order (used_by1 used_by2 : Z → list entity)
    (question : entity) :
  map ent_description (used_by1 (ent_id question))
    ≡ₚ map ent_description (used_by2 (ent_id question)) →
  is_deletion_allowed used_by1 question
  = is_deletion_allowed used_by2 question.
Proof.
  intros Hp. unfold is_deletion_allowed.
  assert (group_names (used_by1 (ent_id question))
          = group_names (used_by2 (ent_id question))) as Hn.
  { unfold group_names. apply sorted_Permutation.
    rewrite <- !(map_map ent_description quoted).
    by apply Permutation_map. }
  destruct (used_by1 (ent_id question)) as [|g1 gs1],
    (used_by2 (ent_id question)) as [|g2 gs2]; try done.
  - by apply Permutation_nil_cons in Hp.
  - symmetry in Hp. by apply Permutation_nil_cons in Hp.
  - by rewrite Hn.
Qed.

(** * The further properties at work on the sample instance *)

Lemma sanitize_input_dict_raises_witness :
  BaseQuestionRESTHandler.sanitize_input_dict 1 (with_form ∅)
    = (Raise KeyError, with_form ∅)
  ∧ BaseQuestionRESTHandler.sanitize_input_dict 1
      (with_form (<["description" := VNone]> ∅))
    = (Raise AttributeError, with_form (<["description" := VNone]> ∅)).
Proof.
  split.
  - destruct (sanitize_input_dict_raises 1 ∅ (with_form ∅) eq_refl)
      as [Hkey _].
    apply Hkey. reflexivity.
  - destruct (sanitize_input_dict_raises 1 (<["description" := VNone]> ∅)
                (with_form (<["description" := VNone]> ∅)) eq_refl)
      as [_ Hattr].
    apply (Hattr VNone); [reflexivity|discriminate].
Defined.






Lemma sanitize_then_validate_description_witness :
  ∃ st' new,
    (BaseQuestionRESTHandler.sanitize_input_dict 1
       ≫= λ _, McQuestionRESTHandler._validate15 1 VNone)
      (with_form mc_form) = (Ok tt, st')
    ∧ errors st' = new
    ∧ ("The description must be non-empty." ∉ new).
Proof.
  destruct (sanitize_then_validate_description 1 mc_form _ _ _ VNone
              (with_form mc_form) eq_refl wf_mc_form (or_introl eq_refl))
    as (st' & new & Hrun & Herr & Hempty & _).
  exists st', new. split; [exact Hrun|]. split; [exact Herr|].
  intros Hin. apply Hempty in Hin. discriminate Hin.
Defined.

Lemma mc_validate15_confined_witness :
  ∃ d',
    heap (McQuestionRESTHandler._validate15 1 VNone (with_form mc_form)).2
      !! 1%positive = Some d'
    ∧ d' !! "question" = mc_form !! "question"
    ∧ d' !! "multiple_selections" = mc_form !! "multiple_selections".
Proof.
  destruct (mc_validate15_confined 1 VNone mc_form (with_form mc_form)
              eq_refl) as (d' & Hd' & Hkeys & _).
  exists d'. split; [exact Hd'|].
  split; apply Hkeys; discriminate.
Defined.

Lemma sa_validate15_confined_witness :
  ∃ d',
    heap (SaQuestionRESTHandler._validate15 1 VNone (with_form sa_form)).2
      !! 1%positive = Some d'
    ∧ d' !! "graders" = sa_form !! "graders".
Proof.
  destruct (sa_validate15_confined 1 VNone sa_form (with_form sa_form)
              eq_refl) as (d' & Hd' & Hkeys & _).
  exists d'. split; [exact Hd'|]. apply Hkeys; discriminate.
Defined.

Lemma sa_validate15_graders_witness :
  ∃ st' d',
    SaQuestionRESTHandler._validate15 1 VNone (with_form sa_form)
      = (Ok tt, st')
    ∧ heap st' !! 1%positive = Some d'
    ∧ d' !! "graders" = Some (VList [grader "case_insensitive" "paris" "1"])
    ∧ ("The question must have at least one answer." ∉ errors st').
Proof.
  destruct (sa_validate15_graders 1 sa_form _ _ _ _ _ VNone
              (with_form sa_form) eq_refl wf_sa_form (or_introl eq_refl))
    as (st' & d' & new & Hrun & Hd' & Hg & Herr & Hnone & _).
  exists st', d'. rewrite Herr.
  split; [exact Hrun|]. split; [exact Hd'|]. split; [exact Hg|].
  intros Hin. apply Hnone in Hin. discriminate Hin.
Defined.

Lemma sa_validate15_unknown_matcher_witness :
  let form :=
    <["graders" := VList [grader "fuzzy" "paris" "1"]]> sa_form in
  ∃ st' d',
    SaQuestionRESTHandler._validate15 1 VNone (with_form form)
      = (Raise AssertionError, st')
    ∧ heap st' !! 1%positive = Some d'
    ∧ d' !! "rows" = Some (VInt 3)
    ∧ d' !! "columns" = Some (VStr "wide").
Proof.
  intros form.
  destruct (sa_validate15_unknown_matcher 1 form
              "Name the capital of France." "Capital, short" "3" "wide"
              [] []
              (<["matcher" := VStr "fuzzy"]>
                 (<["response" := VStr "paris"]>
                    (<["score" := VStr "1"]>
                       (<["feedback" := VStr ""]> ∅))))
              (VStr "fuzzy") VNone (with_form form))
    as (st' & d' & Hrun & Hd' & Hrows & Hcols & _);
    [reflexivity|reflexivity|reflexivity|reflexivity|reflexivity|
     reflexivity|constructor|reflexivity| |by left|].
  { intros m Hm [= <-]. vm_compute in Hm.
    repeat (apply elem_of_cons in Hm as [Hm|Hm]; [discriminate Hm|]).
    by apply elem_of_nil in Hm. }
  exists st', d'. split; [exact Hrun|]. split; [exact Hd'|].
  split; [exact Hrows|exact Hcols].
Defined.

Lemma mc_validate15_score_escapes_witness :
  let form :=
    <["choices" :=
        VList [choice "Paris" "1"; VDict (<["text" := VStr "Lyon"]> ∅)]]>
      mc_form in
  ∃ st' d',
    McQuestionRESTHandler._validate15 1 VNone (with_form form)
      = (Raise KeyError, st')
    ∧ heap st' !! 1%positive = Some d'
    ∧ d' !! "choices" =
        Some (VList [VDict (<["score" := VFloat float_one]>
                              (choice_dict "Paris" "1"));
                     VDict (<["text" := VStr "Lyon"]> ∅)])
    ∧ ("Choice 2 must have a numeric score." ∉ errors st').
Proof.
  intros form.
  destruct (mc_validate15_score_escapes 1 form
              "Which city is the capital of France?" "  Capital of France "
              [choice "Paris" "1"] [] (<["text" := VStr "Lyon"]> ∅)
              "Lyon" KeyError VNone (with_form form))
    as (st' & d' & new & Hrun & Hd' & Hch & Herr & _ & _ & Hnot);
    [reflexivity|reflexivity|reflexivity|reflexivity| |reflexivity|
     by left|by left|].
  { repeat constructor. eexists _, _, _. repeat split; reflexivity. }
  exists st', d'. split; [exact Hrun|]. split; [exact Hd'|].
  split; [exact Hch|]. rewrite Herr. exact Hnot.
Defined.

Lemma validate_question_descriptions_count_witness :
  let st :=
    State (<[1%positive := question_of_line "Primes"]>
             (<[2%positive := question_of_line "Rivers"]> ∅))
      [] stored [] [] in
  GiftQuestionRESTHandler.validate_question_descriptions
    [1; 2; 1]%positive st
  = (Ok tt,
     set_errors
       ["The description must be different from existing questions.";
        "The description must be different from existing questions."] st).
Proof.
  intros st.
  apply (validate_question_descriptions_count [1; 2; 1]%positive
           ["Primes"; "Rivers"; "Primes"] st).
  repeat constructor; eexists; split; reflexivity.
Defined.

Lemma put_confirms_after_writes_witness :
  let r := GiftQuestionRESTHandler.put
             (import_request "Geography" "Capital of France?")
             empty_state in
  errors r.2 = []
  ∧ ∃ rows group, calls r.2 = [SaveAll rows; CreateQuestionGroup group].
Proof.
  apply (put_confirms_after_writes
           (import_request "Geography" "Capital of France?") empty_state
           "Saved: Geography.").
  vm_compute. reflexivity.
Defined.

Lemma put_imports_witness :
  ∃ st',
    GiftQuestionRESTHandler.put
      (import_request "Geography" "Capital of France?")
      (State ∅ [] stored [] []) = (Ok tt, st')
    ∧ calls st' =
        [SaveAll
           [(None,
             GiftForm.converted (question_of_line "Capital of France?"))];
         CreateQuestionGroup
           (GiftQuestionRESTHandler.group_record (VStr "Geography") [9%Z])]
    ∧ errors st' = []
    ∧ out st' = [JsonResponse 200 "Saved: Geography."].
Proof.
  set (rows :=
         [(None : option Z,
           GiftForm.converted (question_of_line "Capital of France?"))]).
  set (group :=
         GiftQuestionRESTHandler.group_record (VStr "Geography") [9%Z]).
  destruct (put_imports (import_request "Geography" "Capital of France?")
              (import_payload "Geography" "Capital of France?")
              (VStr "Capital of France?")
              (<["description" := VStr "Geography"]>
                 (<["questions" := VStr "Capital of France?"]> ∅))
              [question_of_line "Capital of France?"] "Geography"
              [9%Z] 2%Z (save_all rows stored).2
              (create_question_group group (save_all rows stored).2).2
              (State ∅ [] stored [] []))
    as (st' & Hrun & Hcalls & _ & Herr & Hout).
  - eexists _, _. repeat split; reflexivity.
  - reflexivity.
  - reflexivity.
  - reflexivity.
  - reflexivity.
  - intros d Hd. apply list_elem_of_singleton in Hd as ->.
    exists "Capital of France?". split; [reflexivity|].
    intros Hin. vm_compute in Hin.
    repeat (apply elem_of_cons in Hin as [Hin|Hin]; [discriminate Hin|]).
    by apply elem_of_nil in Hin.
  - intros Hin. vm_compute in Hin.
    repeat (apply elem_of_cons in Hin as [Hin|Hin]; [discriminate Hin|]).
    by apply elem_of_nil in Hin.
  - vm_compute. reflexivity.
  - vm_compute. reflexivity.
  - exists st'. split; [exact Hrun|]. split; [exact Hcalls|].
    split; [exact Herr|exact Hout].
Defined.

Lemma put_rejects_witness :
  GiftQuestionRESTHandler.put (H1 := visitor_platform)
    (import_request "Geography" "Capital of France?") empty_state
  = (Ok tt, set_out [JsonResponse 401 "Access denied."] empty_state).
Proof.
  apply (put_rejects (H1 := visitor_platform)
           (import_request "Geography" "Capital of France?")
           (import_request "Geography" "Capital of France?") empty_state).
  - reflexivity.
  - right. reflexivity.
Defined.

Lemma transform_for_editor_hook_twice_witness :
  ∃ p_dict st1 r_dict st2 r,
    McQuestionRESTHandler.transform_for_editor_hook 1
      (with_form mc_default_content) = (Ok p_dict, st1)
    ∧ McQuestionRESTHandler.transform_for_editor_hook p_dict st1
      = (Ok r_dict, st2)
    ∧ heap st2 !! r_dict = Some r
    ∧ mc_default_content !! "multiple_selections" = Some (VStr "false")
    ∧ r !! "multiple_selections" = Some (VStr "true").
Proof.
  destruct (transform_for_editor_hook_twice 1 mc_default_content
              (with_form mc_default_content) eq_refl)
    as (p_dict & st1 & r_dict & st2 & r & Hrun1 & Hrun2 & Hr & Hsel & _).
  exists p_dict, st1, r_dict, st2, r.
  split; [exact Hrun1|]. split; [exact Hrun2|]. split; [exact Hr|].
  split; [reflexivity|exact Hsel].
Defined.

Lemma sa_validate15_without_rows_witness :
  ∃ st',
    SaQuestionRESTHandler._validate15 1 VNone (with_form sa_default_content)
      = (Raise KeyError, st')
    ∧ heap st' = heap (with_form sa_default_content)
    ∧ errors st' =
        ["The question must have a non-empty body.";
         "The description must be non-empty."].
Proof.
  destruct (sa_validate15_without_rows 1 sa_default_content "" "" VNone
              (with_form sa_default_content))
    as (st' & Hrun & Hheap & Herr & _);
    [reflexivity|reflexivity|reflexivity|reflexivity|by left|].
  exists st'. split; [exact Hrun|]. split; [exact Hheap|exact Herr].
Defined.

Lemma is_deletion_allowed_order_witness :
  let week1 := Entity 1 "Week 1" ∅ in
  let exam := Entity 2 "Exam" ∅ in
  let question := Entity 7 "Primes" ∅ in
  is_deletion_allowed (λ _, [week1; exam]) question
  = is_deletion_allowed (λ _, [exam; week1]) question.
Proof.
  intros week1 exam question.
  apply (is_deletion_allowed_order (λ _, [week1; exam])
           (λ _, [exam; week1]) question).
  apply perm_swap.
Defined.

(** The refusal behind it. *)
Example is_deletion_allowed_run :
  let week1 := Entity 1 "Week 1" ∅ in
  let exam := Entity 2 "Exam" ∅ in
  let question := Entity 7 "Primes" ∅ in
  is_deletion_allowed (λ _, [week1; exam]) question
  = (false,
     Some (Refusal 403
             ("Question in use by question groups:" +:+ String "010"%char
                (String "034"%char "Exam" +:+ String "034"%char ","
                   +:+ String "010"%char
                         (String "034"%char "Week 1"
                            +:+ String "034"%char "."
                            +:+ String "010"%char
                                  "Please delete it from those groups and try again.")))
             (<["key" := VInt 7]> ∅))).
Proof. vm_compute. reflexivity. Qed.
